(** * Sales-agent tool dispatch and conversation tracking

    A shallow embedding of the Python sources

    - [src/models/conversation.py]             ([Conversation])
    - [src/orchestrator/swarm_orchestrator.py] ([Orchestrator])
    - [src/tools/crm_tool.py]                  ([Retry], [CRMTool])
    - [src/mcp_servers/base_mcp.py]            ([BaseMCP])
    - [src/mcp_servers/mock_crm_server.py]     ([MockCRM])
    - [src/agents/mcp_tools.py]                ([MCPTools])
    - [src/utils/mcp_server_factory.py]        ([Factory])
    - [src/agents/swarm_sales_agent.py]        ([SwarmAgent])
    - [src/mcp_servers/http_server.py]         ([HttpServer])

    Python dictionaries are finite maps ([gmap]) where only lookups matter
    and association lists where insertion order is observable.  Python
    [int] is [Z], [datetime] is an integer number of microseconds, and the
    [float] seconds of [time.time()] and of the retry delays are exact
    rationals ([Q]).  Everything the code obtains from its environment
    (clock, UUID generator, the agent pipeline) is an oracle indexed by the
    number of earlier uses, and the number of uses is part of the state. *)

From Stdlib Require Import ZArith QArith Qpower List String Ascii Bool Lia.
From stdpp Require Import base option list gmap strings fin_maps pretty.

Set Warnings "-register-all".

Local Open Scope Z_scope.
Local Open Scope string_scope.

(** ** Python preliminaries *)

(** Exceptions raised by the modelled code, with their message. *)
Inductive exn : Type :=
  | ValueError (msg : string)
  | RuntimeError (msg : string)
  | TypeError (msg : string)
  | OtherError (type_name msg : string).

(** [type(e).__name__] and [str(e)]. *)
Definition exn_name (e : exn) : string :=
  match e with
  | ValueError _ => "ValueError"
  | RuntimeError _ => "RuntimeError"
  | TypeError _ => "TypeError"
  | OtherError type_name _ => type_name
  end.

Definition exn_str (e : exn) : string :=
  match e with
  | ValueError msg | RuntimeError msg | TypeError msg | OtherError _ msg => msg
  end.

(** The outcome of a call that may raise. *)
Inductive outcome (A : Type) : Type :=
  | Returns (a : A)
  | Raises (e : exn).
Arguments Returns {A} a.
Arguments Raises {A} e.

(** Truthiness of a [str] and of an [Optional[str]]. *)
Definition str_truthy (s : string) : bool :=
  match s with EmptyString => false | String _ _ => true end.

Definition opt_truthy (o : option string) : bool :=
  match o with None => false | Some s => str_truthy s end.

(** The line feed and the double quote, as one-character strings. *)
Definition newline : string := String (ascii_of_nat 10) EmptyString.
Definition quote : string := String (ascii_of_nat 34) EmptyString.

(** [sep.join(items)]. *)
Fixpoint join (sep : string) (items : list string) : string :=
  match items with
  | [] => ""
  | [x] => x
  | x :: rest => x ++ sep ++ join sep rest
  end.

(** [needle in haystack] on strings. *)
Fixpoint contains (needle haystack : string) : bool :=
  String.prefix needle haystack ||
  match haystack with
  | EmptyString => false
  | String _ rest => contains needle rest
  end.

(** [str.lower] restricted to the ASCII letters; used wherever a concrete
    lower-casing function is needed. *)
Definition ascii_lower_char (c : ascii) : ascii :=
  let n := nat_of_ascii c in
  if (Nat.leb 65 n && Nat.leb n 90)%bool then ascii_of_nat (n + 32) else c.

Fixpoint ascii_lower (s : string) : string :=
  match s with
  | EmptyString => EmptyString
  | String c rest => String (ascii_lower_char c) (ascii_lower rest)
  end.

(** The loop shared by [MCPTools.call_tool] and
    [BaseMCPServer._validate_tool_exists]: the known names of which the
    requested name is a substring, or which are a substring of it, after
    lower-casing both with [lower]. *)
Definition similar_names (lower : string -> string) (tool_name : string)
    (known : list string) : list string :=
  let tool_name_lower := lower tool_name in
  List.filter (fun candidate =>
                 contains tool_name_lower (lower candidate)
                 || contains (lower candidate) tool_name_lower)
              known.

(** [needle] occurs in [haystack]. *)
Definition is_substring (needle haystack : string) : Prop :=
  exists before after, haystack = before ++ needle ++ after.

(** Values held by the dictionaries that cross the tool interface. *)
Inductive PyValue : Type :=
  | PNone
  | PBool (b : bool)
  | PInt (n : Z)
  | PStr (s : string)
  | PDatetime (t : Z)
  | PList (elements : list PyValue)
  | PDict (items : list (string * PyValue)).

(** A [dict] with string keys, in insertion order. *)
Abbreviation PyDict := (list (string * PyValue)).

Definition of_opt (o : option string) : PyValue :=
  match o with None => PNone | Some s => PStr s end.

(** [k in d], [d.get(k)], [d[k] = v] and [d.keys()] on insertion-ordered
    dictionaries. *)
Fixpoint dict_get {V} (k : string) (d : list (string * V)) : option V :=
  match d with
  | [] => None
  | (k', v) :: rest => if String.eqb k k' then Some v else dict_get k rest
  end.

Definition dict_has {V} (k : string) (d : list (string * V)) : bool :=
  match dict_get k d with Some _ => true | None => false end.

Fixpoint dict_set {V} (k : string) (v : V) (d : list (string * V))
  : list (string * V) :=
  match d with
  | [] => [(k, v)]
  | (k', v') :: rest =>
      if String.eqb k k' then (k', v) :: rest else (k', v') :: dict_set k v rest
  end.

Definition dict_keys {V} (d : list (string * V)) : list string := map fst d.

(** [{**defaults, **overrides}] *)
Definition dict_merge {V} (defaults overrides : list (string * V))
  : list (string * V) :=
  fold_left (fun d kv => dict_set (fst kv) (snd kv) d) overrides defaults.

(** [d[k] += 1] on a [defaultdict(int)]. *)
Definition incr (k : string) (d : gmap string Z) : gmap string Z :=
  <[k := default 0 (d !! k) + 1]> d.

(** [d[k].append(x)] on a [defaultdict(list)]. *)
Definition append_at (k : string) (x : Q) (d : gmap string (list Q))
  : gmap string (list Q) :=
  <[k := (default [] (d !! k) ++ [x])%list]> d.

(** ** src/models/conversation.py *)

Module Conversation.

Inductive MessageRole : Type := USER | AGENT | SYSTEM.

Inductive ConversationStage : Type :=
  | FAQ | LEAD_GENERATION | QUALIFICATION | PRESENTATION
  | NEGOTIATION | CLOSING | COMPLETED.

Definition stage_value (s : ConversationStage) : string :=
  match s with
  | FAQ => "faq"
  | LEAD_GENERATION => "lead_generation"
  | QUALIFICATION => "qualification"
  | PRESENTATION => "presentation"
  | NEGOTIATION => "negotiation"
  | CLOSING => "closing"
  | COMPLETED => "completed"
  end.

Definition stage_eqb (a b : ConversationStage) : bool :=
  match a, b with
  | FAQ, FAQ | LEAD_GENERATION, LEAD_GENERATION
  | QUALIFICATION, QUALIFICATION | PRESENTATION, PRESENTATION
  | NEGOTIATION, NEGOTIATION | CLOSING, CLOSING | COMPLETED, COMPLETED => true
  | _, _ => false
  end.

(** One entry of the pipeline's [node_history]. *)
Record NodeEntry : Type := mkNode {
  node_id : option string;
  node_status : option string
}.

(** The [telemetry] dictionary of a pipeline result. *)
Record Telemetry : Type := mkTelemetry {
  agents_used : option (list string);
  total_handoffs : option Z
}.

(** [Message.metadata]: empty, or what [process_message] attaches to the
    agent's reply. *)
Inductive MessageMetadata : Type :=
  | NoMetadata
  | SwarmMetadata (telemetry : Telemetry)
                  (node_history : list NodeEntry) (status : string).

Record Message : Type := mkMessage {
  role : MessageRole;
  content : string;
  timestamp : Z;
  agent_id : option string;
  msg_metadata : MessageMetadata
}.

(** Values stored in [Conversation.metadata] by the orchestrator. *)
Inductive MetaValue : Type :=
  | MFloat (t : Q)
  | MBool (b : bool)
  | MTimes (d : gmap string Q).

(** [Conversation]; the [context] field is never read or written by the
    modelled code and is left out. *)
Record Conversation : Type := mkConversation {
  id : string;
  lead_id : option string;
  messages : list Message;
  current_stage : ConversationStage;
  active_agent : option string;
  metadata : gmap string MetaValue;
  created_at : Z;
  updated_at : Z
}.

(** [conversation.current_stage = s] *)
Definition set_current_stage (s : ConversationStage) (c : Conversation)
  : Conversation :=
  mkConversation (id c) (lead_id c) (messages c) s (active_agent c)
                 (metadata c) (created_at c) (updated_at c).

(** [conversation.active_agent = a] *)
Definition set_active_agent (a : string) (c : Conversation) : Conversation :=
  mkConversation (id c) (lead_id c) (messages c) (current_stage c) (Some a)
                 (metadata c) (created_at c) (updated_at c).

(** [conversation.metadata = md], and through it [conversation.metadata[k] = v] *)
Definition set_metadata (md : gmap string MetaValue) (c : Conversation)
  : Conversation :=
  mkConversation (id c) (lead_id c) (messages c) (current_stage c)
                 (active_agent c) md (created_at c) (updated_at c).

Definition set_metadata_item (k : string) (v : MetaValue) (c : Conversation)
  : Conversation :=
  set_metadata (<[k := v]> (metadata c)) c.

(** [Conversation.add_message]: [t_msg] is the clock reading of the new
    message's [timestamp] default, [t_upd] the later reading assigned to
    [updated_at]. *)
Definition add_message (t_msg t_upd : Z) (r : MessageRole) (text : string)
    (aid : option string) (md : option MessageMetadata) (c : Conversation)
  : Conversation :=
  let message := mkMessage r text t_msg aid (default NoMetadata md) in
  mkConversation (id c) (lead_id c) (messages c ++ [message])%list
                 (current_stage c) (active_agent c) (metadata c)
                 (created_at c) t_upd.

End Conversation.

(** ** src/orchestrator/swarm_orchestrator.py *)

Module Orchestrator.
Import Conversation.

(** The dictionary returned by [SwarmSalesAgent.process]; a missing key is
    [None]. *)
Record SwarmResult : Type := mkSwarmResult {
  sr_response : option string;
  sr_status : option string;
  sr_node_history : option (list NodeEntry);
  sr_execution_count : option Z;
  sr_execution_time : option Q;
  sr_accumulated_usage : option (gmap string Z);
  sr_telemetry : option Telemetry
}.

Inductive SwarmOutcome : Type :=
  | SwarmReturns (r : SwarmResult)
  | SwarmRaises (error_type : string).

(** The environment: the [n]-th value of [uuid.uuid4()], of
    [datetime.utcnow()], of [time.time()], and the outcome of the [n]-th
    call of [swarm_agent.process] on a message. *)
Record Env : Type := mkEnv {
  uuid4 : nat -> string;
  utcnow : nat -> Z;
  time_time : nat -> Q;
  swarm_process : nat -> string -> SwarmOutcome
}.

(** [self.metrics] *)
Record Metrics : Type := mkMetrics {
  conversations_total : Z;
  conversations_by_stage : gmap string Z;
  stage_transitions : gmap string Z;
  agents_usage : gmap string Z;
  conversion_by_stage : gmap string Z;
  time_by_stage : gmap string (list Q);
  abandonment_points : gmap string Z;
  completed_conversations : Z;
  closed_sales : Z
}.

(** The orchestrator ([self.conversations], [self.metrics]) together with
    the number of values already taken from each oracle. *)
Record State : Type := mkState {
  conversations : gmap string Conversation;
  metrics : Metrics;
  uuid_draws : nat;
  utc_reads : nat;
  time_reads : nat;
  swarm_calls : nat
}.

(** [SwarmOrchestrator.__init__] *)
Definition init : State :=
  mkState ∅ (mkMetrics 0 ∅ ∅ ∅ ∅ ∅ ∅ 0 0) 0 0 0 0.

(** The three shapes of dictionary [process_message] returns. *)
Record TurnMetadata : Type := mkTurnMetadata {
  tm_telemetry : Telemetry;
  tm_node_history : list NodeEntry;
  tm_execution_count : Z;
  tm_execution_time : Q;
  tm_accumulated_usage : gmap string Z;
  tm_status : string
}.

Inductive ProcessResult : Type :=
  | ErrorResult (error : string) (conversation_id : string)
                (error_type : option string)
  | TurnResult (conversation_id response agent_id stage : string)
               (turn_metadata : TurnMetadata).

(** *** State passing *)

Definition M (A : Type) : Type := State -> A * State.

Definition ret {A} (a : A) : M A := fun w => (a, w).

Definition bind {A B} (m : M A) (k : A -> M B) : M B :=
  fun w => let (a, w') := m w in k a w'.

Notation "'let*' x := m 'in' k" := (bind m (fun x => k))
  (at level 10, x name, m at level 200, k at level 200, only parsing).

(** [post m w Q]: running [m] from [w] ends with a value and a state that
    satisfy [Q]. *)
Definition post {A} (m : M A) (w : State) (Q : A -> State -> Prop) : Prop :=
  Q (fst (m w)) (snd (m w)).

Definition with_conversations (f : gmap string Conversation -> gmap string Conversation)
  : M unit :=
  fun w => (tt, mkState (f (conversations w)) (metrics w) (uuid_draws w)
                        (utc_reads w) (time_reads w) (swarm_calls w)).

Definition with_metrics (f : Metrics -> Metrics) : M unit :=
  fun w => (tt, mkState (conversations w) (f (metrics w)) (uuid_draws w)
                        (utc_reads w) (time_reads w) (swarm_calls w)).

(** A mutation [f] of the conversation object [c] that
    [self.conversations] holds under [cid]: the local name and the
    dictionary entry are one object, so both see the change. *)
Definition update (cid : string) (c : Conversation)
    (f : Conversation -> Conversation) : M Conversation :=
  fun w => (f c, mkState (<[cid := f c]> (conversations w)) (metrics w)
                         (uuid_draws w) (utc_reads w) (time_reads w)
                         (swarm_calls w)).

(** [self.get_conversation] *)
Definition get_conversation (cid : string) : M (option Conversation) :=
  fun w => (conversations w !! cid, w).

Section WithEnv.

Variable env : Env.

Definition draw_uuid : M string :=
  fun w => (uuid4 env (uuid_draws w),
            mkState (conversations w) (metrics w) (S (uuid_draws w))
                    (utc_reads w) (time_reads w) (swarm_calls w)).

Definition read_utcnow : M Z :=
  fun w => (utcnow env (utc_reads w),
            mkState (conversations w) (metrics w) (uuid_draws w)
                    (S (utc_reads w)) (time_reads w) (swarm_calls w)).

Definition read_time : M Q :=
  fun w => (time_time env (time_reads w),
            mkState (conversations w) (metrics w) (uuid_draws w)
                    (utc_reads w) (S (time_reads w)) (swarm_calls w)).

Definition call_swarm (message : string) : M SwarmOutcome :=
  fun w => (swarm_process env (swarm_calls w) message,
            mkState (conversations w) (metrics w) (uuid_draws w)
                    (utc_reads w) (time_reads w) (S (swarm_calls w))).

(** [conversation.add_message(...)] on the stored object: the clock is
    read for the message's [timestamp], then for [updated_at]. *)
Definition do_add_message (cid : string) (c : Conversation) (r : MessageRole)
    (text : string) (aid : option string) (md : option MessageMetadata)
  : M Conversation :=
  let* t_msg := read_utcnow in
  let* t_upd := read_utcnow in
  update cid c (add_message t_msg t_upd r text aid md).

Definition count_start (m : Metrics) : Metrics :=
  mkMetrics (conversations_total m + 1)
            (incr (stage_value FAQ) (conversations_by_stage m))
            (stage_transitions m) (agents_usage m) (conversion_by_stage m)
            (time_by_stage m) (abandonment_points m)
            (completed_conversations m) (closed_sales m).

(** [SwarmOrchestrator.create_conversation]; returns the new id together
    with the conversation stored under it. *)
Definition create_conversation (lead : option string)
    (initial_message : option string) : M (string * Conversation) :=
  let* cid := draw_uuid in
  let* t_created := read_utcnow in
  let* t_updated := read_utcnow in
  let fresh := mkConversation cid lead [] FAQ None ∅ t_created t_updated in
  let* conversation :=
    (if opt_truthy initial_message then
       let* t_msg := read_utcnow in
       let* t_upd := read_utcnow in
       ret (add_message t_msg t_upd USER (default "" initial_message)
                        None None fresh)
     else ret fresh) in
  let* _ := with_conversations (<[cid := conversation]>) in
  let* _ := with_metrics count_start in
  let* conversation :=
    (match metadata conversation !! "metadata" with
     | None => update cid conversation (set_metadata ∅)
     | Some _ => ret conversation
     end) in
  let* t_start := read_time in
  let* conversation :=
    update cid conversation (set_metadata_item "started_at" (MFloat t_start)) in
  let* t_stage := read_time in
  let* conversation :=
    update cid conversation
           (set_metadata_item "stage_times"
              (MTimes {[stage_value FAQ := t_stage]})) in
  ret (cid, conversation).

(** The metric updates of [_track_stage_transition]. *)
Definition count_transition (key : string) (m : Metrics) : Metrics :=
  mkMetrics (conversations_total m) (conversations_by_stage m)
            (incr key (stage_transitions m)) (agents_usage m)
            (conversion_by_stage m) (time_by_stage m) (abandonment_points m)
            (completed_conversations m) (closed_sales m).

Definition record_time (stage : string) (t : Q) (m : Metrics) : Metrics :=
  mkMetrics (conversations_total m) (conversations_by_stage m)
            (stage_transitions m) (agents_usage m) (conversion_by_stage m)
            (append_at stage t (time_by_stage m)) (abandonment_points m)
            (completed_conversations m) (closed_sales m).

Definition count_conversion (stage : string) (m : Metrics) : Metrics :=
  mkMetrics (conversations_total m) (conversations_by_stage m)
            (stage_transitions m) (agents_usage m)
            (incr stage (conversion_by_stage m)) (time_by_stage m)
            (abandonment_points m) (completed_conversations m)
            (closed_sales m).

Definition count_stage_entry (stage : string) (m : Metrics) : Metrics :=
  mkMetrics (conversations_total m)
            (incr stage (conversations_by_stage m))
            (stage_transitions m) (agents_usage m) (conversion_by_stage m)
            (time_by_stage m) (abandonment_points m)
            (completed_conversations m) (closed_sales m).

(** [SwarmOrchestrator._track_stage_transition].  The membership test
    [old_stage.value in conversation.metadata["stage_times"]] raises
    [TypeError] when that entry is not a dictionary; the transition counter
    has been incremented by then. *)
Definition _track_stage_transition (cid : string) (conversation : Conversation)
    (old_stage new_stage : ConversationStage) (transition_start_time : Q)
  : M (outcome Conversation) :=
  let transition_key := stage_value old_stage ++ "->" ++ stage_value new_stage in
  let* _ := with_metrics (count_transition transition_key) in
  let* conversation :=
    (match metadata conversation !! "stage_times" with
     | None => update cid conversation
                      (set_metadata_item "stage_times" (MTimes ∅))
     | Some _ => ret conversation
     end) in
  match metadata conversation !! "stage_times" with
  | Some (MTimes stage_times) =>
      let* _ :=
        (match stage_times !! stage_value old_stage with
         | Some entered =>
             let time_in_stage := (transition_start_time - entered)%Q in
             with_metrics (record_time (stage_value old_stage) time_in_stage)
         | None => ret tt
         end) in
      let* conversation :=
        update cid conversation
               (set_metadata_item "stage_times"
                  (MTimes (<[stage_value new_stage := transition_start_time]>
                             stage_times))) in
      let* _ := with_metrics (count_conversion (stage_value new_stage)) in
      let* _ := with_metrics (count_stage_entry (stage_value new_stage)) in
      ret (Returns conversation)
  | _ => ret (Raises (TypeError "argument is not iterable"))
  end.

(** The [stage_mapping] table of [process_message]. *)
Definition stage_mapping (agent : string) : option ConversationStage :=
  if String.eqb agent "researcher" then Some FAQ
  else if String.eqb agent "sales_agent" then Some QUALIFICATION
  else if String.eqb agent "qualification_agent" then Some QUALIFICATION
  else if String.eqb agent "presentation_agent" then Some PRESENTATION
  else if String.eqb agent "negotiation_agent" then Some NEGOTIATION
  else if String.eqb agent "closing_agent" then Some CLOSING
  else None.

(** The last active agent: the last node of the history, else the last
    agent used, else ["researcher"]. *)
Definition last_active_agent (node_history : list NodeEntry)
    (agents : list string) : string :=
  match last node_history with
  | Some last_node => default "researcher" (node_id last_node)
  | None => default "researcher" (last agents)
  end.

Definition count_agents (agents : list string) (m : Metrics) : Metrics :=
  mkMetrics (conversations_total m) (conversations_by_stage m)
            (stage_transitions m)
            (fold_left (fun usage agent => incr agent usage) agents
                       (agents_usage m))
            (conversion_by_stage m) (time_by_stage m) (abandonment_points m)
            (completed_conversations m) (closed_sales m).

Definition count_closed_sale (m : Metrics) : Metrics :=
  mkMetrics (conversations_total m) (conversations_by_stage m)
            (stage_transitions m) (agents_usage m) (conversion_by_stage m)
            (time_by_stage m) (abandonment_points m)
            (completed_conversations m) (closed_sales m + 1).

Definition count_completed (m : Metrics) : Metrics :=
  mkMetrics (conversations_total m) (conversations_by_stage m)
            (stage_transitions m) (agents_usage m) (conversion_by_stage m)
            (time_by_stage m) (abandonment_points m)
            (completed_conversations m + 1) (closed_sales m).

(** The [try] block of [process_message] after the pipeline has returned
    [result]. *)
Definition track_turn (cid : string) (conversation : Conversation)
    (old_stage : ConversationStage) (process_start_time : Q)
    (result : SwarmResult) : M ProcessResult :=
  let response_text := default "" (sr_response result) in
  let telemetry := default (mkTelemetry None None) (sr_telemetry result) in
  let node_history := default [] (sr_node_history result) in
  let status := default "completed" (sr_status result) in
  let* conversation :=
    (if str_truthy response_text then
       do_add_message cid conversation AGENT response_text (Some "swarm")
                      (Some (SwarmMetadata telemetry node_history status))
     else ret conversation) in
  let agents := default [] (agents_used telemetry) in
  let last_agent := last_active_agent node_history agents in
  let new_stage := default FAQ (stage_mapping last_agent) in
  let* tracked :=
    (if stage_eqb old_stage new_stage then ret (Returns conversation)
     else _track_stage_transition cid conversation old_stage new_stage
                                  process_start_time) in
  match tracked with
  | Raises e =>
      ret (ErrorResult "Erro ao processar mensagem" (id conversation)
                       (Some (exn_name e)))
  | Returns conversation =>
      let* conversation :=
        update cid conversation (set_current_stage new_stage) in
      let* conversation :=
        update cid conversation (set_active_agent last_agent) in
      let* _ := with_metrics (count_agents agents) in
      let* conversation :=
        (if stage_eqb new_stage CLOSING then
           let* _ := with_metrics (count_conversion (stage_value CLOSING)) in
           if bool_decide ("closing_agent" ∈ agents) then
             let* _ := with_metrics count_closed_sale in
             let* conversation :=
               update cid conversation
                      (set_metadata_item "sale_closed" (MBool true)) in
             let* t_closed := read_time in
             update cid conversation
                    (set_metadata_item "closed_at" (MFloat t_closed))
           else ret conversation
         else ret conversation) in
      let* conversation :=
        (if stage_eqb new_stage COMPLETED then
           let* _ := with_metrics count_completed in
           let* t_completed := read_time in
           update cid conversation
                  (set_metadata_item "completed_at" (MFloat t_completed))
         else ret conversation) in
      ret (TurnResult (id conversation) response_text
             (default "swarm" (last agents))
             (stage_value (current_stage conversation))
             (mkTurnMetadata telemetry node_history
                (default 0 (sr_execution_count result))
                (default 0%Q (sr_execution_time result))
                (default ∅ (sr_accumulated_usage result))
                status))
  end.

(** [SwarmOrchestrator.process_message] *)
Definition process_message (message : string) (conversation_id : option string)
  : M ProcessResult :=
  let* resolved :=
    (if opt_truthy conversation_id then
       let cid := default "" conversation_id in
       let* found := get_conversation cid in
       match found with
       | Some conversation => ret (inl (cid, conversation))
       | None => ret (inr (ErrorResult "Conversation not found" cid None))
       end
     else
       let* created := create_conversation None (Some message) in
       ret (inl created)) in
  match resolved with
  | inr not_found => ret not_found
  | inl (cid, conversation) =>
      let* conversation :=
        do_add_message cid conversation USER message None None in
      let* process_start_time := read_time in
      let old_stage := current_stage conversation in
      let* answer := call_swarm message in
      match answer with
      | SwarmReturns result =>
          track_turn cid conversation old_stage process_start_time result
      | SwarmRaises error_type =>
          ret (ErrorResult "Erro ao processar mensagem" (id conversation)
                           (Some error_type))
      end
  end.

End WithEnv.

(** The conversation stored under [cid] is the one the code holds, its
    [updated_at] is a clock value read at or after the [r0]-th reading,
    and at least [r0] readings have been taken. *)
Definition stamped (env : Env) (cid : string) (r0 : nat) (c : Conversation)
    (w : State) : Prop :=
  conversations w !! cid = Some c
  /\ (exists n, (r0 <= n)%nat /\ updated_at c = utcnow env n)
  /\ (r0 <= utc_reads w)%nat.

(** A step from [w] to [w'] that leaves the metrics and the number of
    pipeline calls as they were. *)
Definition quiet (w w' : State) : Prop :=
  metrics w' = metrics w /\ swarm_calls w' = swarm_calls w.

(** The dictionary returned by [get_conversion_metrics]. *)
Record MetricsView : Type := mkMetricsView {
  view_total_conversations : Z;
  view_completed_conversations : Z;
  view_closed_sales : Z;
  view_sales_conversion_rate : Q;
  view_abandonment_rate : Q;
  view_conversations_by_stage : gmap string Z;
  view_conversion_by_stage : gmap string Z;
  view_conversion_rates_by_stage : gmap string Q;
  view_stage_transitions : gmap string Z;
  view_agents_usage : gmap string Z;
  view_average_time_by_stage : gmap string Q;
  view_abandonment_points : gmap string Z
}.

(** [sum(times) / len(times)] for a non-empty list. *)
Definition average (times : list Q) : option Q :=
  match times with
  | [] => None
  | _ => Some (fold_left Qplus times 0 / inject_Z (Z.of_nat (length times)))%Q
  end.

(** [SwarmOrchestrator.get_conversion_metrics] *)
Definition get_conversion_metrics (w : State) : MetricsView :=
  let m := metrics w in
  let avg_time_by_stage : gmap string Q := omap average (time_by_stage m) in
  let total_conversations := conversations_total m in
  let conversion_rates : gmap string Q :=
    if (0 <? total_conversations)%Z then
      (fun count => (inject_Z count / inject_Z total_conversations * 100)%Q)
        <$> conversion_by_stage m
    else ∅ in
  let abandonment_rate :=
    if (0 <? total_conversations)%Z then
      (inject_Z (total_conversations - completed_conversations m)
       / inject_Z total_conversations * 100)%Q
    else 0%Q in
  let sales_conversion_rate :=
    if (0 <? total_conversations)%Z then
      (inject_Z (closed_sales m) / inject_Z total_conversations * 100)%Q
    else 0%Q in
  mkMetricsView total_conversations (completed_conversations m)
                (closed_sales m) sales_conversion_rate abandonment_rate
                (conversations_by_stage m) (conversion_by_stage m)
                conversion_rates (stage_transitions m) (agents_usage m)
                avg_time_by_stage (abandonment_points m).


(** The message [process_message] appends for the pipeline's answer when
    the clock stands at reading [t]: none when the response is empty. *)
Definition answer_messages (env : Env) (result : SwarmResult) (t : nat)
  : list Message :=
  let response_text := default "" (sr_response result) in
  if str_truthy response_text then
    [mkMessage AGENT response_text (utcnow env t) (Some "swarm")
       (SwarmMetadata
          (default (mkTelemetry None None) (sr_telemetry result))
          (default [] (sr_node_history result))
          (default "completed" (sr_status result)))]
  else [].

(** The messages one call of [process_message] appends to the history when
    the clock stands at reading [t0]: the user's message, then the answer
    when the pipeline returned one. *)
Definition turn_messages (env : Env) (message : string) (answer : SwarmOutcome)
    (t0 : nat) : list Message :=
  mkMessage USER message (utcnow env t0) None NoMetadata
  :: match answer with
     | SwarmReturns result => answer_messages env result (S (S t0))
     | SwarmRaises _ => []
     end.

(** The calls a client makes on one orchestrator, and the state they lead
    to from the one [__init__] builds. *)
Inductive Op : Type :=
  | CreateConversation (lead_id initial_message : option string)
  | ProcessMessage (message : string) (conversation_id : option string).

(** The calls that create a conversation. *)
Definition creates (op : Op) : bool :=
  match op with
  | CreateConversation _ _ => true
  | ProcessMessage _ conversation_id => negb (opt_truthy conversation_id)
  end.

Definition step (env : Env) (w : State) (op : Op) : State :=
  match op with
  | CreateConversation lead initial_message =>
      snd (create_conversation env lead initial_message w)
  | ProcessMessage message conversation_id =>
      snd (process_message env message conversation_id w)
  end.

Definition run (env : Env) (ops : list Op) : State :=
  fold_left (step env) ops init.

(** How many calls of a sequence create a conversation. *)
Definition creations (ops : list Op) : nat :=
  length (List.filter creates ops).

End Orchestrator.

(** ** src/tools/crm_tool.py: the retry decorator *)

Module Retry.

(** What a call of the decorated function did: its outcome, the world it
    left, how often the wrapped function ran and the delays slept. *)
Record Run (W A : Type) : Type := mkRun {
  result : outcome A;
  world : W;
  invocations : nat;
  sleeps : list Q
}.
Arguments mkRun {W A}.
Arguments result {W A}.
Arguments world {W A}.
Arguments invocations {W A}.
Arguments sleeps {W A}.

Section Wrapper.

Context {W A : Type}.
Variable max_retries : Z.
Variable delay backoff : Q.
Variable func : W -> outcome A * W.

(** The [for attempt in range(max_retries)] loop of [wrapper], with
    [remaining] iterations to go; falling out of the loop executes
    [raise last_error]. *)
Fixpoint attempts (remaining : nat) (attempt : Z) (current_delay : Q)
    (last_error : option exn) (w : W) (calls : nat) (slept : list Q)
  : Run W A :=
  match remaining with
  | O =>
      mkRun (Raises (default (TypeError "exceptions must derive from BaseException")
                             last_error))
            w calls slept
  | S remaining' =>
      match func w with
      | (Returns a, w') => mkRun (Returns a) w' (S calls) slept
      | (Raises e, w') =>
          if (attempt <? max_retries - 1)%Z then
            attempts remaining' (attempt + 1) (current_delay * backoff)%Q
                     (Some e) w' (S calls) (slept ++ [current_delay])%list
          else mkRun (Raises e) w' (S calls) slept
      end
  end.

(** [retry_on_error(max_retries, delay, backoff)(func)] *)
Definition wrapper (w : W) : Run W A :=
  attempts (Z.to_nat max_retries) 0 delay None w 0 [].

(** The delays slept before a run of [n] further attempts that all fail
    but the last: [d], [d * backoff], [d * backoff * backoff], ... *)
Fixpoint backoff_delays (n : nat) (d : Q) : list Q :=
  match n with
  | O => []
  | S n' => d :: backoff_delays n' (d * backoff)%Q
  end.

End Wrapper.

(** The world after [k] invocations of [func] from [w] that all raise;
    [None] when one of them returns. *)
Fixpoint failing_prefix {W A : Type} (func : W -> outcome A * W) (k : nat)
    (w : W) : option W :=
  match k with
  | O => Some w
  | S k' =>
      match func w with
      | (Raises _, w') => failing_prefix func k' w'
      | (Returns _, _) => None
      end
  end.

End Retry.

(** ** src/mcp_servers/base_mcp.py *)

Module BaseMCP.

(** [BaseMCPServer._validate_tool_exists], given the names of
    [self.list_tools()]. *)
Definition _validate_tool_exists (lower : string -> string)
    (server_name : string) (tools : list string) (tool_name : string)
  : outcome unit :=
  if bool_decide (tool_name ∈ tools) then Returns tt
  else
    let similar_tools := similar_names lower tool_name tools in
    let error_msg := "Tool '" ++ tool_name ++ "' não encontrada em "
                     ++ server_name ++ "." in
    let error_msg :=
      match similar_tools, tools with
      | _ :: _, _ =>
          error_msg ++ " Tools similares: " ++ join ", " (firstn 5 similar_tools)
      | [], _ :: _ =>
          error_msg ++ " Tools disponíveis: " ++ join ", " (firstn 10 tools)
      | [], [] => error_msg ++ " Nenhuma tool disponível."
      end in
    Raises (ValueError error_msg).

(** The list [missing] of [_validate_required_params]. *)
Definition missing_params (params : PyDict) (required : list string)
  : list string :=
  List.filter (fun param => match dict_get param params with
                            | None | Some PNone => true
                            | Some _ => false
                            end)
              required.

Definition required_params_message (params : PyDict) (required : list string)
    (tool_name : string) : string :=
  "Parâmetros obrigatórios faltando para tool '" ++ tool_name ++ "': "
  ++ join ", " (missing_params params required) ++ ". "
  ++ "Parâmetros fornecidos: "
  ++ (match params with
      | [] => "nenhum"
      | _ :: _ => join ", " (dict_keys params)
      end) ++ ". "
  ++ "Parâmetros esperados: " ++ join ", " required.

(** [BaseMCPServer._validate_required_params] *)
Definition _validate_required_params (params : PyDict)
    (required : list string) (tool_name : string) : outcome unit :=
  match missing_params params required with
  | [] => Returns tt
  | _ :: _ => Raises (ValueError (required_params_message params required tool_name))
  end.

End BaseMCP.

(** ** src/mcp_servers/mock_crm_server.py *)

Module MockCRM.

Inductive LeadStatus : Type :=
  | NEW | QUALIFIED | CONTACTED | PRESENTATION | NEGOTIATION
  | CLOSED_WON | CLOSED_LOST | NURTURING.

Definition status_value (s : LeadStatus) : string :=
  match s with
  | NEW => "new"
  | QUALIFIED => "qualified"
  | CONTACTED => "contacted"
  | PRESENTATION => "presentation"
  | NEGOTIATION => "negotiation"
  | CLOSED_WON => "closed_won"
  | CLOSED_LOST => "closed_lost"
  | NURTURING => "nurturing"
  end.

(** [LeadStatus(value)]; [None] where Python raises [ValueError]. *)
Definition status_of_value (v : string) : option LeadStatus :=
  List.find (fun s => String.eqb (status_value s) v)
            [NEW; QUALIFIED; CONTACTED; PRESENTATION; NEGOTIATION;
             CLOSED_WON; CLOSED_LOST; NURTURING].

Inductive LeadPriority : Type := HOT | WARM | COLD.

Definition priority_value (p : LeadPriority) : string :=
  match p with HOT => "hot" | WARM => "warm" | COLD => "cold" end.

(** [Lead]; [bant_score] and [assigned_agent] are never set by the server
    and stay [None]. *)
Record Lead : Type := mkLead {
  id : string;
  email : option string;
  name : option string;
  company : option string;
  phone : option string;
  status : LeadStatus;
  priority : LeadPriority;
  source : option string;
  notes : option string;
  created_at : Z;
  updated_at : Z
}.

(** [lead.model_dump()] *)
Definition model_dump (l : Lead) : PyValue :=
  PDict [("id", PStr (id l)); ("email", of_opt (email l));
         ("name", of_opt (name l)); ("company", of_opt (company l));
         ("phone", of_opt (phone l)); ("status", PStr (status_value (status l)));
         ("priority", PStr (priority_value (priority l)));
         ("bant_score", PNone); ("source", of_opt (source l));
         ("notes", of_opt (notes l)); ("created_at", PDatetime (created_at l));
         ("updated_at", PDatetime (updated_at l)); ("assigned_agent", PNone)].

(** The server object: its configuration, [_leads] in insertion order and
    [_sales_history], with the latency sleeps it has made and the number of
    clock values it has taken. *)
Record Server : Type := mkServer {
  simulate_latency : bool;
  latency_ms : Q;
  _leads : list (string * Lead);
  _sales_history : list PyDict;
  slept : list Q;
  utc_reads : nat
}.

(** The environment of the server: the [n]-th [datetime.utcnow()],
    [datetime.isoformat], and the operation [_concluir_compra], which
    builds [Lead] objects from caller data and so depends on the
    validation of the model library; it is taken as given. *)
Record Env : Type := mkEnv {
  utcnow : nat -> Z;
  isoformat : Z -> string;
  _concluir_compra : PyDict -> Server -> outcome PyDict * Server
}.

(** [MockCRMServer._get_lead_info] *)
Definition _get_lead_info (lead_id email : option string) (s : Server)
  : PyDict :=
  if negb (opt_truthy lead_id) && negb (opt_truthy email) then
    [("success", PBool false);
     ("error", PStr "É necessário fornecer 'lead_id' ou 'email' para buscar informações do lead");
     ("hint", PStr "Forneça pelo menos um dos seguintes parâmetros: lead_id, email")]
  else
    let looked_up : option Lead + PyDict :=
      if opt_truthy lead_id then
        inl (dict_get (default "" lead_id) (_leads s))
      else if opt_truthy email then
        inl (List.find (fun l => bool_decide (MockCRM.email l = email))
                       (map snd (_leads s)))
      else
        inr [("success", PBool false); ("error", PStr "Erro ao buscar lead");
             ("lead_id", of_opt lead_id); ("email", of_opt email)] in
    match looked_up with
    | inr failure => failure
    | inl None =>
        [("error", PStr "Lead not found"); ("lead_id", of_opt lead_id);
         ("email", of_opt email)]
    | inl (Some lead) =>
        [("success", PBool true); ("lead", model_dump lead)]
    end.

(** [MockCRMServer._update_lead_status] *)
Definition _update_lead_status (env : Env)
    (lead_id status new_notes : option string) (s : Server)
  : PyDict * Server :=
  if negb (opt_truthy lead_id) then
    ([("success", PBool false);
      ("error", PStr "Parâmetro obrigatório 'lead_id' não fornecido");
      ("hint", PStr "Forneça o ID do lead que deseja atualizar")], s)
  else if negb (opt_truthy status) then
    ([("success", PBool false);
      ("error", PStr "Parâmetro obrigatório 'status' não fornecido");
      ("hint", PStr "Forneça o novo status do lead")], s)
  else
    let key := default "" lead_id in
    let wanted := default "" status in
    match dict_get key (_leads s) with
    | None => ([("error", PStr "Lead not found"); ("lead_id", of_opt lead_id)], s)
    | Some lead =>
        match status_of_value wanted with
        | None =>
            ([("error", PStr ("Invalid status: " ++ wanted));
              ("details", PStr ("'" ++ wanted ++ "' is not a valid LeadStatus"))],
             s)
        | Some new_status =>
            let noted :=
              if opt_truthy new_notes then
                (if opt_truthy (notes lead) then
                   Some (default "" (notes lead) ++ newline
                         ++ default "" new_notes)
                 else new_notes)
              else notes lead in
            let now := utcnow env (utc_reads s) in
            let lead' :=
              mkLead (id lead) (email lead) (name lead) (company lead)
                     (phone lead) new_status (priority lead) (source lead)
                     noted (created_at lead) now in
            ([("success", PBool true); ("lead_id", of_opt lead_id);
              ("new_status", of_opt status);
              ("updated_at", PStr (isoformat env now))],
             mkServer (simulate_latency s) (latency_ms s)
                      (dict_set key lead' (_leads s)) (_sales_history s)
                      (slept s) (S (utc_reads s)))
        end
    end.

(** [history[:limit]] *)
Definition slice_to {A} (limit : Z) (l : list A) : list A :=
  if (0 <=? limit)%Z then firstn (Z.to_nat limit) l
  else firstn (length l - Z.to_nat (- limit)) l.

(** [MockCRMServer._get_sales_history] *)
Definition _get_sales_history (lead_id : option string) (limit : Z)
    (s : Server) : PyDict :=
  let history := _sales_history s in
  let history :=
    if opt_truthy lead_id then
      List.filter (fun sale => match dict_get "lead_id" sale with
                               | Some (PStr l) => bool_decide (Some l = lead_id)
                               | _ => false
                               end) history
    else history in
  let history := slice_to limit history in
  [("success", PBool true); ("count", PInt (Z.of_nat (length history)));
   ("sales", PList (map PDict history))].

(** The names of [list_tools()]. *)
Definition tool_names : list string :=
  ["get_lead_info"; "update_lead_status"; "get_sales_history";
   "concluir_compra"].

(** Binding of the keyword arguments [**params]: an [Optional[str]]
    parameter, absent or given.  A value of another type is outside the
    annotated signature and is answered with [TypeError]. *)
Definition arg_str (k : string) (params : PyDict) : outcome (option string) :=
  match dict_get k params with
  | None | Some PNone => Returns None
  | Some (PStr v) => Returns (Some v)
  | Some _ => Raises (TypeError ("unsupported value for argument '" ++ k ++ "'"))
  end.

Definition arg_int (k : string) (default_value : Z) (params : PyDict)
  : outcome Z :=
  match dict_get k params with
  | None => Returns default_value
  | Some (PInt v) => Returns v
  | Some _ => Raises (TypeError ("unsupported value for argument '" ++ k ++ "'"))
  end.

(** A keyword that the operation does not declare. *)
Definition unexpected_keyword (allowed : list string) (params : PyDict)
  : option string :=
  List.find (fun k => negb (bool_decide (k ∈ allowed))) (dict_keys params).

Definition with_outcome {A B} (o : outcome A) (s : Server)
    (k : A -> outcome B * Server) : outcome B * Server :=
  match o with
  | Returns a => k a
  | Raises e => (Raises e, s)
  end.

Definition checked_keywords {B} (allowed : list string) (params : PyDict)
    (s : Server) (k : outcome B * Server) : outcome B * Server :=
  match unexpected_keyword allowed params with
  | Some bad =>
      (Raises (TypeError ("got an unexpected keyword argument '" ++ bad ++ "'")), s)
  | None => k
  end.

(** [MockCRMServer.call] *)
Definition call (lower : string -> string) (env : Env) (s : Server)
    (tool_name : string) (parameters : option PyDict)
  : outcome PyDict * Server :=
  let s :=
    if simulate_latency s then
      mkServer (simulate_latency s) (latency_ms s) (_leads s)
               (_sales_history s) (slept s ++ [latency_ms s / 1000]%Q)%list
               (utc_reads s)
    else s in
  match BaseMCP._validate_tool_exists lower "mock_crm" tool_names tool_name with
  | Raises e => (Raises e, s)
  | Returns _ =>
      let params := default [] parameters in
      if String.eqb tool_name "get_lead_info" then
        checked_keywords ["lead_id"; "email"] params s
          (with_outcome (arg_str "lead_id" params) s (fun lead_id =>
           with_outcome (arg_str "email" params) s (fun email =>
           (Returns (_get_lead_info lead_id email s), s))))
      else if String.eqb tool_name "update_lead_status" then
        checked_keywords ["lead_id"; "status"; "notes"] params s
          (if dict_has "lead_id" params && dict_has "status" params then
             with_outcome (arg_str "lead_id" params) s (fun lead_id =>
             with_outcome (arg_str "status" params) s (fun status =>
             with_outcome (arg_str "notes" params) s (fun notes =>
             let (answer, s') := _update_lead_status env lead_id status notes s in
             (Returns answer, s'))))
           else (Raises (TypeError "missing required positional argument"), s))
      else if String.eqb tool_name "get_sales_history" then
        checked_keywords ["lead_id"; "limit"] params s
          (with_outcome (arg_str "lead_id" params) s (fun lead_id =>
           with_outcome (arg_int "limit" 10 params) s (fun limit =>
           (Returns (_get_sales_history lead_id limit s), s))))
      else if String.eqb tool_name "concluir_compra" then
        _concluir_compra env params s
      else (Raises (ValueError ("Unknown tool: " ++ tool_name)), s)
  end.

(** [_initialize_mock_data]: three leads, each taking one clock value for
    [created_at] and one for [updated_at], and two sales dated 30 and 15
    days before two further clock values. *)
Definition sample_leads (env : Env) : list (string * Lead) :=
  [("lead_001", mkLead "lead_001" (Some "john.doe@example.com") (Some "John Doe")
                       (Some "Acme Corp") (Some "+1-555-0101") NEW COLD
                       (Some "website") None (utcnow env 0) (utcnow env 1));
   ("lead_002", mkLead "lead_002" (Some "jane.smith@example.com")
                       (Some "Jane Smith") (Some "TechStart Inc")
                       (Some "+1-555-0102") QUALIFIED COLD (Some "referral")
                       None (utcnow env 2) (utcnow env 3));
   ("lead_003", mkLead "lead_003" (Some "bob.wilson@example.com")
                       (Some "Bob Wilson") (Some "Global Solutions")
                       (Some "+1-555-0103") PRESENTATION COLD (Some "event")
                       None (utcnow env 4) (utcnow env 5))].

Definition days (n : Z) : Z := n * 86400 * 1000000.

Definition sample_sales (env : Env) : list PyDict :=
  [[("id", PStr "sale_001"); ("lead_id", PStr "lead_001");
    ("product_id", PStr "prod_001"); ("amount", PInt 5000);
    ("status", PStr "closed_won");
    ("closed_at", PStr (isoformat env (utcnow env 6 - days 30)))];
   [("id", PStr "sale_002"); ("lead_id", PStr "lead_002");
    ("product_id", PStr "prod_002"); ("amount", PInt 12000);
    ("status", PStr "closed_won");
    ("closed_at", PStr (isoformat env (utcnow env 7 - days 15)))]].

(** [MockCRMServer.__init__] *)
Definition new_server (env : Env) (latency : bool) (ms : Q) : Server :=
  mkServer latency ms (sample_leads env) (sample_sales env) [] 8.

End MockCRM.

(** ** src/tools/crm_tool.py: the cached, retried client *)

Module CRMTool.

Definition Qlt_bool (x y : Q) : bool := negb (Qle_bool y x).

Section WithProvider.

(** The provider behind the tool: its state and its [call]. *)
Context {S : Type}.
Variable provider_call : S -> string -> PyDict -> outcome PyDict * S.

(** [json.dumps(parameters, sort_keys=True)] and the [n]-th value of
    [time.time()]. *)
Variable json_dumps : PyDict -> string.
Variable time_time : nat -> Q.

(** The tool object, with the number of clock values it has taken and the
    number of calls it has made to the provider.  The constructor's
    [max_retries], [retry_delay] and [retry_backoff] are stored and never
    read: the decorators are applied with literal arguments. *)
Record Tool : Type := mkTool {
  crm_server : S;
  cache_enabled : bool;
  cache_ttl : Z;
  _cache : gmap string (PyDict * Q);
  time_reads : nat;
  server_calls : nat
}.

(** [CRMTool._get_cache_key] *)
Definition _get_cache_key (tool_name : string) (parameters : PyDict) : string :=
  let params_str := json_dumps parameters in
  tool_name ++ ":" ++ params_str.

(** [CRMTool._is_cache_valid] *)
Definition _is_cache_valid (cached_time : Q) (t : Tool) : bool * Tool :=
  if negb (cache_enabled t) then (false, t)
  else
    (Qlt_bool (time_time (time_reads t) - cached_time) (inject_Z (cache_ttl t)),
     mkTool (crm_server t) (cache_enabled t) (cache_ttl t) (_cache t)
            (Datatypes.S (time_reads t)) (server_calls t)).

(** The cache check of a read operation: the cached data when there is an
    entry under [cache_key] that [_is_cache_valid] accepts. *)
Definition cache_lookup (cache_key : string) (t : Tool)
  : option PyDict * Tool :=
  match (if cache_enabled t then _cache t !! cache_key else None) with
  | Some (cached_data, cached_time) =>
      let (valid, t') := _is_cache_valid cached_time t in
      (if valid then Some cached_data else None, t')
  | None => (None, t)
  end.

(** The [try] block of a read operation: the provider call, the cache
    fill, and the re-raising of a failure as [RuntimeError]. *)
Definition fetch (tool_name : string) (params : PyDict) (failure : string)
    (cache_key : string) (t : Tool) : outcome PyDict * Tool :=
  match provider_call (crm_server t) tool_name params with
  | (Returns answer, server) =>
      if cache_enabled t then
        (Returns answer,
         mkTool server (cache_enabled t) (cache_ttl t)
                (<[cache_key := (answer, time_time (time_reads t))]> (_cache t))
                (Datatypes.S (time_reads t)) (Datatypes.S (server_calls t)))
      else
        (Returns answer,
         mkTool server (cache_enabled t) (cache_ttl t) (_cache t)
                (time_reads t) (Datatypes.S (server_calls t)))
  | (Raises e, server) =>
      (Raises (RuntimeError (failure ++ ": " ++ exn_str e)),
       mkTool server (cache_enabled t) (cache_ttl t) (_cache t)
              (time_reads t) (Datatypes.S (server_calls t)))
  end.

(** The body shared by the read operations [get_lead_info] and
    [get_sales_history] after their parameters are built. *)
Definition cached_call (tool_name : string) (params : PyDict)
    (failure : string) (t : Tool) : outcome PyDict * Tool :=
  let cache_key := _get_cache_key tool_name params in
  let (hit, t) := cache_lookup cache_key t in
  match hit with
  | Some cached_data => (Returns cached_data, t)
  | None => fetch tool_name params failure cache_key t
  end.

(** The undecorated [CRMTool.get_lead_info]. *)
Definition get_lead_info_body (lead_id email : option string) (t : Tool)
  : outcome PyDict * Tool :=
  if negb (opt_truthy lead_id) && negb (opt_truthy email) then
    (Raises (ValueError "Either lead_id or email must be provided"), t)
  else
    let params := [("lead_id", of_opt lead_id); ("email", of_opt email)] in
    cached_call "get_lead_info" params "Failed to get lead info" t.

(** [CRMTool.get_lead_info], under [@retry_on_error(3, 1.0, 2.0)]. *)
Definition get_lead_info (lead_id email : option string) (t : Tool)
  : Retry.Run Tool PyDict :=
  Retry.wrapper 3 1 2 (get_lead_info_body lead_id email) t.

(** The undecorated [CRMTool.get_sales_history]. *)
Definition get_sales_history_body (lead_id : option string) (limit : Z)
    (t : Tool) : outcome PyDict * Tool :=
  let params := [("lead_id", of_opt lead_id); ("limit", PInt limit)] in
  cached_call "get_sales_history" params "Failed to get sales history" t.

(** [CRMTool.get_sales_history], under [@retry_on_error(3, 1.0, 2.0)]. *)
Definition get_sales_history (lead_id : option string) (limit : Z) (t : Tool)
  : Retry.Run Tool PyDict :=
  Retry.wrapper 3 1 2 (get_sales_history_body lead_id limit) t.

(** The undecorated [CRMTool.update_lead_status]: never reads the cache,
    and after a successful update drops every entry whose key mentions
    the lead. *)
Definition update_lead_status_body (lead_id status notes : option string)
    (t : Tool) : outcome PyDict * Tool :=
  let params := [("lead_id", of_opt lead_id); ("status", of_opt status);
                 ("notes", of_opt notes)] in
  match provider_call (crm_server t) "update_lead_status" params with
  | (Returns answer, server) =>
      let mention := quote ++ "lead_id" ++ quote ++ ": " ++ quote
                     ++ default "None" lead_id ++ quote in
      let kept :=
        if cache_enabled t then
          filter (fun entry => contains mention (fst entry) = false) (_cache t)
        else _cache t in
      (Returns answer,
       mkTool server (cache_enabled t) (cache_ttl t) kept (time_reads t)
              (Datatypes.S (server_calls t)))
  | (Raises e, server) =>
      (Raises (RuntimeError ("Failed to update lead status: " ++ exn_str e)),
       mkTool server (cache_enabled t) (cache_ttl t) (_cache t) (time_reads t)
              (Datatypes.S (server_calls t)))
  end.

(** [CRMTool.update_lead_status], under [@retry_on_error(3, 1.0, 2.0)]. *)
Definition update_lead_status (lead_id status notes : option string) (t : Tool)
  : Retry.Run Tool PyDict :=
  Retry.wrapper 3 1 2 (update_lead_status_body lead_id status notes) t.

(** The read operations of the tool, as calls with their arguments. *)
Inductive ReadCall : Type :=
  | GetLeadInfo (lead_id email : option string)
  | GetSalesHistory (lead_id : option string) (limit : Z).

Definition read (c : ReadCall) : Tool -> Retry.Run Tool PyDict :=
  match c with
  | GetLeadInfo lead_id email => get_lead_info lead_id email
  | GetSalesHistory lead_id limit => get_sales_history lead_id limit
  end.

Definition read_body (c : ReadCall) : Tool -> outcome PyDict * Tool :=
  match c with
  | GetLeadInfo lead_id email => get_lead_info_body lead_id email
  | GetSalesHistory lead_id limit => get_sales_history_body lead_id limit
  end.

(** The operation name and the parameters a read call sends to the
    provider, and the cache key it uses. *)
Definition read_name (c : ReadCall) : string :=
  match c with
  | GetLeadInfo _ _ => "get_lead_info"
  | GetSalesHistory _ _ => "get_sales_history"
  end.

Definition read_params (c : ReadCall) : PyDict :=
  match c with
  | GetLeadInfo lead_id email =>
      [("lead_id", of_opt lead_id); ("email", of_opt email)]
  | GetSalesHistory lead_id limit =>
      [("lead_id", of_opt lead_id); ("limit", PInt limit)]
  end.

Definition read_key (c : ReadCall) : string :=
  _get_cache_key (read_name c) (read_params c).

End WithProvider.

Arguments Tool S : clear implicits.
Arguments ReadCall : clear implicits.

(** [CRMTool.clear_cache] *)
Definition clear_cache {S} (t : Tool S) : Tool S :=
  mkTool (crm_server t) (cache_enabled t) (cache_ttl t) ∅ (time_reads t)
         (server_calls t).

(** The read calls that pass the argument check of their operation, and
    the text a failure of the provider is reported with. *)
Definition identified (c : ReadCall) : bool :=
  match c with
  | GetLeadInfo lead_id email => opt_truthy lead_id || opt_truthy email
  | GetSalesHistory _ _ => true
  end.

Definition read_failure (c : ReadCall) : string :=
  match c with
  | GetLeadInfo _ _ => "Failed to get lead info"
  | GetSalesHistory _ _ => "Failed to get sales history"
  end.

(** The text [update_lead_status] looks for in the cache keys. *)
Definition lead_mention (lead_id : option string) : string :=
  quote ++ "lead_id" ++ quote ++ ": " ++ quote ++ default "None" lead_id
  ++ quote.

End CRMTool.

(** ** src/agents/mcp_tools.py *)

Module MCPTools.

(** [MCPTool] of [src/models/agent_config.py]. *)
Record MCPTool : Type := mkMCPTool {
  name : string;
  mcp_url : string;
  description : string;
  parameters : option PyDict
}.

(** What the HTTP client does with a request: a decoded JSON body, or one
    of the exceptions [call_tool] distinguishes. *)
Inductive HttpOutcome : Type :=
  | HttpJson (body : PyDict)
  | ConnectError (msg : string)
  | TimeoutException (msg : string)
  | HTTPStatusError (status_code : Z) (msg : string)
  | HTTPError (msg : string)
  | Unexpected (e : exn).

(** The calls that leave the dispatcher: to a server object it holds, or
    over HTTP. *)
Inductive Event : Type :=
  | DirectCall (server_name tool_name : string) (params : PyDict)
  | HttpPost (url tool_name : string) (params : PyDict) (timeout : Q).

(** The environment: [str.lower], the formatting of a [float], and the
    answers of the server objects and of the HTTP client, which may depend
    on the calls made before. *)
Record Env : Type := mkEnv {
  lower : string -> string;
  format_float : Q -> string;
  server_call : list Event -> string -> string -> PyDict -> outcome PyDict;
  http_post : list Event -> string -> string -> PyDict -> Q -> HttpOutcome
}.

(** The manager object: [self.tools] in insertion order, the [mcp_timeout]
    of [self.settings] when there is one, and the names under which
    [self.servers] holds server objects. *)
Record Manager : Type := mkManager {
  tools : list (string * MCPTool);
  mcp_timeout : option Q;
  servers : list string
}.

(** [MCPTools.__init__]: [{tool.name: tool for tool in tools}]. *)
Definition new_manager (tool_list : list MCPTool) (timeout : option Q)
    (held : list string) : Manager :=
  mkManager (fold_left (fun d tool => dict_set (name tool) tool d) tool_list [])
            timeout held.

(** [MCPTools._get_server_name_from_url] *)
Definition _get_server_name_from_url (url : string) : string :=
  if contains "8001" url then "mock_crm"
  else if contains "8002" url then "mock_catalog"
  else if contains "8003" url then "mock_analytics"
  else if contains "8005" url then "mock_ifood"
  else if contains "8006" url then "mock_restaurant"
  else if contains "8007" url then "mock_recommendation"
  else if contains "8008" url then "mock_contract"
  else if contains "8009" url then "mock_pricing"
  else if contains "8010" url then "mock_qualification"
  else "unknown".

(** The message of the [ValueError] raised for an unknown tool. *)
Definition not_found_message (lower : string -> string) (tool_name : string)
    (available_tools : list string) : string :=
  let similar_tools := similar_names lower tool_name available_tools in
  let error_msg := "Tool '" ++ tool_name ++ "' não encontrada." in
  match similar_tools, available_tools with
  | _ :: _, _ =>
      error_msg ++ " Tools similares disponíveis: "
      ++ join ", " (firstn 5 similar_tools)
  | [], _ :: _ =>
      error_msg ++ " Tools disponíveis: " ++ join ", " (firstn 10 available_tools)
  | [], [] => error_msg ++ " Nenhuma tool disponível."
  end.

(** The HTTP fallback of [call_tool] and its mapping of failures. *)
Definition http_fallback (env : Env) (m : Manager) (tool : MCPTool)
    (tool_name : string) (params : PyDict) (log : list Event)
  : outcome PyDict * list Event :=
  let timeout_value := default 30%Q (mcp_timeout m) in
  let url := mcp_url tool ++ "/mcp/call" in
  let log' := (log ++ [HttpPost url tool_name params timeout_value])%list in
  match http_post env log url tool_name params timeout_value with
  | HttpJson body => (Returns body, log')
  | ConnectError msg =>
      (Raises (RuntimeError
         ("Falha ao conectar com servidor MCP para tool '" ++ tool_name
          ++ "': " ++ msg ++ newline ++ "URL: " ++ mcp_url tool
          ++ newline ++ "Verifique se o servidor MCP está rodando.")),
       log')
  | TimeoutException msg =>
      (Raises (RuntimeError
         ("Timeout ao chamar tool '" ++ tool_name ++ "' (timeout: "
          ++ format_float env timeout_value ++ "s). "
          ++ "O servidor MCP pode estar sobrecarregado ou inacessível.")),
       log')
  | HTTPStatusError status_code msg =>
      (Raises (RuntimeError
         ("Erro HTTP " ++ pretty status_code ++ " ao chamar tool '"
          ++ tool_name ++ "': " ++ msg)),
       log')
  | HTTPError msg =>
      (Raises (RuntimeError ("Falha ao chamar tool " ++ tool_name ++ ": " ++ msg)),
       log')
  | Unexpected e =>
      (Raises (RuntimeError
         ("Erro inesperado ao chamar tool " ++ tool_name ++ ": " ++ exn_str e)),
       log')
  end.

(** [MCPTools.call_tool]; [log] holds the calls made so far, and the calls
    this invocation makes are appended to it. *)
Definition call_tool (env : Env) (m : Manager) (tool_name : string)
    (given : option PyDict) (log : list Event)
  : outcome PyDict * list Event :=
  match dict_get tool_name (tools m) with
  | None =>
      let available_tools := dict_keys (tools m) in
      (Raises (ValueError (not_found_message (lower env) tool_name
                                             available_tools)),
       log)
  | Some tool =>
      let params := default [] given in
      let params :=
        match parameters tool with
        | Some (_ :: _ as defaults) => dict_merge defaults params
        | _ => params
        end in
      let server_name := _get_server_name_from_url (mcp_url tool) in
      if bool_decide (server_name ∈ servers m) then
        let log' := (log ++ [DirectCall server_name tool_name params])%list in
        match server_call env log server_name tool_name params with
        | Returns answer => (Returns answer, log')
        | Raises _ => http_fallback env m tool tool_name params log'
        end
      else http_fallback env m tool tool_name params log
  end.

(** The calls [list_tools] makes: to a server object it holds, or over
    HTTP. *)
Inductive ListEvent : Type :=
  | DirectList (server_name : string)
  | HttpGet (url : string) (timeout : Q).

(** The environment of [list_tools]: what [server.list_tools()] gives for
    a server object, and what the HTTP client does with a GET request. *)
Record ListEnv : Type := mkListEnv {
  server_list_tools : list ListEvent -> string -> outcome (list PyDict);
  http_get : list ListEvent -> string -> Q -> HttpOutcome
}.

(** [[tool["name"] for tool in tools]]; [None] where Python raises
    [KeyError]. *)
Definition names_of (tool_dicts : list PyDict) : option (list PyValue) :=
  mapM (dict_get "name") tool_dicts.

(** The tool dictionaries of a decoded listing: [data.get("tools", [])]
    must be a list of dictionaries for the comprehension to succeed. *)
Definition listed (body : PyDict) : option (list PyDict) :=
  match dict_get "tools" body with
  | None => Some []
  | Some (PList elements) =>
      mapM (fun element => match element with
                           | PDict items => Some items
                           | _ => None
                           end) elements
  | Some _ => None
  end.

(** The HTTP fallback of [list_tools]: every failure gives the empty
    list. *)
Definition list_over_http (env : ListEnv) (m : Manager) (url : string)
    (log : list ListEvent) : list PyValue * list ListEvent :=
  let list_timeout :=
    match mcp_timeout m with
    | Some t => if Qle_bool t 10 then t else 10%Q
    | None => 10%Q
    end in
  let target := url ++ "/mcp/tools" in
  let log' := (log ++ [HttpGet target list_timeout])%list in
  match http_get env log target list_timeout with
  | HttpJson body =>
      match listed body with
      | Some tool_dicts => (default [] (names_of tool_dicts), log')
      | None => ([], log')
      end
  | _ => ([], log')
  end.

(** [MCPTools.list_tools] *)
Definition list_tools (env : ListEnv) (m : Manager) (url : option string)
    (log : list ListEvent) : list PyValue * list ListEvent :=
  if opt_truthy url then
    let mcp_url := default "" url in
    let server_name := _get_server_name_from_url mcp_url in
    if bool_decide (server_name ∈ servers m) then
      let log' := (log ++ [DirectList server_name])%list in
      match server_list_tools env log server_name with
      | Returns tool_dicts =>
          match names_of tool_dicts with
          | Some names => (names, log')
          | None => list_over_http env m mcp_url log'
          end
      | Raises _ => list_over_http env m mcp_url log'
      end
    else list_over_http env m mcp_url log
  else (map PStr (dict_keys (tools m)), log).

(** [MCPTools.get_tool_info] and [MCPTools.has_tool] *)
Definition get_tool_info (m : Manager) (tool_name : string) : option MCPTool :=
  dict_get tool_name (tools m).

Definition has_tool (m : Manager) (tool_name : string) : bool :=
  dict_has tool_name (tools m).

End MCPTools.

(** ** src/utils/mcp_server_factory.py *)

Module Factory.

(** The nine provider classes the factory can construct. *)
Inductive ServerClass : Type :=
  | MockCRMServer | MockCatalogServer | MockAnalyticsServer
  | MockiFoodServer | MockRestaurantServer | MockRecommendationServer
  | MockContractServer | MockPricingServer | MockQualificationServer.

(** A provider object: [serial] tells objects apart (the [n]-th object
    constructed by the factory has serial [n]). *)
Record Instance : Type := mkInstance {
  serial : nat;
  class_of : ServerClass;
  simulate_latency : bool
}.

(** The keys and constructors of [server_map], in its order. *)
Definition server_map : list (string * ServerClass) :=
  [("mock_crm", MockCRMServer); ("mock_catalog", MockCatalogServer);
   ("mock_analytics", MockAnalyticsServer); ("mock_ifood", MockiFoodServer);
   ("mock_restaurant", MockRestaurantServer);
   ("mock_recommendation", MockRecommendationServer);
   ("mock_contract", MockContractServer); ("mock_pricing", MockPricingServer);
   ("mock_qualification", MockQualificationServer)].

(** [str(b)] for a [bool]. *)
Definition str_of_bool (b : bool) : string := if b then "True" else "False".

Section WithSettings.

Variable Settings : Type.

(** The class attributes [_settings] and [_instances], and the number of
    provider objects constructed so far. *)
Record State : Type := mkState {
  _settings : option Settings;
  _instances : gmap string Instance;
  constructed : nat
}.

(** The class before [initialize]. *)
Definition initial : State := mkState None ∅ 0.

(** [MCPServerFactory.initialize] *)
Definition initialize (settings : Settings) (st : State) : State :=
  mkState (Some settings) ∅ (constructed st).

(** [MCPServerFactory._create_server] *)
Definition _create_server (server_name : string) (latency : bool) (st : State)
  : outcome Instance * State :=
  match dict_get server_name server_map with
  | None =>
      (Raises (ValueError ("Unknown server name: " ++ server_name ++ ". "
                           ++ "Available: " ++ join ", " (dict_keys server_map))),
       st)
  | Some class =>
      (Returns (mkInstance (constructed st) class latency),
       mkState (_settings st) (_instances st) (S (constructed st)))
  end.

Definition cache_key (server_name : string) (latency : bool) : string :=
  server_name ++ "_" ++ str_of_bool latency.

(** [MCPServerFactory.get_server] *)
Definition get_server (server_name : string) (latency : bool) (st : State)
  : outcome Instance * State :=
  match _settings st with
  | None =>
      (Raises (RuntimeError
                 "MCPServerFactory not initialized. Call initialize() first."),
       st)
  | Some _ =>
      let key := cache_key server_name latency in
      match _instances st !! key with
      | Some server => (Returns server, st)
      | None =>
          match _create_server server_name latency st with
          | (Raises e, st') => (Raises e, st')
          | (Returns server, st') =>
              (Returns server,
               mkState (_settings st') (<[key := server]> (_instances st'))
                       (constructed st'))
          end
      end
  end.

(** [MCPServerFactory.clear_cache] *)
Definition clear_cache (st : State) : State :=
  mkState (_settings st) ∅ (constructed st).

(** [MCPServerFactory.get_all_servers]: the servers obtained before the
    first failure, or all nine. *)
Definition get_all_servers (latency : bool) (st : State)
  : outcome (list (string * Instance)) * State :=
  fold_left
    (fun acc server_name =>
       match acc with
       | (Returns found, st) =>
           match get_server server_name latency st with
           | (Returns server, st') =>
               (Returns (dict_set server_name server found), st')
           | (Raises e, st') => (Raises e, st')
           end
       | (Raises e, st) => (Raises e, st)
       end)
    ["mock_crm"; "mock_catalog"; "mock_analytics"; "mock_ifood";
     "mock_restaurant"; "mock_recommendation"; "mock_contract";
     "mock_pricing"; "mock_qualification"]
    (Returns [], st).

(** The operations on the factory, and their execution in sequence. *)
Inductive Op : Type :=
  | Initialize (settings : Settings)
  | GetServer (server_name : string) (latency : bool)
  | ClearCache.

Definition step (st : State) (op : Op) : State :=
  match op with
  | Initialize settings => initialize settings st
  | GetServer server_name latency => snd (get_server server_name latency st)
  | ClearCache => clear_cache st
  end.

Definition run_ops (ops : list Op) (st : State) : State := fold_left step ops st.

(** A sequence of [get_server] calls. *)
Definition gets_of (gets : list (string * bool)) : list Op :=
  map (fun g => GetServer (fst g) (snd g)) gets.

(** Every cached object sits under the key of a known name and a latency
    flag, is of that name's class with that flag, and was constructed by
    the factory. *)
Definition well_formed (st : State) : Prop :=
  forall key server,
    _instances st !! key = Some server ->
    exists server_name latency class,
      dict_get server_name server_map = Some class
      /\ key = cache_key server_name latency
      /\ class_of server = class
      /\ simulate_latency server = latency
      /\ (serial server < constructed st)%nat.

End WithSettings.

Arguments _settings {Settings}.
Arguments _instances {Settings}.
Arguments constructed {Settings}.
Arguments initial {Settings}.
Arguments initialize {Settings}.
Arguments _create_server {Settings}.
Arguments get_server {Settings}.
Arguments clear_cache {Settings}.
Arguments get_all_servers {Settings}.
Arguments step {Settings}.
Arguments run_ops {Settings}.
Arguments well_formed {Settings}.
Arguments gets_of {Settings}.
Arguments Initialize {Settings}.
Arguments GetServer {Settings}.
Arguments ClearCache {Settings}.

End Factory.

(** ** src/agents/swarm_sales_agent.py: [SwarmSalesAgent.process] *)

Module SwarmAgent.
Import Conversation Orchestrator.

(** A [status] attribute: an enum member with its [value], or any other
    object with its [str]. *)
Inductive StatusObj : Type :=
  | StatusEnum (value : string)
  | StatusOther (str : string).

(** What [node_result.result] holds: a string, an object with a [text]
    attribute (given by its [str]), an object with a [content] attribute and
    no [text] ([Some] when the content is a string), or an object with
    neither.  Objects are truthy. *)
Inductive ResultObj : Type :=
  | ResultStr (s : string)
  | ResultWithText (text : string)
  | ResultWithContent (content : option string)
  | ResultOpaque.

(** A value of [result.results]; [None] when it has no [result] attribute
    or the attribute is [None]. *)
Record NodeResult : Type := mkNodeResult {
  nr_result : option ResultObj
}.

(** An entry of [result.node_history]: its [node_id] attribute if it has
    one, its [str], and its [status] attribute if it has one. *)
Record Node : Type := mkRawNode {
  raw_node_id : option string;
  raw_str : string;
  raw_status : option StatusObj
}.

(** [result.accumulated_usage]: a dictionary, or an object with a
    [__dict__] and the token counters it has. *)
Inductive Usage : Type :=
  | UsageDict (d : gmap string Z)
  | UsageObject (inputTokens outputTokens totalTokens : option Z).

(** The object [swarm.invoke_async] returns; an attribute it does not have
    is [None]. *)
Record SwarmRun : Type := mkSwarmRun {
  run_status : option StatusObj;
  run_results : option (list (string * NodeResult));
  run_node_history : option (list Node);
  run_execution_count : option Z;
  run_execution_time : option Q;
  run_accumulated_usage : option Usage
}.

Inductive Invocation : Type :=
  | Invoked (r : SwarmRun)
  | InvokeRaises (e : exn).

(** The dictionary [process] returns: the keys the orchestrator reads, and
    the [error] key of the failure dictionary. *)
Record Answer : Type := mkAnswer {
  answer : SwarmResult;
  answer_error : option string
}.

Definition status_text (s : StatusObj) : string :=
  match s with
  | StatusEnum value => value
  | StatusOther str => str
  end.

Definition result_truthy (r : ResultObj) : bool :=
  match r with
  | ResultStr s => str_truthy s
  | _ => true
  end.

(** The loop over [reversed(node_results)]: the first usable result ends
    it. *)
Fixpoint first_response (node_results : list NodeResult) : string :=
  match node_results with
  | [] => ""
  | node_result :: rest =>
      match nr_result node_result with
      | Some result_obj =>
          if result_truthy result_obj then
            match result_obj with
            | ResultStr s => s
            | ResultWithText text => text
            | ResultWithContent (Some content) => content
            | ResultWithContent None => first_response rest
            | ResultOpaque => first_response rest
            end
          else first_response rest
      | None => first_response rest
      end
  end.

Definition no_response : string :=
  "Desculpe, não consegui gerar uma resposta. Pode repetir sua mensagem?".

Definition failure_response : string :=
  "Desculpe, ocorreu um erro ao processar sua mensagem. Por favor, tente novamente.".

Definition node_name (node : Node) : string :=
  match raw_node_id node with
  | Some node_id => node_id
  | None => raw_str node
  end.

Definition node_status_text (node : Node) : string :=
  match raw_status node with
  | Some s => status_text s
  | None => "unknown"
  end.

(** The loop over [result.node_history]: every node gives an entry, and
    its id joins [agents_used] unless it is there already. *)
Definition visit (acc : list NodeEntry * list string) (node : Node)
  : list NodeEntry * list string :=
  let '(node_history, agents_used) := acc in
  let node_id := node_name node in
  ((node_history ++ [mkNode (Some node_id) (Some (node_status_text node))])%list,
   if bool_decide (node_id ∈ agents_used) then agents_used
   else (agents_used ++ [node_id])%list).

Definition usage_dict (u : Usage) : gmap string Z :=
  match u with
  | UsageDict d => d
  | UsageObject inputTokens outputTokens totalTokens =>
      <["totalTokens" := default 0 totalTokens]>
        (<["outputTokens" := default 0 outputTokens]>
           (<["inputTokens" := default 0 inputTokens]> ∅))
  end.

(** [SwarmSalesAgent.process], after [swarm.invoke_async] has returned or
    raised. *)
Definition process (invocation : Invocation) : Answer :=
  match invocation with
  | Invoked result =>
      let status :=
        match run_status result with
        | Some s => status_text s
        | None => "completed"
        end in
      let response_text :=
        match run_results result with
        | Some ((_ :: _) as results) => first_response (rev (map snd results))
        | _ => ""
        end in
      let response_text :=
        if str_truthy response_text then response_text else no_response in
      let '(node_history, agents_used) :=
        fold_left visit (default [] (run_node_history result)) ([], []) in
      let execution_count := default 0 (run_execution_count result) in
      let execution_time := default 0%Q (run_execution_time result) in
      let accumulated_usage :=
        match run_accumulated_usage result with
        | Some u => usage_dict u
        | None => ∅
        end in
      mkAnswer
        (mkSwarmResult (Some response_text) (Some status) (Some node_history)
           (Some execution_count) (Some execution_time)
           (Some accumulated_usage)
           (Some (mkTelemetry (Some agents_used)
                    (Some (if (1 <? length node_history)%nat
                           then Z.of_nat (length node_history) - 1
                           else 0)))))
        None
  | InvokeRaises e =>
      mkAnswer
        (mkSwarmResult (Some failure_response) (Some "failed") None None None
                       None None)
        (Some (exn_str e))
  end.

(** The pipeline the orchestrator calls: [process] never raises. *)
Definition pipeline (invoke : nat -> string -> Invocation)
  : nat -> string -> SwarmOutcome :=
  fun n message => SwarmReturns (answer (process (invoke n message))).

End SwarmAgent.

(** ** src/mcp_servers/http_server.py: [MCPServerHTTP] *)

Module HttpServer.

(** [bool(v)] *)
Definition py_truthy (v : PyValue) : bool :=
  match v with
  | PNone => false
  | PBool b => b
  | PInt n => negb (n =? 0)%Z
  | PStr s => str_truthy s
  | PDatetime _ => true
  | PList elements => match elements with [] => false | _ :: _ => true end
  | PDict items => match items with [] => false | _ :: _ => true end
  end.

(** Whether [json.dumps] accepts a value: it raises [TypeError] for a
    [datetime], wherever it occurs. *)
Fixpoint json_serializable (v : PyValue) : bool :=
  match v with
  | PDatetime _ => false
  | PList elements => forallb json_serializable elements
  | PDict items =>
      forallb (fun item => match item with
                           | (_, value) => json_serializable value
                           end) items
  | _ => true
  end.

Definition type_name (v : PyValue) : string :=
  match v with
  | PNone => "NoneType"
  | PBool _ => "bool"
  | PInt _ => "int"
  | PStr _ => "str"
  | PDatetime _ => "datetime.datetime"
  | PList _ => "list"
  | PDict _ => "dict"
  end.

(** What [await request.json()] gives: the decoded value, or the
    exception raised for a body that is not JSON. *)
Inductive RequestBody : Type :=
  | Json (v : PyValue)
  | NotJson (e : exn).

(** [web.json_response(payload, status=status)] *)
Record Response : Type := mkResponse {
  status : Z;
  payload : PyDict
}.

Section WithServer.

(** The server behind the handler: its state and its [call], which gets
    whatever the request holds under [tool_name] and [parameters]. *)
Context {S : Type}.
Variable server_call : S -> PyValue -> PyValue -> outcome PyDict * S.

Definition server_error (e : exn) : Response :=
  mkResponse 500 [("error", PStr (exn_str e))].

(** [MCPServerHTTP.handle_call] *)
Definition handle_call (request : RequestBody) (s : S) : Response * S :=
  match request with
  | NotJson e => (server_error e, s)
  | Json (PDict data) =>
      let tool_name := default PNone (dict_get "tool_name" data) in
      let parameters := default (PDict []) (dict_get "parameters" data) in
      if negb (py_truthy tool_name) then
        (mkResponse 400 [("error", PStr "tool_name is required")], s)
      else
        match server_call s tool_name parameters with
        | (Returns result, s') =>
            if json_serializable (PDict result) then (mkResponse 200 result, s')
            else
              (server_error
                 (TypeError "Object of type datetime is not JSON serializable"),
               s')
        | (Raises e, s') => (server_error e, s')
        end
  | Json v =>
      (server_error (OtherError "AttributeError"
                       ("'" ++ type_name v ++ "' object has no attribute 'get'")),
       s)
  end.

End WithServer.

End HttpServer.

(** ** Concrete environments and inputs *)

Module Samples.
Import Conversation.

(** A pipeline result whose trace is the single handler [agent]. *)
Definition result_of (agent reply : string) : Orchestrator.SwarmResult :=
  Orchestrator.mkSwarmResult
    (Some reply) (Some "completed")
    (Some [mkNode (Some agent) (Some "completed")]) None None None
    (Some (mkTelemetry (Some [agent]) (Some 0))).

(** One conversation id, a clock that advances by one at every reading,
    and a pipeline whose first turn is handled by ["researcher"] and every
    later turn by ["closing_agent"]. *)
Definition env : Orchestrator.Env :=
  Orchestrator.mkEnv
    (fun _ => "conv-1")
    (fun n => Z.of_nat n)
    (fun n => inject_Z (Z.of_nat n))
    (fun n _ => match n with
                | O => Orchestrator.SwarmReturns (result_of "researcher" "Hello")
                | S _ => Orchestrator.SwarmReturns (result_of "closing_agent" "Deal")
                end).

(** The state after a first message without conversation id, and after
    one and two further messages in the conversation it created. *)
Definition after_first : Orchestrator.State :=
  snd (Orchestrator.process_message env "hello" None Orchestrator.init).

Definition after_second : Orchestrator.State :=
  snd (Orchestrator.process_message env "let's buy" (Some "conv-1") after_first).

Definition after_third : Orchestrator.State :=
  snd (Orchestrator.process_message env "yes, buy" (Some "conv-1") after_second).

(** A conversation as [create_conversation] first builds it. *)
Definition fresh_conversation : Conversation :=
  mkConversation "conv-1" None [] FAQ None ∅ 0 0.

(** The conversation as stored after the second turn. *)
Definition closing_conversation : Conversation :=
  default fresh_conversation
          (Orchestrator.conversations after_second !! "conv-1").

(** The mock CRM server without latency, on a clock that advances by one
    at every reading. *)
Definition crm_env : MockCRM.Env :=
  MockCRM.mkEnv (fun n => Z.of_nat n) (fun t => pretty t)
                (fun _ s => (Returns [("success", PBool true)], s)).

Definition crm_server : MockCRM.Server := MockCRM.new_server crm_env false 150.

Definition crm_call (s : MockCRM.Server) (tool_name : string) (params : PyDict)
  : outcome PyDict * MockCRM.Server :=
  MockCRM.call ascii_lower crm_env s tool_name (Some params).

(** A stand-in for [json.dumps(..., sort_keys=True)] on the flat
    dictionaries of the tool, for strings that need no escaping. *)
Definition render (v : PyValue) : string :=
  match v with
  | PNone => "null"
  | PBool b => if b then "true" else "false"
  | PInt n => pretty n
  | PStr s => quote ++ s ++ quote
  | _ => "null"
  end.

Fixpoint insert_sorted (kv : string * PyValue) (d : PyDict) : PyDict :=
  match d with
  | [] => [kv]
  | kv' :: rest =>
      if String.leb (fst kv) (fst kv') then kv :: d
      else kv' :: insert_sorted kv rest
  end.

Definition json_dumps (d : PyDict) : string :=
  "{" ++ join ", " (map (fun kv => quote ++ fst kv ++ quote ++ ": " ++ render (snd kv))
                        (fold_right insert_sorted [] d)) ++ "}".

(** A tool with caching, a one-hour TTL and an empty cache, on a clock
    that advances by 1800 seconds at every reading. *)
Definition half_hours (n : nat) : Q := inject_Z (1800 * Z.of_nat n).

Definition hours (n : nat) : Q := inject_Z (3600 * Z.of_nat n).

Definition tool : CRMTool.Tool MockCRM.Server :=
  CRMTool.mkTool crm_server true 3600 ∅ 0 0.

(** An operation that fails on its first two invocations: the world is
    the number of invocations so far. *)
Definition flaky (w : nat) : outcome string * nat :=
  if Nat.ltb w 2 then (Raises (RuntimeError "unavailable"), S w)
  else (Returns "ok", S w).

(** A dispatcher with three CRM tools and one catalog tool, holding the
    CRM server object; no request is ever answered. *)
Definition mcp_env : MCPTools.Env :=
  MCPTools.mkEnv ascii_lower (fun _ => "30.0")
                 (fun _ _ _ _ => Raises (RuntimeError "unavailable"))
                 (fun _ _ _ _ _ => MCPTools.ConnectError "refused").

Definition tool_list : list MCPTools.MCPTool :=
  [MCPTools.mkMCPTool "get_lead_info" "http://localhost:8001" "lead lookup" None;
   MCPTools.mkMCPTool "update_lead_status" "http://localhost:8001" "status" None;
   MCPTools.mkMCPTool "get_sales_history" "http://localhost:8001" "history" None;
   MCPTools.mkMCPTool "get_product_details" "http://localhost:8002" "catalog"
                      (Some [("limit", PInt 5)])].

Definition manager : MCPTools.Manager :=
  MCPTools.new_manager tool_list None ["mock_crm"].

(** What the mock server answers for the lead ["lead_001"]. *)
Definition lead_001_answer : PyDict :=
  MockCRM._get_lead_info (Some "lead_001") None crm_server.

(** The conversation as stored after the first turn, and the stage entry
    times its metadata holds. *)
Definition first_conversation : Conversation :=
  default Samples.fresh_conversation
          (Orchestrator.conversations Samples.after_first !! "conv-1").

Definition first_stage_times : gmap string Q :=
  match metadata first_conversation !! "stage_times" with
  | Some (MTimes d) => d
  | _ => ∅
  end.

(** The same clocks and id, and a pipeline that always raises. *)
Definition env_failing : Orchestrator.Env :=
  Orchestrator.mkEnv
    (fun _ => "conv-1")
    (fun n => Z.of_nat n)
    (fun n => inject_Z (Z.of_nat n))
    (fun _ _ => Orchestrator.SwarmRaises "ConnectionError").

(** A run of the swarm through the given handlers, answering [reply]. *)
Definition run_through (agents : list string) (reply : string)
  : SwarmAgent.SwarmRun :=
  SwarmAgent.mkSwarmRun
    (Some (SwarmAgent.StatusEnum "completed"))
    (Some [("node", SwarmAgent.mkNodeResult (Some (SwarmAgent.ResultStr reply)))])
    (Some (map (fun a => SwarmAgent.mkRawNode (Some a) a
                           (Some (SwarmAgent.StatusEnum "completed"))) agents))
    (Some 1) (Some 1%Q) None.

(** A swarm that answers the first call through ["researcher"], the second
    through ["researcher"], ["closing_agent"] and ["researcher"] again, the
    third through ["closing_agent"], and fails from then on. *)
Definition invoke (n : nat) (message : string) : SwarmAgent.Invocation :=
  match n with
  | 0%nat => SwarmAgent.Invoked (run_through ["researcher"] "Hello")
  | 1%nat => SwarmAgent.Invoked
               (run_through ["researcher"; "closing_agent"; "researcher"] "Hm")
  | 2%nat => SwarmAgent.Invoked (run_through ["closing_agent"] "Deal")
  | _ => SwarmAgent.InvokeRaises (RuntimeError "model unavailable")
  end.

Definition swarm_env : Orchestrator.Env :=
  Orchestrator.mkEnv
    (fun _ => "conv-1")
    (fun n => Z.of_nat n)
    (fun n => inject_Z (Z.of_nat n))
    (SwarmAgent.pipeline invoke).

(** The states after one to three messages, the first without id, and the
    conversation each of them stores. *)
Definition swarm_states : list Orchestrator.State :=
  let s1 := snd (Orchestrator.process_message swarm_env "hello" None
                   Orchestrator.init) in
  let s2 := snd (Orchestrator.process_message swarm_env "tell me more"
                   (Some "conv-1") s1) in
  let s3 := snd (Orchestrator.process_message swarm_env "let's buy"
                   (Some "conv-1") s2) in
  [s1; s2; s3].

Definition swarm_state (n : nat) : Orchestrator.State :=
  default Orchestrator.init (swarm_states !! n).

Definition swarm_conversation (n : nat) : Conversation :=
  default fresh_conversation
          (Orchestrator.conversations (swarm_state n) !! "conv-1").

Definition swarm_stage_times (n : nat) : gmap string Q :=
  match metadata (swarm_conversation n) !! "stage_times" with
  | Some (MTimes d) => d
  | _ => ∅
  end.

(** The lookup of the first sample lead by e-mail, the tool after that
    lookup, and the tool after the lead's status was then updated. *)
Definition by_email : CRMTool.ReadCall :=
  CRMTool.GetLeadInfo None (Some "john.doe@example.com").

Definition tool_after_lookup : CRMTool.Tool MockCRM.Server :=
  Retry.world (CRMTool.read crm_call json_dumps
                            half_hours by_email tool).

Definition tool_after_update : CRMTool.Tool MockCRM.Server :=
  Retry.world (CRMTool.update_lead_status crm_call
                 (Some "lead_001") (Some "qualified") None tool_after_lookup).

(** A provider that refuses every call. *)
Definition refusing (s : nat) (tool_name : string) (params : PyDict)
  : outcome PyDict * nat :=
  (Raises (RuntimeError "connection refused"), S s).

(** The mock CRM server behind the HTTP handler, for requests that name
    the tool by a string and give its parameters as an object; the sample
    requests are all of this shape. *)
Definition crm_endpoint (s : MockCRM.Server) (tool_name parameters : PyValue)
  : outcome PyDict * MockCRM.Server :=
  match tool_name, parameters with
  | PStr name, PDict params => crm_call s name params
  | _, _ => (Raises (TypeError "unsupported request"), s)
  end.

Definition lookup_request (lead_id : string) : HttpServer.RequestBody :=
  HttpServer.Json
    (PDict [("tool_name", PStr "get_lead_info");
            ("parameters", PDict [("lead_id", PStr lead_id)])]).

End Samples.

(** * Properties *)

(** ** The conversation tracker *)

Lemma str_truthy_nonempty (s : string) : s <> "" -> str_truthy s = true.
Proof. destruct s; [congruence | reflexivity]. Qed.

Section PostRules.
Import Conversation Orchestrator.

Lemma post_bind {A B} (m : M A) (k : A -> M B) w Q :
  post m w (fun a w' => post (k a) w' Q) -> post (bind m k) w Q.
Proof. unfold post, bind. destruct (m w) as [a w']. auto. Qed.

Lemma post_ret {A} (a : A) w (Q : A -> State -> Prop) :
  Q a w -> post (ret a) w Q.
Proof. auto. Qed.

Lemma post_conseq {A} (m : M A) w (Q Q' : A -> State -> Prop) :
  post m w Q -> (forall a w', Q a w' -> Q' a w') -> post m w Q'.
Proof. unfold post. auto. Qed.

Lemma post_get_conversation cid w (Q : option Conversation -> State -> Prop) :
  Q (conversations w !! cid) w -> post (get_conversation cid) w Q.
Proof. auto. Qed.

End PostRules.

(** [stamped] is kept by every step of [process_message]. *)
Section UpdatedAt.
Import Conversation Orchestrator.

Variable env : Env.
Variable cid : string.
Variable r0 : nat.

Abbreviation stamped := (Orchestrator.stamped env cid r0).

Lemma post_update c f w (Q : Conversation -> State -> Prop) :
  stamped c w -> updated_at (f c) = updated_at c ->
  (forall w', stamped (f c) w' -> Q (f c) w') ->
  post (update cid c f) w Q.
Proof.
  intros (Hs & Hu & Hr) Hf H. unfold post, update. cbn. apply H.
  unfold Orchestrator.stamped. cbn. rewrite lookup_insert_eq, Hf. auto.
Qed.

Lemma post_with_metrics c f w (Q : unit -> State -> Prop) :
  stamped c w -> (forall w', stamped c w' -> Q tt w') ->
  post (with_metrics f) w Q.
Proof. intros Hst H. unfold post, with_metrics. cbn. apply H. exact Hst. Qed.

Lemma post_read_time c w (Q : Q -> State -> Prop) :
  stamped c w -> (forall t w', stamped c w' -> Q t w') ->
  post (read_time env) w Q.
Proof. intros Hst H. unfold post, read_time. cbn. apply H. exact Hst. Qed.

Lemma post_call_swarm c message w (Q : SwarmOutcome -> State -> Prop) :
  stamped c w -> (forall a w', stamped c w' -> Q a w') ->
  post (call_swarm env message) w Q.
Proof. intros Hst H. unfold post, call_swarm. cbn. apply H. exact Hst. Qed.

Lemma post_add_message c r text aid md w (Q : Conversation -> State -> Prop) :
  (r0 <= utc_reads w)%nat ->
  (forall c' w', stamped c' w' -> Q c' w') ->
  post (do_add_message env cid c r text aid md) w Q.
Proof.
  intros Hr H. unfold post, do_add_message, bind, read_utcnow, update. cbn.
  apply H. unfold Orchestrator.stamped. cbn. rewrite lookup_insert_eq.
  split; [reflexivity|]. split; [|lia].
  exists (S (utc_reads w)). split; [lia | reflexivity].
Qed.

Ltac frame :=
  cbv beta iota;
  match goal with
  | |- post (bind _ _) _ _ => apply post_bind
  | |- post (ret _) _ _ => apply post_ret
  | H : stamped ?c ?w |- post (with_metrics _) ?w _ =>
      apply (post_with_metrics c _ _ _ H); clear H; intros ? H
  | H : stamped ?c ?w |- post (read_time _) ?w _ =>
      apply (post_read_time c _ _ H); clear H; intros ? ? H
  | H : stamped ?c ?w |- post (call_swarm _ _) ?w _ =>
      apply (post_call_swarm c _ _ _ H); clear H; intros ? ? H
  | H : stamped ?c ?w |- post (update _ ?c _) ?w _ =>
      apply (post_update c _ _ _ H); [reflexivity|]; clear H; intros ? H
  | H : stamped ?c ?w |- post (do_add_message _ _ ?c _ _ _ _) ?w _ =>
      apply post_add_message; [apply H|]; clear H; intros ? ? H
  | |- post (if ?b then _ else _) _ _ => destruct b
  | |- post (match ?x with _ => _ end) _ _ => destruct x eqn:?
  end.

Lemma track_stage_transition_stamped c old new t w :
  stamped c w ->
  post (_track_stage_transition cid c old new t) w
       (fun r w' => match r with
                    | Returns c' => stamped c' w'
                    | Raises _ => exists c', stamped c' w'
                    end).
Proof.
  intros Hst. unfold _track_stage_transition.
  repeat frame; eauto.
Qed.

Lemma track_turn_stamped c old t result w :
  stamped c w ->
  post (track_turn env cid c old t result) w
       (fun _ w' => exists c', stamped c' w').
Proof.
  intros Hst. unfold track_turn.
  apply post_bind.
  apply (post_conseq _ _ (fun c' w' => stamped c' w')); [repeat frame; auto|].
  clear Hst c. intros c w' Hst. apply post_bind.
  apply (post_conseq _ _ (fun r w' => match r with
                                      | Returns c' => stamped c' w'
                                      | Raises _ => exists c', stamped c' w'
                                      end)).
  { destruct (stage_eqb _ _); [apply post_ret; exact Hst|].
    apply track_stage_transition_stamped, Hst. }
  clear Hst. intros [c'|e] w'' Hst; [|apply post_ret; exact Hst].
  repeat frame; eauto.
Qed.

Lemma process_message_stamped (message : string) (c : Conversation) (w : State) :
  cid <> "" ->
  conversations w !! cid = Some c ->
  (r0 <= utc_reads w)%nat ->
  post (process_message env message (Some cid)) w
       (fun _ w' => exists c', stamped c' w').
Proof.
  intros Hne Hc Hr0.
  unfold process_message. cbn [opt_truthy].
  rewrite (str_truthy_nonempty cid Hne).
  change (default "" (Some cid)) with cid.
  apply post_bind. apply post_bind.
  apply post_get_conversation. rewrite Hc.
  apply post_ret. cbv beta iota.
  apply post_bind. apply post_add_message; [lia|]. intros c1 w1 Hst.
  repeat frame.
  - apply track_turn_stamped, Hst.
  - eauto.
Qed.

End UpdatedAt.

Section OrchestratorFacts.
Import Conversation Orchestrator.

Variable env : Env.

(** Assignments to the stage, the active agent and the metadata do not
    touch [updated_at]; [add_message] sets it to the clock value read
    after the message was built. *)
Lemma set_current_stage_updated_at s c :
  updated_at (set_current_stage s c) = updated_at c.
Proof. reflexivity. Qed.

Lemma set_active_agent_updated_at a c :
  updated_at (set_active_agent a c) = updated_at c.
Proof. reflexivity. Qed.

Lemma set_metadata_item_updated_at k v c :
  updated_at (set_metadata_item k v c) = updated_at c.
Proof. reflexivity. Qed.

Lemma add_message_updated_at t_msg t_upd r text aid md c :
  updated_at (add_message t_msg t_upd r text aid md c) = t_upd.
Proof. reflexivity. Qed.

(** C8, as amended: every [process_message] call on an existing
    conversation appends the user message, which sets [updated_at] to a
    clock value read during the call; so when the clock values read from
    now on are later than the conversation's [updated_at], the stored
    conversation's [updated_at] is strictly greater after the call. *)
Theorem updated_at_after_turn (message cid : string) (c : Conversation)
    (w : State) :
  cid <> "" ->
  conversations w !! cid = Some c ->
  (forall n, (utc_reads w <= n)%nat -> updated_at c < utcnow env n) ->
  exists c' n,
    conversations (snd (process_message env message (Some cid) w)) !! cid
    = Some c'
    /\ (utc_reads w <= n)%nat
    /\ updated_at c' = utcnow env n
    /\ updated_at c < updated_at c'.
Proof.
  intros Hne Hc Hclock.
  pose proof (process_message_stamped env cid (utc_reads w) message c w
                Hne Hc (le_n _)) as H.
  unfold post in H. destruct H as (c' & Hs & (n & Hn & Hu) & _).
  exists c', n. repeat split; auto. rewrite Hu. auto.
Qed.

(** C10, as amended: [process_message] with a non-empty conversation id
    under which no conversation is stored returns the error dictionary
    with ["Conversation not found"] and that id, and leaves the whole
    state as it was: no conversation created, no message appended, the
    pipeline not called, no clock read, every counter unchanged. *)
Theorem process_message_unknown_id (message cid : string) (w : State) :
  cid <> "" ->
  conversations w !! cid = None ->
  process_message env message (Some cid) w
  = (ErrorResult "Conversation not found" cid None, w).
Proof.
  intros Hne Hnone.
  unfold process_message, bind, get_conversation, ret.
  destruct cid as [|a rest]; [congruence|].
  cbn [opt_truthy str_truthy default]. cbn.
  rewrite Hnone. reflexivity.
Qed.

(** The snapshot reports a rate of 0 while no conversation was counted. *)
Lemma sales_conversion_rate_without_conversations (w : State) :
  conversations_total (metrics w) <= 0 ->
  view_sales_conversion_rate (get_conversion_metrics w) = 0%Q.
Proof.
  intros H. unfold get_conversion_metrics. cbn.
  destruct (Z.ltb_spec 0 (conversations_total (metrics w))); [lia | reflexivity].
Qed.

End OrchestratorFacts.

Section ClosedSales.
Import Conversation Orchestrator.

Variable env : Env.

Lemma post_update_quiet cid c f w (Q : Conversation -> State -> Prop) :
  (forall w', quiet w w' -> Q (f c) w') -> post (update cid c f) w Q.
Proof. intros H. apply H. split; reflexivity. Qed.

Lemma post_read_time_quiet w (Q : Q -> State -> Prop) :
  (forall t w', quiet w w' -> Q t w') -> post (read_time env) w Q.
Proof. intros H. apply H. split; reflexivity. Qed.

Lemma post_add_message_quiet cid c r text aid md w
    (Q : Conversation -> State -> Prop) :
  (forall c' w', current_stage c' = current_stage c -> quiet w w' -> Q c' w') ->
  post (do_add_message env cid c r text aid md) w Q.
Proof. intros H. apply H; [reflexivity | split; reflexivity]. Qed.

Lemma post_with_metrics_step f w (Q : unit -> State -> Prop) :
  (forall w', metrics w' = f (metrics w) -> Q tt w') ->
  post (with_metrics f) w Q.
Proof. intros H. apply H. reflexivity. Qed.

Lemma post_call_swarm_step message w (Q : SwarmOutcome -> State -> Prop) :
  (forall w', metrics w' = metrics w ->
              Q (swarm_process env (swarm_calls w) message) w') ->
  post (call_swarm env message) w Q.
Proof. intros H. apply H. reflexivity. Qed.

(** The defect behind C1 and C2 in general: a turn of a conversation that
    is already in [closing], handled by ["closing_agent"], adds one to
    the closed-sale counter whatever the conversation's metadata holds,
    the [sale_closed] flag included. *)
Lemma closing_turn_counts_again (message cid : string) (c : Conversation)
    (w : State) (result : SwarmResult) :
  let agents :=
    default [] (agents_used (default (mkTelemetry None None) (sr_telemetry result))) in
  cid <> "" ->
  conversations w !! cid = Some c ->
  current_stage c = CLOSING ->
  swarm_process env (swarm_calls w) message = SwarmReturns result ->
  last_active_agent (default [] (sr_node_history result)) agents = "closing_agent" ->
  "closing_agent" ∈ agents ->
  closed_sales (metrics (snd (process_message env message (Some cid) w)))
  = closed_sales (metrics w) + 1.
Proof.
  intros agents Hne Hc Hstage Hswarm Hlast Hin.
  change (post (process_message env message (Some cid)) w
               (fun _ w' => closed_sales (metrics w') = closed_sales (metrics w) + 1)).
  unfold process_message. cbn [opt_truthy].
  rewrite (str_truthy_nonempty cid Hne).
  change (default "" (Some cid)) with cid.
  apply post_bind. apply post_bind. apply post_get_conversation. rewrite Hc.
  apply post_ret. cbv beta iota.
  apply post_bind. apply post_add_message_quiet. intros c1 w1 Hst1 [Hm1 Hs1].
  apply post_bind. apply post_read_time_quiet. intros t w2 [Hm2 Hs2].
  apply post_bind. apply post_call_swarm_step. intros w3 Hm3.
  rewrite Hs2, Hs1, Hswarm. cbv beta iota.
  unfold track_turn. fold agents. rewrite Hlast.
  change (default FAQ (stage_mapping "closing_agent")) with CLOSING.
  rewrite Hst1, Hstage. cbn [stage_eqb].
  apply post_bind.
  apply (post_conseq _ _ (fun _ w' => metrics w' = metrics w3)).
  { destruct (str_truthy _).
    - apply post_add_message_quiet. intros c' w' _ [Hm _]. exact Hm.
    - apply post_ret. reflexivity. }
  intros c4 w4 Hm4. apply post_bind. apply post_ret. cbv beta iota.
  apply post_bind. apply post_update_quiet. intros w5 [Hm5 _].
  apply post_bind. apply post_update_quiet. intros w6 [Hm6 _].
  apply post_bind. apply post_with_metrics_step. intros w7 Hm7.
  apply post_bind. apply post_bind. apply post_with_metrics_step. intros w8 Hm8.
  rewrite (bool_decide_eq_true_2 _ Hin).
  apply post_bind. apply post_with_metrics_step. intros w9 Hm9.
  apply post_bind. apply post_update_quiet. intros w10 [Hm10 _].
  apply post_bind. apply post_read_time_quiet. intros t' w11 [Hm11 _].
  apply post_update_quiet. intros w12 [Hm12 _].
  apply post_bind. apply post_ret. apply post_ret.
  rewrite Hm12, Hm11, Hm10, Hm9, Hm8, Hm7, Hm6, Hm5, Hm4, Hm3, Hm2, Hm1.
  reflexivity.
Qed.
End ClosedSales.

Section OrchestratorRuns.
Import Conversation Orchestrator.

(** C1, at the failing input: one conversation, whose second turn
    reaches [closing] with ["closing_agent"] in the trace and is counted
    and flagged, and whose third turn, again in [closing] with
    ["closing_agent"], is counted a second time although the flag
    [sale_closed] was already set. *)
Theorem closing_reentered_counts_twice :
  closed_sales (metrics Samples.after_first) = 0
  /\ closed_sales (metrics Samples.after_second) = 1
  /\ (exists c, conversations Samples.after_second !! "conv-1" = Some c
                /\ current_stage c = CLOSING
                /\ metadata c !! "sale_closed" = Some (MBool true))
  /\ closed_sales (metrics Samples.after_third) = 2
  /\ size (conversations Samples.after_third) = 1%nat.
Proof.
  split; [vm_compute; reflexivity|].
  split; [vm_compute; reflexivity|].
  split.
  { eexists. split; [vm_compute; reflexivity|].
    split; vm_compute; reflexivity. }
  split; vm_compute; reflexivity.
Qed.

(** C2, at the failing input: after the same three turns the snapshot
    reports two closed sales for one conversation and a sales conversion
    rate of 200. *)
Theorem closed_sales_exceed_conversations :
  let view := get_conversion_metrics Samples.after_third in
  view_total_conversations view = 1
  /\ view_closed_sales view = 2
  /\ view_sales_conversion_rate view = 200%Q
  /\ ~ (view_sales_conversion_rate view <= 100)%Q.
Proof.
  cbv zeta.
  split; [vm_compute; reflexivity|].
  split; [vm_compute; reflexivity|].
  split; [vm_compute; reflexivity|].
  vm_compute. intros H. apply H. reflexivity.
Qed.

(** C8 fails as stated: a message appended when the clock reads what it
    read at the previous update leaves [updated_at] equal, not greater;
    and assigning a new stage changes the conversation without touching
    [updated_at]. *)
Lemma updated_at_not_strictly_increasing :
  let c := Samples.fresh_conversation in
  (add_message 0 0 USER "hello" None None c <> c
   /\ ~ (updated_at c < updated_at (add_message 0 0 USER "hello" None None c)))
  /\ (set_current_stage CLOSING c <> c
      /\ ~ (updated_at c < updated_at (set_current_stage CLOSING c))).
Proof.
  cbv zeta. split; split; try (intros H; discriminate H); cbn; lia.
Qed.

Lemma updated_at_after_turn_witness :
  exists c' n,
    conversations (snd (process_message Samples.env "yes, buy" (Some "conv-1")
                                        Samples.after_second)) !! "conv-1"
    = Some c'
    /\ (utc_reads Samples.after_second <= n)%nat
    /\ updated_at c' = utcnow Samples.env n
    /\ updated_at Samples.closing_conversation < updated_at c'.
Proof.
  apply (updated_at_after_turn Samples.env "yes, buy" "conv-1"
           Samples.closing_conversation Samples.after_second).
  - discriminate.
  - vm_compute. reflexivity.
  - intros n Hn. vm_compute in Hn.
    let v := eval vm_compute in (updated_at Samples.closing_conversation) in
    change (updated_at Samples.closing_conversation) with v.
    cbn. lia.
Defined.

(** C10 fails as stated: the empty string is a conversation id under which
    nothing is stored, and [process_message] answers it by creating a
    conversation and running the turn. *)
Lemma process_message_empty_id_creates :
  conversations init !! "" = None
  /\ (exists turn_metadata,
        fst (process_message Samples.env "hello" (Some "") init)
        = TurnResult "conv-1" "Hello" "researcher" "faq" turn_metadata)
  /\ conversations_total
       (metrics (snd (process_message Samples.env "hello" (Some "") init))) = 1
  /\ swarm_calls (snd (process_message Samples.env "hello" (Some "") init))
     = 1%nat.
Proof.
  split; [reflexivity|].
  split; [eexists; vm_compute; reflexivity|].
  split; vm_compute; reflexivity.
Qed.

Lemma process_message_unknown_id_witness :
  process_message Samples.env "hello" (Some "conv-9") Samples.after_first
  = (ErrorResult "Conversation not found" "conv-9" None, Samples.after_first).
Proof.
  apply process_message_unknown_id.
  - discriminate.
  - vm_compute. reflexivity.
Defined.

End OrchestratorRuns.

(** ** The retry decorator *)

Section RetryFacts.
Import Retry.

Context {W A : Type}.
Variable func : W -> outcome A * W.

(** A first attempt that returns ends the call: one invocation, no sleep. *)
Lemma wrapper_first_success (max_retries : Z) (delay backoff : Q) w a w' :
  0 < max_retries ->
  func w = (Returns a, w') ->
  wrapper max_retries delay backoff func w = mkRun (Returns a) w' 1 [].
Proof.
  intros Hpos Hf. unfold wrapper.
  destruct (Z.to_nat max_retries) as [|n] eqn:Hn; [lia|].
  cbn. rewrite Hf. reflexivity.
Qed.

(** Three attempts under the default policy, the first two failing. *)
Lemma wrapper_three_attempts (w0 w1 w2 w3 : W) (e1 e2 : exn)
    (third : outcome A) :
  func w0 = (Raises e1, w1) ->
  func w1 = (Raises e2, w2) ->
  func w2 = (third, w3) ->
  wrapper 3 1 2 func w0 = mkRun third w3 3 [1; 2]%Q.
Proof.
  intros H0 H1 H2. unfold wrapper.
  change (Z.to_nat 3) with 3%nat.
  cbn [attempts]. rewrite H0.
  change (0 <? 3 - 1)%Z with true. cbv iota.
  rewrite H1.
  change (0 + 1 <? 3 - 1)%Z with true. cbv iota.
  rewrite H2.
  change (0 + 1 + 1 <? 3 - 1)%Z with false. cbv iota.
  destruct third; reflexivity.
Qed.

(** C6: under the default policy (3 attempts, initial delay 1, multiplier
    2) an operation whose first two invocations fail is invoked exactly
    three times, with sleeps of 1 and 2 between the invocations, and the
    call ends with the outcome of the third invocation: its result,
    returned once, if it returns, and its error, re-raised, if it fails
    too. *)
Theorem retry_default_three_attempts (w0 w1 w2 w3 : W) (e1 e2 : exn)
    (third : outcome A) :
  func w0 = (Raises e1, w1) ->
  func w1 = (Raises e2, w2) ->
  func w2 = (third, w3) ->
  let run := wrapper 3 1 2 func w0 in
  result run = third
  /\ world run = w3
  /\ invocations run = 3%nat
  /\ sleeps run = [1; 2]%Q.
Proof.
  intros H0 H1 H2. cbv zeta.
  rewrite (wrapper_three_attempts w0 w1 w2 w3 e1 e2 third H0 H1 H2).
  repeat split.
Qed.

Lemma attempts_S (max_retries : Z) (backoff : Q) k attempt d last_error w
    calls slept :
  attempts max_retries backoff func (S k) attempt d last_error w calls slept
  = match func w with
    | (Returns a, w') => mkRun (Returns a) w' (S calls) slept
    | (Raises e, w') =>
        if (attempt <? max_retries - 1)%Z then
          attempts max_retries backoff func k (attempt + 1) (d * backoff)%Q
                   (Some e) w' (S calls) (slept ++ [d])%list
        else mkRun (Raises e) w' (S calls) slept
    end.
Proof. reflexivity. Qed.

(** While every invocation fails, [k] remaining attempts are all made,
    each but the last followed by a sleep. *)
Lemma attempts_all_fail (max_retries : Z) (backoff : Q) :
  (forall w, exists e w', func w = (Raises e, w')) ->
  forall (k : nat) (attempt : Z) (d : Q) (last_error : option exn) (w : W)
         (calls : nat) (slept : list Q),
    attempt + Z.of_nat (S k) = max_retries ->
    let run := attempts max_retries backoff func (S k) attempt d last_error
                        w calls slept in
    invocations run = (calls + S k)%nat
    /\ sleeps run = (slept ++ backoff_delays backoff k d)%list
    /\ exists e, result run = Raises e.
Proof.
  intros Hfail k. induction k as [|k IH];
    intros attempt d last_error w calls slept Hk; cbv zeta;
    rewrite attempts_S; destruct (Hfail w) as (e & w' & He); rewrite He.
  - destruct (Z.ltb_spec attempt (max_retries - 1)); [lia|].
    cbn. repeat split; [lia | | eauto].
    rewrite app_nil_r. reflexivity.
  - destruct (Z.ltb_spec attempt (max_retries - 1)); [|lia].
    specialize (IH (attempt + 1) (d * backoff)%Q (Some e) w' (S calls)
                   (slept ++ [d])%list).
    cbv zeta in IH. destruct IH as (Hi & Hs & Hr); [lia|].
    rewrite Hi, Hs. repeat split; [lia | | exact Hr].
    rewrite <- app_assoc. reflexivity.
Qed.

(** An operation that always fails is invoked [max_retries] times, with
    exponentially growing sleeps in between, and the call raises. *)
Lemma wrapper_all_fail (n : nat) (delay backoff : Q) (w : W) :
  (forall w, exists e w', func w = (Raises e, w')) ->
  let run := wrapper (Z.of_nat (S n)) delay backoff func w in
  invocations run = S n
  /\ sleeps run = backoff_delays backoff n delay
  /\ exists e, result run = Raises e.
Proof.
  intros Hfail. unfold wrapper. rewrite Nat2Z.id.
  apply (attempts_all_fail (Z.of_nat (S n)) backoff Hfail n 0 delay None w 0%nat []).
  lia.
Qed.

(** What a returning call returned was returned by an invocation of the
    wrapped function, in a world that any invariant of the function still
    holds in, and that invocation left the world the call ends in. *)
Lemma attempts_returns (I : W -> Prop) (max_retries : Z) (backoff : Q) :
  (forall w o w', I w -> func w = (o, w') -> I w') ->
  forall (k : nat) attempt d last_error w calls slept a,
    I w ->
    result (attempts max_retries backoff func k attempt d last_error w calls slept)
    = Returns a ->
    exists w1, I w1
      /\ func w1 = (Returns a,
                    world (attempts max_retries backoff func k attempt d
                                    last_error w calls slept)).
Proof.
  intros Hinv k. induction k as [|k IH];
    intros attempt d last_error w calls slept a Hw Hr.
  - cbn in Hr. discriminate Hr.
  - rewrite attempts_S in *. destruct (func w) as [[a'|e] w'] eqn:Hf.
    + cbn in *. exists w. split; [exact Hw|]. congruence.
    + destruct (attempt <? max_retries - 1)%Z.
      * apply IH; [eapply Hinv; eauto | exact Hr].
      * cbn in Hr. discriminate Hr.
Qed.

(** An invariant of the wrapped function holds in the world the call
    ends in. *)
Lemma attempts_invariant (I : W -> Prop) (max_retries : Z) (backoff : Q) :
  (forall w o w', I w -> func w = (o, w') -> I w') ->
  forall (k : nat) attempt d last_error w calls slept,
    I w ->
    I (world (attempts max_retries backoff func k attempt d last_error w
                       calls slept)).
Proof.
  intros Hinv k. induction k as [|k IH];
    intros attempt d last_error w calls slept Hw.
  - exact Hw.
  - rewrite attempts_S. destruct (func w) as [[a|e] w'] eqn:Hf.
    + cbn. eapply Hinv; eauto.
    + destruct (attempt <? max_retries - 1)%Z.
      * apply IH. eapply Hinv; eauto.
      * cbn. eapply Hinv; eauto.
Qed.

End RetryFacts.

Lemma retry_default_three_attempts_witness :
  let run := Retry.wrapper 3 1 2 Samples.flaky 0%nat in
  Retry.result run = Returns "ok"
  /\ Retry.world run = 3%nat
  /\ Retry.invocations run = 3%nat
  /\ Retry.sleeps run = [1; 2]%Q.
Proof.
  apply (retry_default_three_attempts Samples.flaky 0%nat 1%nat 2%nat 3%nat
           (RuntimeError "unavailable") (RuntimeError "unavailable")
           (Returns "ok"));
    reflexivity.
Defined.

(** ** The cached, retried CRM client *)

Lemma Qlt_bool_true (x y : Q) : CRMTool.Qlt_bool x y = true <-> (x < y)%Q.
Proof.
  unfold CRMTool.Qlt_bool. rewrite negb_true_iff.
  split.
  - intros H. apply Qnot_le_lt. intros Hle.
    apply Qle_bool_iff in Hle. congruence.
  - intros H. destruct (Qle_bool y x) eqn:Hb; [|reflexivity].
    apply Qle_bool_iff in Hb. exfalso. exact (Qlt_not_le _ _ H Hb).
Qed.

Lemma Qlt_bool_false (x y : Q) : CRMTool.Qlt_bool x y = false <-> (y <= x)%Q.
Proof.
  unfold CRMTool.Qlt_bool. rewrite negb_false_iff. apply Qle_bool_iff.
Qed.

Section CRMToolFacts.
Import Retry CRMTool.

Context {S : Type}.
Variable provider_call : S -> string -> PyDict -> outcome PyDict * S.
Variable json_dumps : PyDict -> string.
Variable time_time : nat -> Q.

#[local] Abbreviation cached_call := (CRMTool.cached_call provider_call json_dumps time_time).
#[local] Abbreviation read_body := (CRMTool.read_body provider_call json_dumps time_time).
#[local] Abbreviation read := (CRMTool.read provider_call json_dumps time_time).
#[local] Abbreviation read_key := (CRMTool.read_key json_dumps).
#[local] Abbreviation get_lead_info := (CRMTool.get_lead_info provider_call json_dumps time_time).
#[local] Abbreviation key_of := (CRMTool._get_cache_key json_dumps).

(** The cache check leaves the tool as it is but for the clock reading;
    what it finds is an entry of the cache, younger than the TTL. *)
Lemma cache_lookup_spec key (t : Tool S) hit t' :
  cache_lookup time_time key t = (hit, t') ->
  crm_server t' = crm_server t /\ cache_enabled t' = cache_enabled t
  /\ cache_ttl t' = cache_ttl t /\ _cache t' = _cache t
  /\ server_calls t' = server_calls t
  /\ (forall r, hit = Some r ->
        exists stored, _cache t !! key = Some (r, stored)
          /\ (time_time (time_reads t) - stored < inject_Z (cache_ttl t))%Q).
Proof.
  unfold cache_lookup, _is_cache_valid. intros H.
  destruct (cache_enabled t) eqn:Hen; cbn [negb] in H.
  - destruct (_cache t !! key) as [[data stored]|] eqn:Hc.
    + destruct (Qlt_bool _ _) eqn:Hage; inversion H; subst; cbn;
        rewrite ?Hen; repeat split; auto; try discriminate.
      intros r Hr. inversion Hr; subst. exists stored.
      split; [reflexivity|]. apply Qlt_bool_true, Hage.
    + inversion H; subst. rewrite Hen. repeat split; auto. discriminate.
  - inversion H; subst. rewrite Hen. repeat split; auto. discriminate.
Qed.

(** A valid entry is returned without calling the provider. *)
Lemma cached_call_hit tool_name params failure (t : Tool S) r stored :
  cache_enabled t = true ->
  _cache t !! key_of tool_name params = Some (r, stored) ->
  (time_time (time_reads t) - stored < inject_Z (cache_ttl t))%Q ->
  cached_call tool_name params failure t
  = (Returns r,
     mkTool (crm_server t) true (cache_ttl t) (_cache t)
            (Datatypes.S (time_reads t)) (server_calls t)).
Proof.
  intros Hen Hc Hage. unfold CRMTool.cached_call, cache_lookup, _is_cache_valid.
  rewrite Hen, Hc. cbn [negb].
  apply Qlt_bool_true in Hage. rewrite Hage. reflexivity.
Qed.

(** An entry whose age has reached the TTL is not returned: the provider
    is called, and its answer is stored with a new time stamp. *)
Lemma cached_call_expired tool_name params failure (t : Tool S) r stored :
  cache_enabled t = true ->
  _cache t !! key_of tool_name params = Some (r, stored) ->
  (inject_Z (cache_ttl t) <= time_time (time_reads t) - stored)%Q ->
  cached_call tool_name params failure t
  = match provider_call (crm_server t) tool_name params with
    | (Returns answer, server) =>
        (Returns answer,
         mkTool server true (cache_ttl t)
                (<[key_of tool_name params
                   := (answer, time_time (Datatypes.S (time_reads t)))]> (_cache t))
                (Datatypes.S (Datatypes.S (time_reads t)))
                (Datatypes.S (server_calls t)))
    | (Raises e, server) =>
        (Raises (RuntimeError (failure ++ ": " ++ exn_str e)),
         mkTool server true (cache_ttl t) (_cache t)
                (Datatypes.S (time_reads t)) (Datatypes.S (server_calls t)))
    end.
Proof.
  intros Hen Hc Hage.
  unfold CRMTool.cached_call, cache_lookup, _is_cache_valid, fetch.
  rewrite Hen, Hc. cbn [negb].
  apply Qlt_bool_false in Hage. rewrite Hage. cbn.
  destruct (provider_call (crm_server t) tool_name params) as [[answer|e] server];
    rewrite ?Hen; reflexivity.
Qed.

Lemma fetch_spec tool_name params failure key (t : Tool S) o t' :
  fetch provider_call time_time tool_name params failure key t = (o, t') ->
  cache_enabled t' = cache_enabled t /\ cache_ttl t' = cache_ttl t
  /\ server_calls t' = Datatypes.S (server_calls t)
  /\ (forall r, cache_enabled t = true -> o = Returns r ->
        exists stored, _cache t' !! key = Some (r, stored)).
Proof.
  unfold fetch. intros H.
  destruct (provider_call (crm_server t) tool_name params) as [[a|e] s'].
  - destruct (cache_enabled t) eqn:Hen; inversion H; subst; cbn;
      repeat split; auto; try discriminate.
    intros r _ Hr. inversion Hr; subst. rewrite lookup_insert_eq. eauto.
  - inversion H; subst; cbn. repeat split; auto. discriminate.
Qed.

(** Whatever [cached_call] does, the tool keeps its configuration and its
    count of provider calls does not decrease. *)
Lemma cached_call_config tool_name params failure (t : Tool S) o t' :
  cached_call tool_name params failure t = (o, t') ->
  cache_enabled t' = cache_enabled t /\ cache_ttl t' = cache_ttl t
  /\ (server_calls t <= server_calls t')%nat.
Proof.
  unfold CRMTool.cached_call. intros H.
  destruct (cache_lookup time_time _ t) as [hit t1] eqn:Hl.
  apply cache_lookup_spec in Hl. destruct Hl as (_ & He & Ht & _ & Hs & _).
  destruct hit as [data|].
  - inversion H; subst. repeat split; auto. lia.
  - apply fetch_spec in H. destruct H as (He' & Ht' & Hs' & _).
    repeat split; try congruence. lia.
Qed.

(** With caching enabled, what [cached_call] returns is in the cache
    afterwards, under the key of the call. *)
Lemma cached_call_returns_cached tool_name params failure (t : Tool S) r t' :
  cache_enabled t = true ->
  cached_call tool_name params failure t = (Returns r, t') ->
  exists stored, _cache t' !! key_of tool_name params = Some (r, stored).
Proof.
  unfold CRMTool.cached_call. intros Hen H.
  destruct (cache_lookup time_time _ t) as [hit t1] eqn:Hl.
  apply cache_lookup_spec in Hl. destruct Hl as (_ & He & _ & Hc & _ & Hhit).
  destruct hit as [data|].
  - inversion H; subst. destruct (Hhit r eq_refl) as (stored & Hs & _).
    exists stored. congruence.
  - apply fetch_spec in H. destruct H as (_ & _ & _ & Hr).
    apply Hr; congruence.
Qed.

(** A read call is its validation followed by [cached_call]. *)
Lemma read_body_returns (c : ReadCall) (t : Tool S) r t' :
  read_body c t = (Returns r, t') ->
  read_body c = cached_call (read_name c) (read_params c)
                            (match c with
                             | GetLeadInfo _ _ => "Failed to get lead info"
                             | GetSalesHistory _ _ => "Failed to get sales history"
                             end).
Proof.
  destruct c as [lead_id email|lead_id limit]; cbn; [|reflexivity].
  unfold get_lead_info_body.
  destruct (negb (opt_truthy lead_id) && negb (opt_truthy email));
    [discriminate | reflexivity].
Qed.

Lemma read_body_config (c : ReadCall) (t : Tool S) o t' :
  read_body c t = (o, t') ->
  cache_enabled t' = cache_enabled t /\ cache_ttl t' = cache_ttl t
  /\ (server_calls t <= server_calls t')%nat.
Proof.
  destruct c as [lead_id email|lead_id limit]; cbn.
  - unfold get_lead_info_body.
    destruct (negb (opt_truthy lead_id) && negb (opt_truthy email)).
    + intros H; inversion H; subst. auto.
    + apply cached_call_config.
  - apply cached_call_config.
Qed.

Lemma read_unfold (c : ReadCall) :
  read c = wrapper 3 1 2 (read_body c).
Proof. destruct c; reflexivity. Qed.

(** With an empty slot in the cache, the provider is called and its
    answer stored. *)
Lemma cached_call_miss tool_name params failure (t : Tool S) r s :
  cache_enabled t = true ->
  _cache t !! key_of tool_name params = None ->
  provider_call (crm_server t) tool_name params = (Returns r, s) ->
  cached_call tool_name params failure t
  = (Returns r,
     mkTool s true (cache_ttl t)
            (<[key_of tool_name params := (r, time_time (time_reads t))]> (_cache t))
            (Datatypes.S (time_reads t)) (Datatypes.S (server_calls t))).
Proof.
  intros Hen Hc Hp. unfold CRMTool.cached_call, cache_lookup, fetch.
  rewrite Hen, Hc, Hp, Hen. reflexivity.
Qed.

(** C7: let a read operation, with caching enabled, have returned [r].
    Then [r] is in the cache under the key of the call, with the time it
    was stored at.  A second call with the same parameters made while the
    age of the entry is below the TTL returns [r] in one attempt and does
    not call the provider (so a first call that was a miss answered by
    the provider leaves the provider called once in all).  A second call
    made when the age has reached the TTL does not return the entry: it
    calls the provider again, and when the provider answers, the answer is
    returned and stored as a fresh entry. *)
Theorem cached_read_within_and_after_ttl (c : ReadCall) (t0 : Tool S)
    (r : PyDict) :
  cache_enabled t0 = true ->
  result (read c t0) = Returns r ->
  let t1 := world (read c t0) in
  exists stored,
    _cache t1 !! read_key c = Some (r, stored)
    /\ (forall s,
          _cache t0 !! read_key c = None ->
          provider_call (crm_server t0) (read_name c) (read_params c)
          = (Returns r, s) ->
          server_calls t1 = Datatypes.S (server_calls t0))
    /\ ((time_time (time_reads t1) - stored < inject_Z (cache_ttl t1))%Q ->
        read c t1
        = mkRun (Returns r)
                (mkTool (crm_server t1) true (cache_ttl t1) (_cache t1)
                        (Datatypes.S (time_reads t1)) (server_calls t1))
                1 [])
    /\ ((inject_Z (cache_ttl t1) <= time_time (time_reads t1) - stored)%Q ->
        (Datatypes.S (server_calls t1) <= server_calls (world (read c t1)))%nat
        /\ forall r' s',
            provider_call (crm_server t1) (read_name c) (read_params c)
            = (Returns r', s') ->
            read c t1
            = mkRun (Returns r')
                    (mkTool s' true (cache_ttl t1)
                            (<[read_key c
                               := (r', time_time (Datatypes.S (time_reads t1)))]>
                               (_cache t1))
                            (Datatypes.S (Datatypes.S (time_reads t1)))
                            (Datatypes.S (server_calls t1)))
                    1 []).
Proof.
  intros Hen Hr t1.
  pose proof (attempts_returns (read_body c)
                (fun t => cache_enabled t = true) 3 2) as Hret.
  rewrite read_unfold in Hr.
  destruct (Hret (fun w o w' Hw Hb =>
                    eq_trans (proj1 (read_body_config c w o w' Hb)) Hw)
                 (Z.to_nat 3) 0 1%Q None t0 0%nat [] r Hen Hr)
    as (w1 & Hen1 & Hbody).
  fold (wrapper 3 1 2 (read_body c) t0) in Hbody.
  rewrite <- read_unfold in Hbody. fold t1 in Hbody.
  pose proof (read_body_returns c w1 r t1 Hbody) as Hshape.
  pose proof (read_body_config c w1 _ _ Hbody) as (Hen' & _ & _).
  assert (Hent1 : cache_enabled t1 = true) by congruence.
  rewrite Hshape in Hbody.
  destruct (cached_call_returns_cached _ _ _ _ _ _ Hen1 Hbody) as (stored & Hstored).
  exists stored. split; [exact Hstored|]. split; [|split].
  - intros s Hmiss Hp. subst t1.
    rewrite read_unfold.
    rewrite (wrapper_first_success (read_body c) 3 1 2 t0 r _ eq_refl
               ltac:(rewrite Hshape; apply (cached_call_miss _ _ _ t0 r s Hen Hmiss Hp))).
    reflexivity.
  - intros Hage. rewrite read_unfold.
    apply wrapper_first_success; [reflexivity|].
    rewrite Hshape. apply (cached_call_hit _ _ _ t1 r stored); assumption.
  - intros Hage. split.
    + rewrite read_unfold. unfold wrapper. change (Z.to_nat 3) with 3%nat.
      rewrite attempts_S. rewrite Hshape.
      rewrite (cached_call_expired _ _ _ t1 r stored Hent1 Hstored Hage).
      destruct (provider_call (crm_server t1) (read_name c) (read_params c))
        as [[a|e] s']; [cbn; lia|].
      change (0 <? 3 - 1)%Z with true. cbv iota.
      apply (attempts_invariant _
               (fun w => (Datatypes.S (server_calls t1) <= server_calls w)%nat)).
      * intros w o w' Hw Hb. rewrite <- Hshape in Hb.
        apply read_body_config in Hb. lia.
      * cbn. lia.
    + intros r' s' Hp. rewrite read_unfold.
      apply wrapper_first_success; [reflexivity|].
      rewrite Hshape.
      rewrite (cached_call_expired _ _ _ t1 r stored Hent1 Hstored Hage).
      rewrite Hp. reflexivity.
Qed.

(** When neither [lead_id] nor [email] is given, the body of
    [get_lead_info] raises before the cache or the provider is touched,
    and the decorator runs it three times. *)
Lemma get_lead_info_without_identifier (lead_id email : option string)
    (t : Tool S) :
  opt_truthy lead_id = false ->
  opt_truthy email = false ->
  get_lead_info lead_id email t
  = mkRun (Raises (ValueError "Either lead_id or email must be provided"))
          t 3 [1; 2]%Q.
Proof.
  intros Hl He. unfold CRMTool.get_lead_info.
  assert (Hb : forall w, get_lead_info_body provider_call json_dumps time_time
                           lead_id email w
                         = (Raises (ValueError "Either lead_id or email must be provided"), w)).
  { intros w. unfold get_lead_info_body. rewrite Hl, He. reflexivity. }
  apply (wrapper_three_attempts _ t t t t _ _ _ (Hb t) (Hb t) (Hb t)).
Qed.

(** C5, as amended: a call of [get_lead_info] with neither [lead_id] nor
    [email] raises [ValueError] with the fixed message of the client; the
    retry decorator retries every exception, so the validation runs three
    times, with sleeps of 1 and 2 in between, and the tool is left as it
    was (no cache access, no provider call).  The message that lists the
    missing, the provided and the expected parameter names is the one
    [_validate_required_params] raises when a required parameter is
    absent or [None]. *)
Theorem missing_parameter_is_retried (lead_id email : option string)
    (t : Tool S) (params : PyDict) (required : list string)
    (tool_name : string) :
  opt_truthy lead_id = false ->
  opt_truthy email = false ->
  BaseMCP.missing_params params required <> [] ->
  let run := get_lead_info lead_id email t in
  result run = Raises (ValueError "Either lead_id or email must be provided")
  /\ invocations run = 3%nat
  /\ sleeps run = [1; 2]%Q
  /\ world run = t
  /\ BaseMCP._validate_required_params params required tool_name
     = Raises (ValueError
         ("Parâmetros obrigatórios faltando para tool '" ++ tool_name ++ "': "
          ++ join ", " (BaseMCP.missing_params params required) ++ ". "
          ++ "Parâmetros fornecidos: "
          ++ (match params with
              | [] => "nenhum"
              | _ :: _ => join ", " (dict_keys params)
              end) ++ ". "
          ++ "Parâmetros esperados: " ++ join ", " required))
  /\ (forall p, In p (BaseMCP.missing_params params required)
                <-> In p required
                    /\ (dict_get p params = None
                        \/ dict_get p params = Some PNone)).
Proof.
  intros Hl He Hmissing. cbv zeta.
  rewrite (get_lead_info_without_identifier lead_id email t Hl He).
  repeat split.
  - unfold BaseMCP._validate_required_params.
    destruct (BaseMCP.missing_params params required) eqn:Hm; [congruence|].
    unfold BaseMCP.required_params_message. rewrite Hm. reflexivity.
  - unfold BaseMCP.missing_params in H. apply filter_In in H. apply H.
  - unfold BaseMCP.missing_params in H. apply filter_In in H.
    destruct H as [_ H]. destruct (dict_get p params) as [[]|]; auto; discriminate.
  - intros [Hin Hget]. unfold BaseMCP.missing_params. apply filter_In.
    split; [exact Hin|]. destruct Hget as [-> | ->]; reflexivity.
Qed.

End CRMToolFacts.

Section CRMToolRuns.
Import Retry CRMTool.

#[local] Abbreviation sample_read :=
  (CRMTool.read Samples.crm_call Samples.json_dumps Samples.half_hours).

(** C5 fails as stated: the validation error of [get_lead_info] is raised
    after three invocations of its body and two sleeps, not after one
    invocation without sleep, and its message names no provided
    parameter. *)
Lemma missing_identifier_three_invocations :
  let run := CRMTool.get_lead_info Samples.crm_call Samples.json_dumps
                                   Samples.half_hours None None Samples.tool in
  result run = Raises (ValueError "Either lead_id or email must be provided")
  /\ invocations run = 3%nat
  /\ invocations run <> 1%nat
  /\ sleeps run = [1; 2]%Q
  /\ sleeps run <> [].
Proof.
  cbv zeta. repeat split; try (vm_compute; reflexivity); vm_compute; discriminate.
Qed.

Lemma missing_parameter_is_retried_witness :
  let run := CRMTool.get_lead_info Samples.crm_call Samples.json_dumps
                                   Samples.half_hours None (Some "") Samples.tool in
  result run = Raises (ValueError "Either lead_id or email must be provided")
  /\ invocations run = 3%nat
  /\ sleeps run = [1; 2]%Q
  /\ world run = Samples.tool.
Proof.
  pose proof (missing_parameter_is_retried Samples.crm_call Samples.json_dumps
                Samples.half_hours None (Some "") Samples.tool
                [("email", PNone)] ["lead_id"; "email"] "get_lead_info"
                eq_refl eq_refl ltac:(discriminate)) as H.
  cbv zeta in H. cbv zeta. tauto.
Defined.

(** On the half-hour clock the second call is made at age 1800 and is
    answered from the cache; on the hour clock it is made at age 3600 and
    goes to the provider again. *)
Lemma cached_read_within_and_after_ttl_witness :
  let c := GetLeadInfo (Some "lead_001") None in
  (let t1 := world (sample_read c Samples.tool) in
   result (sample_read c t1) = Returns Samples.lead_001_answer
   /\ invocations (sample_read c t1) = 1%nat
   /\ server_calls (world (sample_read c t1)) = 1%nat)
  /\ (let read' := CRMTool.read Samples.crm_call Samples.json_dumps
                                Samples.hours in
      let t1 := world (read' c Samples.tool) in
      (2 <= server_calls (world (read' c t1)))%nat).
Proof.
  cbv zeta. split.
  - destruct (cached_read_within_and_after_ttl Samples.crm_call
                Samples.json_dumps Samples.half_hours
                (GetLeadInfo (Some "lead_001") None)
                Samples.tool Samples.lead_001_answer)
      as (stored & Hentry & _ & Hwithin & _).
    + reflexivity.
    + vm_compute. reflexivity.
    + assert (Hs : stored = 0%Q).
      { vm_compute in Hentry. congruence. }
      subst stored. rewrite Hwithin; [repeat split|].
      vm_compute. reflexivity.
  - destruct (cached_read_within_and_after_ttl Samples.crm_call
                Samples.json_dumps Samples.hours
                (GetLeadInfo (Some "lead_001") None)
                Samples.tool Samples.lead_001_answer)
      as (stored & Hentry & _ & _ & Hafter).
    + reflexivity.
    + vm_compute. reflexivity.
    + assert (Hs : stored = 0%Q).
      { vm_compute in Hentry. congruence. }
      subst stored. apply Hafter.
      vm_compute. discriminate.
Defined.

End CRMToolRuns.

(** ** The mock CRM provider *)

Section MockCRMFacts.
Import MockCRM.

(** A lookup by id that finds nothing answers with [error] and without
    [success]. *)
Lemma get_lead_info_not_found (lead_id email : option string) (s : Server) :
  opt_truthy lead_id = true ->
  dict_get (default "" lead_id) (_leads s) = None ->
  _get_lead_info lead_id email s
  = [("error", PStr "Lead not found"); ("lead_id", of_opt lead_id);
     ("email", of_opt email)].
Proof.
  intros Ht Hnone. unfold _get_lead_info.
  rewrite Ht. cbn [negb andb]. rewrite Hnone. reflexivity.
Qed.

(** The sibling paths set both keys: without identifier the answer has
    [success] false and an [error]; a lead that is found has [success]
    true and no [error]. *)
Lemma get_lead_info_without_identifier_flags (lead_id email : option string)
    (s : Server) :
  opt_truthy lead_id = false ->
  opt_truthy email = false ->
  dict_get "success" (_get_lead_info lead_id email s) = Some (PBool false)
  /\ dict_has "error" (_get_lead_info lead_id email s) = true.
Proof.
  intros Hl He. unfold _get_lead_info. rewrite Hl, He. split; reflexivity.
Qed.

(** C3, at the failing input: looking up the lead id ["lead_999"], which
    the server does not hold, answers with an [error] and no [success]
    key at all, directly and through [call]; so does updating the status
    of that lead; while the missing-identifier path of the same operation
    sets [success] to false next to its [error]. *)
Theorem lead_not_found_lacks_success :
  let answer := _get_lead_info (Some "lead_999") None Samples.crm_server in
  dict_get "error" answer = Some (PStr "Lead not found")
  /\ dict_get "success" answer = None
  /\ fst (Samples.crm_call Samples.crm_server "get_lead_info"
                           [("lead_id", PStr "lead_999")])
     = Returns answer
  /\ (let updated := fst (_update_lead_status Samples.crm_env (Some "lead_999")
                                              (Some "qualified") None
                                              Samples.crm_server) in
      dict_get "error" updated = Some (PStr "Lead not found")
      /\ dict_get "success" updated = None)
  /\ (let missing := _get_lead_info None None Samples.crm_server in
      dict_get "success" missing = Some (PBool false)
      /\ dict_has "error" missing = true).
Proof.
  cbv zeta. repeat split; vm_compute; reflexivity.
Qed.

End MockCRMFacts.

(** ** The tool dispatcher *)

Section StringFacts.

Lemma prefix_spec (a b : string) :
  String.prefix a b = true <-> exists rest, b = a ++ rest.
Proof.
  revert b. induction a as [|c a IH]; intros b.
  - split; [intros _; exists b; reflexivity | intros _; destruct b; reflexivity].
  - destruct b as [|c' b]; cbn.
    + split; [discriminate | intros [rest H]; discriminate H].
    + destruct (Ascii.ascii_dec c c') as [->|Hne].
      * rewrite IH. split; intros [rest H]; exists rest.
        -- rewrite H. reflexivity.
        -- injection H as H. exact H.
      * split; [discriminate | intros [rest H]; injection H as Hc _; congruence].
Qed.

(** [contains] decides the substring relation. *)
Lemma contains_spec (needle haystack : string) :
  contains needle haystack = true <-> is_substring needle haystack.
Proof.
  unfold is_substring. split.
  - induction haystack as [|c rest IH]; cbn [contains]; intros H;
      apply orb_true_iff in H; destruct H as [H|H].
    + apply prefix_spec in H as [after ->]. exists "", after. reflexivity.
    + discriminate H.
    + apply prefix_spec in H as [after ->]. exists "", after. reflexivity.
    + destruct (IH H) as (before & after & ->).
      exists (String c before), after. reflexivity.
  - intros (before & after & ->).
    induction before as [|c before IH].
    + cbn [append]. destruct (needle ++ after) eqn:E; cbn [contains];
        apply orb_true_iff; left; apply prefix_spec; exists after; auto.
    + cbn [append contains]. apply orb_true_iff. right. exact IH.
Qed.

End StringFacts.

Section DictFacts.

Context {V : Type}.

Lemma dict_get_none (k : string) (d : list (string * V)) :
  dict_get k d = None <-> ~ In k (dict_keys d).
Proof.
  unfold dict_keys. induction d as [|[k' v] d IH]; cbn.
  - tauto.
  - destruct (String.eqb_spec k k') as [->|Hne].
    + split; [discriminate | intros H; exfalso; apply H; auto].
    + rewrite IH. intuition congruence.
Qed.

Lemma dict_keys_set (k x : string) (v : V) (d : list (string * V)) :
  In x (dict_keys (dict_set k v d)) <-> x = k \/ In x (dict_keys d).
Proof.
  unfold dict_keys. induction d as [|[k' v'] d IH]; cbn.
  - intuition congruence.
  - destruct (String.eqb_spec k k') as [->|Hne]; cbn.
    + intuition congruence.
    + rewrite IH. intuition congruence.
Qed.

End DictFacts.

Section MCPToolsFacts.
Import MCPTools.

(** The keys of [self.tools] are the names of the configured tools. *)
Lemma tools_keys (tool_list : list MCPTool) (d : list (string * MCPTool))
    (x : string) :
  In x (dict_keys (fold_left (fun d tool => dict_set (name tool) tool d)
                             tool_list d))
  <-> In x (dict_keys d) \/ In x (map name tool_list).
Proof.
  revert d. induction tool_list as [|tool rest IH]; intros d;
    cbn [fold_left map In].
  - tauto.
  - rewrite IH, dict_keys_set. intuition congruence.
Qed.

(** C4: for a name that no configured tool carries, [call_tool] raises
    [ValueError] (not the [RuntimeError] of the transport failures) and
    makes no call to a server object or over HTTP.  The message names the
    tool and then lists the first five of the known names that are
    similar (one lower-cased name a substring of the other); when there
    are none, the first ten known names; when no tool is configured, it
    says that none is available. *)
Theorem call_tool_unknown_operation (env : Env) (tool_list : list MCPTool)
    (timeout : option Q) (held : list string) (tool_name : string)
    (given : option PyDict) (log : list Event) :
  ~ In tool_name (map name tool_list) ->
  let m := new_manager tool_list timeout held in
  let known := dict_keys (tools m) in
  let similar :=
    List.filter (fun k => contains (lower env tool_name) (lower env k)
                          || contains (lower env k) (lower env tool_name))
                known in
  let heading := "Tool '" ++ tool_name ++ "' não encontrada." in
  exists msg,
    call_tool env m tool_name given log = (Raises (ValueError msg), log)
    /\ (similar <> [] ->
        msg = heading ++ " Tools similares disponíveis: "
              ++ join ", " (firstn 5 similar))
    /\ (similar = [] -> known <> [] ->
        msg = heading ++ " Tools disponíveis: " ++ join ", " (firstn 10 known))
    /\ (known = [] -> msg = heading ++ " Nenhuma tool disponível.")
    /\ (forall k, In k known <-> In k (map name tool_list))
    /\ (forall k, In k similar
                  <-> In k known
                      /\ (is_substring (lower env tool_name) (lower env k)
                          \/ is_substring (lower env k) (lower env tool_name)))
    /\ (length (firstn 5 similar) <= 5)%nat
    /\ (length (firstn 10 known) <= 10)%nat.
Proof.
  intros Hunknown m known similar heading.
  assert (Hkeys : forall k, In k known <-> In k (map name tool_list)).
  { intros k. subst known m. unfold new_manager. cbn [tools].
    rewrite tools_keys. cbn. tauto. }
  assert (Hget : dict_get tool_name (tools m) = None).
  { apply dict_get_none. fold known. rewrite Hkeys. exact Hunknown. }
  exists (not_found_message (lower env) tool_name known).
  split; [unfold call_tool; rewrite Hget; reflexivity|].
  unfold not_found_message, similar_names. fold similar. fold heading.
  split; [intros Hs; destruct similar; [congruence | reflexivity]|].
  split; [intros Hs Hk; rewrite Hs; destruct known; [congruence | reflexivity]|].
  split.
  { intros Hk.
    assert (Hs : similar = []) by (subst similar; rewrite Hk; reflexivity).
    rewrite Hs, Hk. reflexivity. }
  split; [exact Hkeys|].
  split; [|split; apply firstn_le_length].
  intros k. subst similar.
  rewrite filter_In, orb_true_iff, !contains_spec. reflexivity.
Qed.

Lemma call_tool_unknown_operation_witness :
  exists msg,
    call_tool Samples.mcp_env Samples.manager "Get_Lead" None []
    = (Raises (ValueError msg), [])
    /\ msg = "Tool 'Get_Lead' não encontrada. Tools similares disponíveis: get_lead_info".
Proof.
  destruct (call_tool_unknown_operation Samples.mcp_env Samples.tool_list None
              ["mock_crm"] "Get_Lead" None [])
    as (msg & Hcall & Hsimilar & _).
  - vm_compute. intuition discriminate.
  - exists msg. split; [exact Hcall|].
    rewrite Hsimilar; [vm_compute; reflexivity | vm_compute; discriminate].
Defined.

End MCPToolsFacts.

(** ** The provider registry *)

Section AppendFacts.

Lemma append_cons (c : ascii) (a b : string) :
  String c a ++ b = String c (a ++ b).
Proof. reflexivity. Qed.

Lemma append_length (a b : string) :
  String.length (a ++ b) = (String.length a + String.length b)%nat.
Proof.
  induction a as [|c a IH]; [reflexivity|].
  rewrite append_cons. cbn [String.length Nat.add]. rewrite IH. reflexivity.
Qed.

Lemma append_assoc (a b c : string) : (a ++ b) ++ c = a ++ (b ++ c).
Proof.
  induction a as [|x a IH]; [reflexivity|].
  rewrite !append_cons, IH. reflexivity.
Qed.

(** Equal strings that end in suffixes of the same length have equal
    fronts and equal suffixes. *)
Lemma append_inj_same_length (n1 n2 s1 s2 : string) :
  String.length s1 = String.length s2 ->
  n1 ++ s1 = n2 ++ s2 -> n1 = n2 /\ s1 = s2.
Proof.
  intros Hlen. revert n2.
  induction n1 as [|c n1 IH]; intros [|c' n2] H.
  - auto.
  - apply (f_equal String.length) in H.
    rewrite append_cons in H. cbn [String.length append] in H.
    change ("" ++ s1) with s1 in H. rewrite append_length in H. lia.
  - apply (f_equal String.length) in H.
    rewrite append_cons in H. cbn [String.length append] in H.
    change ("" ++ s2) with s2 in H. rewrite append_length in H. lia.
  - rewrite !append_cons in H. injection H as -> H.
    destruct (IH n2 H) as [-> ->]. auto.
Qed.

End AppendFacts.

Section FactoryFacts.
Import Factory.

Context {Settings : Type}.
Implicit Types st : State Settings.

(** Different (name, flag) pairs have different cache keys. *)
Lemma cache_key_inj (n1 n2 : string) (l1 l2 : bool) :
  cache_key n1 l1 = cache_key n2 l2 -> n1 = n2 /\ l1 = l2.
Proof.
  unfold cache_key, str_of_bool. intros H.
  destruct l1, l2.
  - apply append_inj_same_length in H as [-> _]; auto.
  - rewrite <- (append_assoc n2 "_" "False") in H.
    apply append_inj_same_length in H as [_ H]; [discriminate H | reflexivity].
  - rewrite <- (append_assoc n1 "_" "False") in H.
    apply append_inj_same_length in H as [_ H]; [discriminate H | reflexivity].
  - apply append_inj_same_length in H as [-> _]; auto.
Qed.

Lemma initialize_well_formed (settings : Settings) st :
  well_formed (initialize settings st).
Proof. intros key server H. cbn in H. rewrite lookup_empty in H. discriminate H. Qed.

Lemma clear_cache_well_formed st : well_formed (clear_cache st).
Proof. intros key server H. cbn in H. rewrite lookup_empty in H. discriminate H. Qed.

(** What [get_server] does, case by case. *)
Lemma get_server_cases (server_name : string) (latency : bool) st :
  (_settings st = None
   /\ get_server server_name latency st
      = (Raises (RuntimeError
                   "MCPServerFactory not initialized. Call initialize() first."),
         st))
  \/ (exists server,
        _settings st <> None
        /\ _instances st !! cache_key server_name latency = Some server
        /\ get_server server_name latency st = (Returns server, st))
  \/ (exists msg,
        _settings st <> None
        /\ _instances st !! cache_key server_name latency = None
        /\ dict_get server_name server_map = None
        /\ msg = "Unknown server name: " ++ server_name ++ ". "
                 ++ "Available: " ++ join ", " (dict_keys server_map)
        /\ get_server server_name latency st = (Raises (ValueError msg), st))
  \/ (exists class,
        _settings st <> None
        /\ _instances st !! cache_key server_name latency = None
        /\ dict_get server_name server_map = Some class
        /\ get_server server_name latency st
           = (Returns (mkInstance (constructed st) class latency),
              mkState Settings (_settings st)
                      (<[cache_key server_name latency
                         := mkInstance (constructed st) class latency]>
                         (_instances st))
                      (S (constructed st)))).
Proof.
  unfold get_server, _create_server.
  destruct (_settings st) as [settings|] eqn:Hs; [|left; auto].
  right.
  destruct (_instances st !! cache_key server_name latency) as [server|] eqn:Hc.
  - left. exists server. repeat split; congruence.
  - right. destruct (dict_get server_name server_map) as [class|] eqn:Hk.
    + right. exists class. cbn. repeat split; congruence.
    + left. eexists. repeat split; congruence.
Qed.

Lemma get_server_well_formed (server_name : string) (latency : bool) st :
  well_formed st -> well_formed (snd (get_server server_name latency st)).
Proof.
  intros Hwf.
  destruct (get_server_cases server_name latency st)
    as [[_ ->]|[(server & _ & _ & ->)|[(msg & _ & _ & _ & _ & ->)
       |(class & _ & Hnone & Hk & ->)]]]; cbn [snd]; try exact Hwf.
  intros key server Hlook. cbn in Hlook.
  destruct (decide (cache_key server_name latency = key)) as [<-|Hne].
  - rewrite lookup_insert_eq in Hlook. inversion Hlook; subst.
    exists server_name, latency, class. cbn. repeat split; auto.
  - rewrite lookup_insert_ne in Hlook by exact Hne.
    destruct (Hwf key server Hlook) as (n & l & c & H1 & H2 & H3 & H4 & H5).
    exists n, l, c. cbn. repeat split; auto.
Qed.

(** [get_server] keeps the settings and every cached object, and never
    lowers the count of constructed objects. *)
Lemma get_server_keeps (server_name : string) (latency : bool) st :
  let st' := snd (get_server server_name latency st) in
  _settings st' = _settings st
  /\ (constructed st <= constructed st')%nat
  /\ forall key server, _instances st !! key = Some server ->
                        _instances st' !! key = Some server.
Proof.
  destruct (get_server_cases server_name latency st)
    as [[_ ->]|[(server & _ & _ & ->)|[(msg & _ & _ & _ & _ & ->)
       |(class & _ & Hnone & Hk & ->)]]]; cbn; repeat split; auto.
  intros key server Hlook.
  rewrite lookup_insert_ne; [exact Hlook|].
  intros <-. congruence.
Qed.

Lemma run_gets_keeps (gets : list (string * bool)) st :
  let st' := run_ops (gets_of gets) st in
  _settings st' = _settings st
  /\ (constructed st <= constructed st')%nat
  /\ (well_formed st -> well_formed st')
  /\ forall key server, _instances st !! key = Some server ->
                        _instances st' !! key = Some server.
Proof.
  revert st. induction gets as [|[n l] gets IH]; intros st; cbv zeta.
  - cbn. repeat split; auto.
  - change (run_ops (gets_of ((n, l) :: gets)) st)
      with (run_ops (gets_of gets) (snd (get_server n l st))).
    destruct (IH (snd (get_server n l st))) as (H1 & H2 & H3 & H4).
    destruct (get_server_keeps n l st) as (K1 & K2 & K3).
    repeat split.
    + congruence.
    + lia.
    + intros Hwf. apply H3, get_server_well_formed, Hwf.
    + intros key server Hlook. apply H4, K3, Hlook.
Qed.

Lemma run_ops_well_formed (ops : list (Op Settings)) st :
  well_formed st -> _settings st <> None ->
  well_formed (run_ops ops st) /\ _settings (run_ops ops st) <> None.
Proof.
  revert st. induction ops as [|op ops IH]; intros st Hwf Hs.
  - cbn. auto.
  - change (run_ops (op :: ops) st) with (run_ops ops (step st op)).
    apply IH; destruct op as [settings|n l|]; cbn [step].
    + apply initialize_well_formed.
    + apply get_server_well_formed, Hwf.
    + apply clear_cache_well_formed.
    + discriminate.
    + destruct (get_server_keeps n l st) as (K1 & _). congruence.
    + exact Hs.
Qed.

(** C9: in any state reached after [initialize], (1) once [get_server]
    has returned an object for a name and a latency flag, every later
    [get_server] with that name and flag, after any further [get_server]
    calls, returns that same object and changes nothing (no construction);
    (2) [get_server] with a name outside the known set raises
    [ValueError] and leaves the state, cache included, as it was; (3)
    after [clear_cache], [get_server] for a name and flag served before
    constructs a new object, of the same class and flag, that is not the
    one returned before. *)
Theorem registry_one_instance_per_key (settings : Settings)
    (earlier : list (Op Settings)) (start : State Settings) :
  let st := run_ops earlier (initialize settings start) in
  (forall server_name latency server st',
      get_server server_name latency st = (Returns server, st') ->
      forall gets : list (string * bool),
        let later := run_ops (gets_of gets) st' in
        get_server server_name latency later = (Returns server, later))
  /\ (forall server_name latency,
        dict_get server_name server_map = None ->
        get_server server_name latency st
        = (Raises (ValueError
                     ("Unknown server name: " ++ server_name ++ ". "
                      ++ "Available: " ++ join ", " (dict_keys server_map))),
           st))
  /\ (forall server_name latency server st',
        get_server server_name latency st = (Returns server, st') ->
        forall gets : list (string * bool),
          let cleared := clear_cache (run_ops (gets_of gets) st') in
          exists fresh st2,
            get_server server_name latency cleared = (Returns fresh, st2)
            /\ serial fresh = constructed cleared
            /\ constructed st2 = S (constructed cleared)
            /\ (serial server < serial fresh)%nat
            /\ fresh <> server
            /\ class_of fresh = class_of server
            /\ simulate_latency fresh = simulate_latency server).
Proof.
  intros st.
  destruct (run_ops_well_formed earlier (initialize settings start)
              (initialize_well_formed settings start) ltac:(discriminate))
    as [Hwf Hset]. fold st in Hwf, Hset.
  assert (Hafter : forall server_name latency server st',
             get_server server_name latency st = (Returns server, st') ->
             well_formed st' /\ _settings st' <> None
             /\ _instances st' !! cache_key server_name latency = Some server).
  { intros n l server st' Hget.
    pose proof (get_server_well_formed n l st Hwf) as Hwf'.
    pose proof (get_server_keeps n l st) as (Hs' & _ & _).
    rewrite Hget in Hwf', Hs'. cbn [snd] in *.
    split; [exact Hwf'|]. split; [congruence|].
    destruct (get_server_cases n l st)
      as [[_ H]|[(x & _ & Hc & H)|[(msg & _ & _ & _ & _ & H)|(c & _ & _ & _ & H)]]];
      rewrite H in Hget; inversion Hget; subst; cbn; auto.
    apply lookup_insert_eq. }
  split; [|split].
  - intros n l server st' Hget gets later.
    destruct (Hafter n l server st' Hget) as (Hwf' & Hs' & Hc').
    destruct (run_gets_keeps gets st') as (Hs'' & _ & _ & Hkeep).
    fold later in Hs'', Hkeep.
    destruct (get_server_cases n l later)
      as [[Hnone _]|[(x & _ & Hc & H)|[(msg & _ & Hc & _)|(c & _ & Hc & _)]]].
    + congruence.
    + rewrite H. rewrite (Hkeep _ _ Hc') in Hc. congruence.
    + rewrite (Hkeep _ _ Hc') in Hc. discriminate Hc.
    + rewrite (Hkeep _ _ Hc') in Hc. discriminate Hc.
  - intros n l Hunknown.
    destruct (get_server_cases n l st)
      as [[Hnone _]|[(x & _ & Hc & _)|[(msg & _ & _ & _ & -> & H)|(c & _ & _ & Hk & _)]]].
    + congruence.
    + destruct (Hwf _ _ Hc) as (n' & l' & c & Hk & Hkey & _).
      apply cache_key_inj in Hkey as [-> _]. congruence.
    + exact H.
    + congruence.
  - intros n l server st' Hget gets cleared.
    destruct (Hafter n l server st' Hget) as (Hwf' & Hs' & Hc').
    destruct (run_gets_keeps gets st') as (Hs'' & Hmono & Hwfk & Hkeep).
    destruct (Hwf' _ _ Hc') as (n' & l' & c & Hk & Hkey & Hclass & Hflag & Hserial).
    apply cache_key_inj in Hkey as [<- <-].
    destruct (get_server_cases n l cleared)
      as [[Hnone _]|[(x & _ & Hc & _)|[(msg & _ & _ & Hk' & _)|(c' & _ & _ & Hk' & H)]]].
    + subst cleared. cbn in Hnone. congruence.
    + subst cleared. cbn in Hc. rewrite lookup_empty in Hc. discriminate Hc.
    + congruence.
    + eexists _, _. split; [exact H|].
      assert (Hlt : (serial server < constructed cleared)%nat).
      { subst cleared. cbn. lia. }
      cbn [serial class_of simulate_latency constructed].
      repeat split; try congruence; try lia.
      intros Heq. rewrite <- Heq in Hlt. cbn in Hlt. lia.
Qed.

End FactoryFacts.

(** After initialisation, two requests for the CRM server without latency
    are answered with one object; after a clear the next request
    constructs another. *)
Lemma registry_one_instance_per_key_witness :
  let st := Factory.initialize tt Factory.initial in
  let first := Factory.get_server "mock_crm" false st in
  fst first = Returns (Factory.mkInstance 0 Factory.MockCRMServer false)
  /\ (let later := Factory.run_ops
                     (Factory.gets_of [("mock_catalog", false); ("mock_crm", true)])
                     (snd first) in
      Factory.get_server "mock_crm" false later
      = (Returns (Factory.mkInstance 0 Factory.MockCRMServer false), later))
  /\ (exists msg,
        Factory.get_server "mock_billing" false st
        = (Raises (ValueError msg), st))
  /\ (exists fresh st2,
        Factory.get_server "mock_crm" false (Factory.clear_cache (snd first))
        = (Returns fresh, st2)
        /\ (0 < Factory.serial fresh)%nat).
Proof.
  cbv zeta.
  destruct (registry_one_instance_per_key tt [] (Factory.initial (Settings := unit)))
    as (Hsame & Hunknown & Hclear).
  split; [reflexivity|]. split; [|split].
  - apply (Hsame "mock_crm" false _ _ eq_refl
             [("mock_catalog", false); ("mock_crm", true)]).
  - eexists. apply Hunknown. reflexivity.
  - destruct (Hclear "mock_crm" false _ _ eq_refl [])
      as (fresh & st2 & Hget & _ & _ & Hlt & _).
    exists fresh, st2. split; [exact Hget | exact Hlt].
Defined.

(** ** The orchestrator, call by call *)

Section Execution.
Import Conversation Orchestrator.

Variable env : Env.

Lemma exec_update cid c f w (Q : Conversation -> State -> Prop) :
  Q (f c) (mkState (<[cid := f c]> (conversations w)) (metrics w) (uuid_draws w)
                   (utc_reads w) (time_reads w) (swarm_calls w)) ->
  post (update cid c f) w Q.
Proof. auto. Qed.

Lemma exec_with_conversations f w (Q : unit -> State -> Prop) :
  Q tt (mkState (f (conversations w)) (metrics w) (uuid_draws w)
                (utc_reads w) (time_reads w) (swarm_calls w)) ->
  post (with_conversations f) w Q.
Proof. auto. Qed.

Lemma exec_with_metrics f w (Q : unit -> State -> Prop) :
  Q tt (mkState (conversations w) (f (metrics w)) (uuid_draws w)
                (utc_reads w) (time_reads w) (swarm_calls w)) ->
  post (with_metrics f) w Q.
Proof. auto. Qed.

Lemma exec_draw_uuid w (Q : string -> State -> Prop) :
  Q (uuid4 env (uuid_draws w))
    (mkState (conversations w) (metrics w) (S (uuid_draws w))
             (utc_reads w) (time_reads w) (swarm_calls w)) ->
  post (draw_uuid env) w Q.
Proof. auto. Qed.

Lemma exec_read_utcnow w (Q : Z -> State -> Prop) :
  Q (utcnow env (utc_reads w))
    (mkState (conversations w) (metrics w) (uuid_draws w)
             (S (utc_reads w)) (time_reads w) (swarm_calls w)) ->
  post (read_utcnow env) w Q.
Proof. auto. Qed.

Lemma exec_read_time w (Q : Q -> State -> Prop) :
  Q (time_time env (time_reads w))
    (mkState (conversations w) (metrics w) (uuid_draws w)
             (utc_reads w) (S (time_reads w)) (swarm_calls w)) ->
  post (read_time env) w Q.
Proof. auto. Qed.

Lemma exec_call_swarm message w (Q : SwarmOutcome -> State -> Prop) :
  Q (swarm_process env (swarm_calls w) message)
    (mkState (conversations w) (metrics w) (uuid_draws w)
             (utc_reads w) (time_reads w) (S (swarm_calls w))) ->
  post (call_swarm env message) w Q.
Proof. auto. Qed.

Lemma exec_add_message cid c r text aid md w (Q : Conversation -> State -> Prop) :
  Q (add_message (utcnow env (utc_reads w)) (utcnow env (S (utc_reads w)))
                 r text aid md c)
    (mkState (<[cid := add_message (utcnow env (utc_reads w))
                                   (utcnow env (S (utc_reads w)))
                                   r text aid md c]> (conversations w))
             (metrics w) (uuid_draws w) (S (S (utc_reads w))) (time_reads w)
             (swarm_calls w)) ->
  post (do_add_message env cid c r text aid md) w Q.
Proof. auto. Qed.

Lemma post_eq {A} (m : M A) w (Q : A -> State -> Prop) a w' :
  m w = (a, w') -> Q a w' -> post m w Q.
Proof. unfold post. intros ->. auto. Qed.

Lemma metadata_set_item_eq k v c :
  metadata (set_metadata_item k v c) !! k = Some v.
Proof. apply lookup_insert_eq. Qed.

Lemma metadata_add_message t_msg t_upd r text aid md c :
  metadata (add_message t_msg t_upd r text aid md c) = metadata c.
Proof. reflexivity. Qed.

Lemma stage_mapping_not_completed a :
  stage_eqb (default FAQ (stage_mapping a)) COMPLETED = false.
Proof.
  unfold stage_mapping.
  repeat match goal with
         | |- context [String.eqb ?x ?y] => destruct (String.eqb x y)
         end; reflexivity.
Qed.

(** The transition bookkeeping when [stage_times] is a dictionary. *)
Lemma exec_track cid c old new t d w (Q : outcome Conversation -> State -> Prop) :
  metadata c !! "stage_times" = Some (MTimes d) ->
  Q (Returns (set_metadata_item "stage_times"
                (MTimes (<[stage_value new := t]> d)) c))
    (mkState (<[cid := set_metadata_item "stage_times"
                         (MTimes (<[stage_value new := t]> d)) c]>
                (conversations w))
             (count_stage_entry (stage_value new)
                (count_conversion (stage_value new)
                   (match d !! stage_value old with
                    | Some entered =>
                        record_time (stage_value old) (t - entered)%Q
                    | None => fun m => m
                    end
                      (count_transition
                         (stage_value old ++ "->" ++ stage_value new)
                         (metrics w)))))
             (uuid_draws w) (utc_reads w) (time_reads w) (swarm_calls w)) ->
  post (_track_stage_transition cid c old new t) w Q.
Proof.
  intros Hd HQ. unfold _track_stage_transition.
  rewrite Hd. unfold post, bind, with_metrics, ret, update. cbn.
  rewrite Hd. destruct (d !! stage_value old); cbn; exact HQ.
Qed.

Ltac proj :=
  cbn [conversations metrics uuid_draws utc_reads time_reads swarm_calls].

Ltac exec :=
  cbv beta iota;
  lazymatch goal with
  | |- post (bind _ _) _ _ => apply post_bind
  | |- post (ret _) _ _ => apply post_ret
  | |- post (with_metrics _) _ _ => apply exec_with_metrics; proj
  | |- post (with_conversations _) _ _ => apply exec_with_conversations; proj
  | |- post (draw_uuid _) _ _ => apply exec_draw_uuid; proj
  | |- post (read_utcnow _) _ _ => apply exec_read_utcnow; proj
  | |- post (read_time _) _ _ => apply exec_read_time; proj
  | |- post (call_swarm _ _) _ _ => apply exec_call_swarm; proj
  | |- post (update _ _ _) _ _ => apply exec_update; proj
  | |- post (do_add_message _ _ _ _ _ _ _) _ _ => apply exec_add_message; proj
  | |- post (get_conversation _) _ _ => apply post_get_conversation; proj
  end.

(** Every branch is followed; a lookup in metadata just written and the
    test for the [completed] stage are resolved first. *)
Ltac branch :=
  lazymatch goal with
  | |- post (_track_stage_transition _ _ _ _ _) _ _ =>
      unfold _track_stage_transition
  | |- post (match metadata _ !! _ with _ => _ end) _ _ =>
      first [ rewrite ?metadata_add_message, metadata_set_item_eq;
              cbv beta iota
            | match goal with
              | |- post (match ?x with _ => _ end) _ _ => destruct x eqn:?
              end ]
  | |- post (if stage_eqb _ COMPLETED then _ else _) _ _ =>
      first [ rewrite stage_mapping_not_completed
            | match goal with
              | |- post (if ?b then _ else _) _ _ => destruct b eqn:?
              end ]
  | |- post (if ?b then _ else _) _ _ => destruct b eqn:?
  | |- post (match ?x with _ => _ end) _ _ => destruct x eqn:?
  end.

Ltac run_all := repeat (first [exec | branch]).

Ltac conversation_fields :=
  lazy [id lead_id created_at current_stage active_agent messages metadata
        set_metadata_item set_metadata set_active_agent set_current_stage
        add_message from_option Datatypes.id].

(** What [create_conversation] returns and stores. *)
Lemma create_conversation_run lead initial_message w :
  let t := utc_reads w in
  let cid := uuid4 env (uuid_draws w) in
  let c :=
    mkConversation cid lead
      (if opt_truthy initial_message then
         [mkMessage USER (default "" initial_message) (utcnow env (S (S t)))
                    None NoMetadata]
       else [])
      FAQ None
      (<["stage_times" :=
           MTimes {[stage_value FAQ := time_time env (S (time_reads w))]}]>
         (<["started_at" := MFloat (time_time env (time_reads w))]> ∅))
      (utcnow env t)
      (utcnow env (if opt_truthy initial_message then S (S (S t)) else S t)) in
  create_conversation env lead initial_message w
  = ((cid, c),
     mkState (<[cid := c]> (conversations w)) (count_start (metrics w))
             (S (uuid_draws w))
             (if opt_truthy initial_message then S (S (S (S t))) else S (S t))
             (S (S (time_reads w))) (swarm_calls w)).
Proof.
  unfold create_conversation.
  destruct (opt_truthy initial_message);
    cbv [bind ret draw_uuid read_utcnow read_time with_conversations
         with_metrics update fst snd];
    cbn [conversations metrics uuid_draws utc_reads time_reads swarm_calls
         metadata add_message];
    rewrite lookup_empty; cbv beta iota;
    cbn [conversations metrics uuid_draws utc_reads time_reads swarm_calls];
    rewrite !insert_insert_eq; reflexivity.
Qed.

(** What the bookkeeping after the pipeline's answer keeps. *)
Lemma track_turn_frame cid c old t result w :
  conversations w !! cid = Some c ->
  post (track_turn env cid c old t result) w
    (fun _ w' =>
       (exists c',
          conversations w' = <[cid := c']> (conversations w)
          /\ id c' = id c /\ lead_id c' = lead_id c
          /\ created_at c' = created_at c
          /\ messages c'
             = (messages c ++ answer_messages env result (utc_reads w))%list)
       /\ completed_conversations (metrics w')
          = completed_conversations (metrics w)
       /\ conversations_total (metrics w') = conversations_total (metrics w)
       /\ uuid_draws w' = uuid_draws w).
Proof.
  intros Hc. unfold track_turn, answer_messages.
  run_all.
  all: (split; [|repeat split]).
  all: eexists;
    (split; [rewrite ?insert_insert_eq;
             first [reflexivity | symmetry; apply insert_id; exact Hc]|]).
  all: repeat split; conversation_fields;
    rewrite ?app_nil_r, <- ?app_assoc; reflexivity.
Qed.

Lemma post_inv {A} (m : M A) w a w' :
  post m w (fun r v => r = a /\ v = w') -> m w = (a, w').
Proof. unfold post. destruct (m w). cbn. intros [-> ->]. reflexivity. Qed.

(** [process_message] with an id under which a conversation is stored:
    what remains after the user's message is recorded and the pipeline
    has been called. *)
Lemma process_message_known message conversation_id c w
    (Q : ProcessResult -> State -> Prop) :
  opt_truthy conversation_id = true ->
  conversations w !! default "" conversation_id = Some c ->
  (let cid := default "" conversation_id in
   let c1 := add_message (utcnow env (utc_reads w))
                         (utcnow env (S (utc_reads w))) USER message None None c in
   let w1 := mkState (<[cid := c1]> (conversations w)) (metrics w) (uuid_draws w)
                     (S (S (utc_reads w))) (S (time_reads w))
                     (S (swarm_calls w)) in
   match swarm_process env (swarm_calls w) message with
   | SwarmReturns result =>
       post (track_turn env cid c1 (current_stage c)
                        (time_time env (time_reads w)) result) w1 Q
   | SwarmRaises error_type =>
       Q (ErrorResult "Erro ao processar mensagem" (id c) (Some error_type)) w1
   end) ->
  post (process_message env message conversation_id) w Q.
Proof.
  intros Hid Hc H. unfold process_message. rewrite Hid.
  repeat exec. rewrite Hc. repeat exec.
  cbv zeta in H.
  destruct (swarm_process env (swarm_calls w) message); [exact H|].
  apply post_ret. exact H.
Qed.

(** [process_message] without an id: the same after [create_conversation]. *)
Lemma process_message_new message conversation_id w
    (Q : ProcessResult -> State -> Prop) :
  opt_truthy conversation_id = false ->
  (let created := create_conversation env None (Some message) w in
   let cid := fst (fst created) in
   let c := snd (fst created) in
   let w0 := snd created in
   let c1 := add_message (utcnow env (utc_reads w0))
                         (utcnow env (S (utc_reads w0))) USER message None None c in
   let w1 := mkState (<[cid := c1]> (conversations w0)) (metrics w0)
                     (uuid_draws w0) (S (S (utc_reads w0))) (S (time_reads w0))
                     (S (swarm_calls w0)) in
   match swarm_process env (swarm_calls w0) message with
   | SwarmReturns result =>
       post (track_turn env cid c1 (current_stage c)
                        (time_time env (time_reads w0)) result) w1 Q
   | SwarmRaises error_type =>
       Q (ErrorResult "Erro ao processar mensagem" (id c) (Some error_type)) w1
   end) ->
  post (process_message env message conversation_id) w Q.
Proof.
  intros Hid H. unfold process_message. rewrite Hid.
  apply post_bind, post_bind. unfold post at 1.
  destruct (create_conversation env None (Some message) w) as [[cid c] w0].
  cbn [fst snd] in *.
  repeat exec. cbv zeta in H.
  destruct (swarm_process env (swarm_calls w0) message); [exact H|].
  apply post_ret. exact H.
Qed.

Lemma history_known (message cid : string) (c : Conversation) (w : State) :
  cid <> "" ->
  conversations w !! cid = Some c ->
  post (process_message env message (Some cid)) w
    (fun _ w' => exists c',
       conversations w' = <[cid := c']> (conversations w)
       /\ id c' = id c /\ lead_id c' = lead_id c /\ created_at c' = created_at c
       /\ messages c'
          = (messages c
             ++ turn_messages env message
                  (swarm_process env (swarm_calls w) message) (utc_reads w))%list).
Proof.
  intros Hne Hc.
  apply (process_message_known _ _ c);
    [apply (str_truthy_nonempty cid Hne) | exact Hc |].
  change (default "" (Some cid)) with cid. cbv zeta. unfold turn_messages.
  destruct (swarm_process env (swarm_calls w) message) as [result|e].
  2:{ eexists. split; [reflexivity|]. repeat split. }
  eapply post_conseq; [apply track_turn_frame, lookup_insert_eq|].
  cbn [conversations utc_reads]. intros _ w' [(c' & Hw' & Hi & Hl & Hcr & Hm) _].
  exists c'. rewrite Hw', insert_insert_eq. split; [reflexivity|].
  rewrite Hi, Hl, Hcr, Hm. repeat split.
  conversation_fields. rewrite <- app_assoc. reflexivity.
Qed.

Lemma history_new (message : string) (w : State) :
  message <> "" ->
  post (process_message env message None) w
    (fun _ w' => exists c',
       conversations w'
       = <[uuid4 env (uuid_draws w) := c']> (conversations w)
       /\ id c' = uuid4 env (uuid_draws w)
       /\ messages c'
          = mkMessage USER message (utcnow env (S (S (utc_reads w)))) None
                      NoMetadata
            :: turn_messages env message
                 (swarm_process env (swarm_calls w) message)
                 (S (S (S (S (utc_reads w)))))
       /\ conversations_total (metrics w')
          = conversations_total (metrics w) + 1).
Proof.
  intros Hne. apply process_message_new; [reflexivity|].
  rewrite create_conversation_run. cbn [opt_truthy].
  rewrite (str_truthy_nonempty message Hne).
  change (default "" (Some message)) with message.
  cbv zeta. cbn [fst snd conversations metrics uuid_draws utc_reads time_reads
                 swarm_calls].
  unfold turn_messages.
  destruct (swarm_process env (swarm_calls w) message) as [result|e].
  2:{ eexists. rewrite insert_insert_eq. split; [reflexivity|]. repeat split. }
  eapply post_conseq; [apply track_turn_frame, lookup_insert_eq|].
  cbn [conversations metrics utc_reads].
  intros _ w' [(c' & Hw' & Hi & Hl & Hcr & Hm) (_ & Ht & _)].
  exists c'. rewrite Hw', !insert_insert_eq. split; [reflexivity|].
  rewrite Hi, Hm, Ht. repeat split.
Qed.

(** What one call of [process_message] does to the counters and to the
    set of stored conversations. *)
Lemma process_message_counts message conversation_id w :
  post (process_message env message conversation_id) w
    (fun _ w' =>
       completed_conversations (metrics w')
       = completed_conversations (metrics w)
       /\ conversations_total (metrics w')
          = conversations_total (metrics w)
            + (if opt_truthy conversation_id then 0 else 1)
       /\ (conversations w' = conversations w
           \/ exists k c',
                conversations w' = <[k := c']> (conversations w)
                /\ (opt_truthy conversation_id = true ->
                    is_Some (conversations w !! k)))).
Proof.
  destruct (opt_truthy conversation_id) eqn:Hid.
  - destruct (conversations w !! default "" conversation_id) as [c|] eqn:Hc.
    + apply (process_message_known _ _ c); [assumption..|]. cbv zeta.
      destruct (swarm_process env (swarm_calls w) message) as [result|e].
      2:{ split; [reflexivity|]. split; [cbn; lia|]. right. eexists _, _.
          split; [reflexivity|]. intros _. rewrite Hc. eauto. }
      eapply post_conseq; [apply track_turn_frame, lookup_insert_eq|].
      cbn [conversations metrics].
      intros _ w' [(c' & Hw' & _) (Hcompleted & Htotal & _)].
      split; [exact Hcompleted|]. split; [lia|]. right. eexists _, c'.
      rewrite Hw', insert_insert_eq. split; [reflexivity|].
      intros _. rewrite Hc. eauto.
    + unfold process_message. rewrite Hid. repeat exec. rewrite Hc.
      repeat exec. split; [reflexivity|]. split; [lia|]. left. reflexivity.
  - apply process_message_new; [assumption|].
    rewrite create_conversation_run. cbv zeta.
    cbn [fst snd conversations metrics uuid_draws utc_reads time_reads
         swarm_calls].
    destruct (swarm_process env (swarm_calls w) message) as [result|e].
    2:{ split; [reflexivity|]. split; [reflexivity|]. right. eexists _, _.
        rewrite insert_insert_eq. split; [reflexivity|]. discriminate. }
    eapply post_conseq; [apply track_turn_frame, lookup_insert_eq|].
    cbn [conversations metrics].
    intros _ w' [(c' & Hw' & _) (Hcompleted & Htotal & _)].
    split; [exact Hcompleted|]. split; [exact Htotal|]. right. eexists _, c'.
    rewrite Hw', !insert_insert_eq. split; [reflexivity|]. discriminate.
Qed.

Lemma run_snoc ops op : run env (ops ++ [op]) = step env (run env ops) op.
Proof. unfold run. rewrite fold_left_app. reflexivity. Qed.

Lemma creations_snoc ops op :
  creations (ops ++ [op]) = (creations ops + (if creates op then 1 else 0))%nat.
Proof.
  unfold creations. rewrite List.filter_app, length_app. cbn [List.filter].
  destruct (creates op); reflexivity.
Qed.

(** What one call does to the counters and to the set of stored
    conversations. *)
Lemma step_counts w op :
  completed_conversations (metrics (step env w op))
  = completed_conversations (metrics w)
  /\ conversations_total (metrics (step env w op))
     = conversations_total (metrics w) + (if creates op then 1 else 0)
  /\ (conversations (step env w op) = conversations w
      \/ exists k c',
           conversations (step env w op) = <[k := c']> (conversations w)
           /\ (creates op = false -> is_Some (conversations w !! k))).
Proof.
  destruct op as [lead initial_message|message conversation_id]; cbn [step creates].
  - rewrite create_conversation_run. cbn [snd conversations metrics].
    split; [reflexivity|]. split; [reflexivity|]. right. eexists _, _.
    split; [reflexivity|]. discriminate.
  - pose proof (process_message_counts message conversation_id w) as H.
    unfold post in H. destruct H as (Hcompleted & Htotal & Hstore).
    split; [exact Hcompleted|]. split.
    { rewrite Htotal. destruct (opt_truthy conversation_id); reflexivity. }
    destruct Hstore as [Hsame|(k & c' & Hins & Hknown)]; [left; exact Hsame|].
    right. exists k, c'. split; [exact Hins|].
    intros Hcreates. apply Hknown.
    destruct (opt_truthy conversation_id); [reflexivity|discriminate].
Qed.

Lemma run_completed ops : completed_conversations (metrics (run env ops)) = 0.
Proof.
  induction ops as [|op ops IH] using rev_ind; [reflexivity|].
  rewrite run_snoc. rewrite (proj1 (step_counts _ _)). exact IH.
Qed.

Lemma run_total ops :
  conversations_total (metrics (run env ops)) = Z.of_nat (creations ops).
Proof.
  induction ops as [|op ops IH] using rev_ind; [reflexivity|].
  rewrite run_snoc, creations_snoc.
  rewrite (proj1 (proj2 (step_counts _ _))), IH.
  destruct (creates op); lia.
Qed.

Lemma run_size ops :
  (size (conversations (run env ops)) <= creations ops)%nat.
Proof.
  induction ops as [|op ops IH] using rev_ind.
  { change (conversations (run env [])) with (∅ : gmap string Conversation).
    rewrite map_size_empty. apply Nat.le_0_l. }
  rewrite run_snoc, creations_snoc.
  destruct (step_counts (run env ops) op) as (_ & _ & [->|(k & c' & -> & Hk)]);
    [destruct (creates op); lia|].
  rewrite map_size_insert.
  destruct (conversations (run env ops) !! k) as [c|] eqn:Hlook; cbn; [lia|].
  destruct (creates op); [lia|].
  destruct (Hk eq_refl) as [c Hc]. congruence.
Qed.

Lemma step_keeps w op k :
  is_Some (conversations w !! k) -> is_Some (conversations (step env w op) !! k).
Proof.
  intros Hk.
  destruct (step_counts w op) as (_ & _ & [->|(k' & c' & -> & _)]); [exact Hk|].
  destruct (decide (k' = k)) as [->|Hne].
  - rewrite lookup_insert_eq. eauto.
  - rewrite lookup_insert_ne by exact Hne. exact Hk.
Qed.

(** X1. [create_conversation] stores, under the id it draws, a conversation
    in stage [faq] without handler, holding the initial message only when
    that message is a non-empty string; its metadata records when [faq] was
    entered, and the conversation is counted once, in the total and under
    [faq]. *)
Theorem create_conversation_starts_in_faq (lead initial_message : option string)
    (w : State) :
  let created := create_conversation env lead initial_message w in
  let cid := fst (fst created) in
  let c := snd (fst created) in
  let w' := snd created in
  cid = uuid4 env (uuid_draws w)
  /\ conversations w' = <[cid := c]> (conversations w)
  /\ id c = cid /\ lead_id c = lead
  /\ current_stage c = FAQ /\ active_agent c = None
  /\ messages c
     = (if opt_truthy initial_message then
          [mkMessage USER (default "" initial_message)
                     (utcnow env (S (S (utc_reads w)))) None NoMetadata]
        else [])
  /\ metadata c !! "stage_times"
     = Some (MTimes {[stage_value FAQ := time_time env (S (time_reads w))]})
  /\ metadata c !! "started_at"
     = Some (MFloat (time_time env (time_reads w)))
  /\ conversations_total (metrics w') = conversations_total (metrics w) + 1
  /\ conversations_by_stage (metrics w')
     = incr (stage_value FAQ) (conversations_by_stage (metrics w))
  /\ closed_sales (metrics w') = closed_sales (metrics w).
Proof.
  cbv zeta. rewrite create_conversation_run. cbn [fst snd].
  repeat split.
Qed.

(** X2. A message sent to a stored conversation only appends to its
    history: the user's message and, when the pipeline returned a non-empty
    response, the agent's answer.  This holds on every path, a failing
    pipeline call and a failing bookkeeping included; the id, the lead and
    the creation time stay, and no other conversation is touched. *)
Theorem history_is_append_only (message cid : string) (c : Conversation)
    (w : State) :
  cid <> "" ->
  conversations w !! cid = Some c ->
  let w' := snd (process_message env message (Some cid) w) in
  exists c',
    conversations w' = <[cid := c']> (conversations w)
    /\ id c' = id c /\ lead_id c' = lead_id c /\ created_at c' = created_at c
    /\ messages c'
       = (messages c
          ++ turn_messages env message
               (swarm_process env (swarm_calls w) message) (utc_reads w))%list.
Proof.
  intros Hne Hc. exact (history_known message cid c w Hne Hc).
Qed.

(** X3. A non-empty message sent without conversation id is recorded
    twice: once by [create_conversation], as the initial message, and once
    by [process_message] itself.  The new conversation is stored under the
    id drawn and counted once. *)
Theorem first_message_is_stored_twice (message : string) (w : State) :
  message <> "" ->
  let w' := snd (process_message env message None w) in
  let cid := uuid4 env (uuid_draws w) in
  exists c',
    conversations w' = <[cid := c']> (conversations w)
    /\ id c' = cid
    /\ messages c'
       = mkMessage USER message (utcnow env (S (S (utc_reads w)))) None
                   NoMetadata
         :: turn_messages env message
              (swarm_process env (swarm_calls w) message)
              (S (S (S (S (utc_reads w)))))
    /\ conversations_total (metrics w')
       = conversations_total (metrics w) + 1.
Proof.
  intros Hne. exact (history_new message w Hne).
Qed.

(** X4. When the pipeline raises, [process_message] answers with the error
    dictionary naming the exception's type; the user's message stays in the
    history, and neither the metrics nor the conversation's stage, handler
    or metadata change. *)
Theorem pipeline_failure_changes_no_metric (message cid error_type : string)
    (c : Conversation) (w : State) :
  cid <> "" ->
  conversations w !! cid = Some c ->
  swarm_process env (swarm_calls w) message = SwarmRaises error_type ->
  process_message env message (Some cid) w
  = (ErrorResult "Erro ao processar mensagem" (id c) (Some error_type),
     mkState
       (<[cid := add_message (utcnow env (utc_reads w))
                             (utcnow env (S (utc_reads w)))
                             USER message None None c]> (conversations w))
       (metrics w) (uuid_draws w) (S (S (utc_reads w))) (S (time_reads w))
       (S (swarm_calls w))).
Proof.
  intros Hne Hc Hswarm. apply post_inv.
  apply (process_message_known _ _ c);
    [apply (str_truthy_nonempty cid Hne) | exact Hc |].
  cbv zeta. rewrite Hswarm. split; reflexivity.
Qed.

(** A turn the pipeline answers, in a conversation whose [stage_times] is a
    dictionary. *)
Lemma turn_known (message cid : string) (c : Conversation)
    (w : State) (result : SwarmResult) (d : gmap string Q) :
  let telemetry := default (mkTelemetry None None) (sr_telemetry result) in
  let agents := default [] (agents_used telemetry) in
  let last_agent := last_active_agent (default [] (sr_node_history result)) agents in
  let new := default FAQ (stage_mapping last_agent) in
  let old := current_stage c in
  let turn := process_message env message (Some cid) w in
  cid <> "" ->
  conversations w !! cid = Some c ->
  metadata c !! "stage_times" = Some (MTimes d) ->
  swarm_process env (swarm_calls w) message = SwarmReturns result ->
  exists c' turn_metadata,
    fst turn = TurnResult (id c) (default "" (sr_response result))
                          (default "swarm" (last agents)) (stage_value new)
                          turn_metadata
    /\ conversations (snd turn) !! cid = Some c'
    /\ current_stage c' = new
    /\ active_agent c' = Some last_agent
    /\ metadata c' !! "stage_times"
       = Some (MTimes (if stage_eqb old new then d
                       else <[stage_value new := time_time env (time_reads w)]> d))
    /\ stage_transitions (metrics (snd turn))
       = (if stage_eqb old new then stage_transitions (metrics w)
          else incr (stage_value old ++ "->" ++ stage_value new)
                    (stage_transitions (metrics w)))
    /\ closed_sales (metrics (snd turn))
       = (if stage_eqb new CLOSING && bool_decide ("closing_agent" ∈ agents)
          then closed_sales (metrics w) + 1 else closed_sales (metrics w))
    /\ messages c'
       = (messages c
          ++ turn_messages env message (SwarmReturns result) (utc_reads w))%list.
Proof.
  intros telemetry agents last_agent new old turn Hne Hc Hd Hswarm.
  subst turn.
  change (post (process_message env message (Some cid)) w
    (fun r w' => exists c' turn_metadata,
       r = TurnResult (id c) (default "" (sr_response result))
                      (default "swarm" (last agents)) (stage_value new)
                      turn_metadata
       /\ conversations w' !! cid = Some c'
       /\ current_stage c' = new
       /\ active_agent c' = Some last_agent
       /\ metadata c' !! "stage_times"
          = Some (MTimes (if stage_eqb old new then d
                          else <[stage_value new := time_time env (time_reads w)]> d))
       /\ stage_transitions (metrics w')
          = (if stage_eqb old new then stage_transitions (metrics w)
             else incr (stage_value old ++ "->" ++ stage_value new)
                       (stage_transitions (metrics w)))
       /\ closed_sales (metrics w')
          = (if stage_eqb new CLOSING && bool_decide ("closing_agent" ∈ agents)
             then closed_sales (metrics w) + 1 else closed_sales (metrics w))
       /\ messages c'
          = (messages c
             ++ turn_messages env message (SwarmReturns result) (utc_reads w))%list)).
  apply (process_message_known _ _ c);
    [apply (str_truthy_nonempty cid Hne) | exact Hc |].
  change (default "" (Some cid)) with cid. cbv zeta. rewrite Hswarm.
  unfold track_turn, turn_messages, answer_messages.
  fold telemetry. fold agents. fold last_agent. fold new. fold old.
  clearbody new last_agent.
  destruct (str_truthy (default "" (sr_response result)));
    destruct (stage_eqb old new).
  all: repeat exec.
  all: try (eapply exec_track; [exact Hd|]; proj).
  all: repeat first [exec | branch].
  all: eexists _, _; split; [reflexivity|].
  all: split; [apply lookup_insert_eq|].
  all: cbn [andb].
  all: repeat split.
  all: try reflexivity.
  all: try (destruct (d !! stage_value old); reflexivity).
  all: conversation_fields.
  all: rewrite ?(lookup_insert_ne (M := gmap string)) by discriminate.
  all: rewrite ?lookup_insert_eq; try assumption.
  all: rewrite <- ?app_assoc; reflexivity.
Qed.


(** X5. A turn the pipeline answers, in a conversation an earlier turn has
    completed (its handler is set) and whose [stage_times] is a dictionary:
    the stage becomes the one mapped to the last handler of the trace
    ([faq] for an unknown handler), the handler becomes the active agent,
    and the answer reports that stage.  When the stage changes, the entry
    time of the new stage is the time read before the pipeline call and the
    transition [old->new] is counted once; when it does not, neither
    changes. *)
Theorem turn_follows_last_handler (message cid a : string) (c : Conversation)
    (w : State) (result : SwarmResult) (d : gmap string Q) :
  let telemetry := default (mkTelemetry None None) (sr_telemetry result) in
  let agents := default [] (agents_used telemetry) in
  let last_agent := last_active_agent (default [] (sr_node_history result)) agents in
  let new := default FAQ (stage_mapping last_agent) in
  let old := current_stage c in
  let turn := process_message env message (Some cid) w in
  cid <> "" ->
  conversations w !! cid = Some c ->
  active_agent c = Some a ->
  metadata c !! "stage_times" = Some (MTimes d) ->
  swarm_process env (swarm_calls w) message = SwarmReturns result ->
  exists c' turn_metadata,
    fst turn = TurnResult (id c) (default "" (sr_response result))
                          (default "swarm" (last agents)) (stage_value new)
                          turn_metadata
    /\ conversations (snd turn) !! cid = Some c'
    /\ current_stage c' = new
    /\ active_agent c' = Some last_agent
    /\ metadata c' !! "stage_times"
       = Some (MTimes (if stage_eqb old new then d
                       else <[stage_value new := time_time env (time_reads w)]> d))
    /\ stage_transitions (metrics (snd turn))
       = (if stage_eqb old new then stage_transitions (metrics w)
          else incr (stage_value old ++ "->" ++ stage_value new)
                    (stage_transitions (metrics w))).
Proof.
  intros telemetry agents last_agent new old turn Hne Hc _ Hd Hswarm.
  destruct (turn_known message cid c w result d Hne Hc Hd Hswarm)
    as (c' & turn_metadata & Hr & Hs & Hst & Ha & Ht & Hm & _).
  exists c', turn_metadata. repeat split; assumption.
Qed.

(** X6. [stage_mapping] has no entry for [completed], so no sequence of
    calls ever counts a completed conversation: the metrics report zero
    completed conversations and an abandonment rate of 100 as soon as one
    conversation exists (and 0 before). *)
Theorem abandonment_rate_is_total (ops : list Op) :
  let view := get_conversion_metrics (run env ops) in
  view_completed_conversations view = 0
  /\ (view_abandonment_rate view
      == if (0 <? view_total_conversations view)%Z then 100 else 0)%Q.
Proof.
  cbv zeta. unfold get_conversion_metrics.
  cbn [view_completed_conversations view_abandonment_rate
       view_total_conversations].
  rewrite run_completed. split; [reflexivity|].
  destruct (0 <? conversations_total (metrics (run env ops)))%Z eqn:Hpos;
    [|reflexivity].
  apply Z.ltb_lt in Hpos. rewrite Z.sub_0_r.
  assert (Hnz : ~ (inject_Z (conversations_total (metrics (run env ops))) == 0)%Q).
  { intros Hz. unfold Qeq in Hz. cbn in Hz. lia. }
  field. exact Hnz.
Qed.

(** X7. [conversations_total] counts exactly the calls that created a
    conversation ([create_conversation], and [process_message] without a
    usable id); the store never holds more conversations than that. *)
Theorem conversations_total_counts_creations (ops : list Op) :
  conversations_total (metrics (run env ops)) = Z.of_nat (creations ops)
  /\ (size (conversations (run env ops)) <= creations ops)%nat.
Proof. split; [apply run_total | apply run_size]. Qed.

(** X8. No call removes a conversation: an id under which a conversation
    is stored after some calls still has one after any further calls. *)
Theorem conversations_are_never_removed (ops more : list Op) (cid : string) :
  is_Some (conversations (run env ops) !! cid) ->
  is_Some (conversations (run env (ops ++ more)) !! cid).
Proof.
  intros Hk. induction more as [|op more IH] using rev_ind.
  - rewrite app_nil_r. exact Hk.
  - rewrite app_assoc, run_snoc. apply step_keeps, IH.
Qed.

End Execution.

Section ExecutionRuns.
Import Conversation Orchestrator.

Lemma history_is_append_only_witness :
  exists c',
    conversations (snd (process_message Samples.env "let's buy" (Some "conv-1")
                                        Samples.after_first))
    = <["conv-1" := c']> (conversations Samples.after_first)
    /\ length (messages c') = 5%nat.
Proof.
  destruct (history_is_append_only Samples.env "let's buy" "conv-1"
              Samples.first_conversation Samples.after_first)
    as (c' & Hstore & _ & _ & _ & Hmessages).
  - discriminate.
  - vm_compute. reflexivity.
  - exists c'. split; [exact Hstore|]. rewrite Hmessages. reflexivity.
Defined.

Lemma first_message_is_stored_twice_witness :
  exists c',
    conversations Samples.after_first = {["conv-1" := c']}
    /\ map content (messages c') = ["hello"; "hello"; "Hello"].
Proof.
  destruct (first_message_is_stored_twice Samples.env "hello" init)
    as (c' & Hstore & _ & Hmessages & _).
  - discriminate.
  - exists c'. split; [exact Hstore|]. rewrite Hmessages. reflexivity.
Defined.

Lemma pipeline_failure_changes_no_metric_witness :
  let w := snd (create_conversation Samples.env_failing None None init) in
  metrics (snd (process_message Samples.env_failing "hello" (Some "conv-1") w))
  = metrics w.
Proof.
  cbv zeta.
  rewrite (pipeline_failure_changes_no_metric Samples.env_failing "hello" "conv-1"
             "ConnectionError"
             (snd (fst (create_conversation Samples.env_failing None None init)))).
  - vm_compute. reflexivity.
  - discriminate.
  - vm_compute. reflexivity.
  - reflexivity.
Defined.

Lemma turn_follows_last_handler_witness :
  exists c',
    conversations Samples.after_second !! "conv-1" = Some c'
    /\ current_stage c' = CLOSING
    /\ active_agent c' = Some "closing_agent".
Proof.
  destruct (turn_follows_last_handler Samples.env "let's buy" "conv-1"
              "researcher" Samples.first_conversation Samples.after_first
              (Samples.result_of "closing_agent" "Deal") Samples.first_stage_times)
    as (c' & tm & _ & Hstore & Hstage & Hagent & _).
  - discriminate.
  - vm_compute. reflexivity.
  - vm_compute. reflexivity.
  - vm_compute. reflexivity.
  - reflexivity.
  - exists c'. split; [exact Hstore|]. split; [exact Hstage | exact Hagent].
Defined.

Lemma conversations_are_never_removed_witness :
  is_Some (conversations
             (run Samples.env [ProcessMessage "hello" None;
                               ProcessMessage "let's buy" (Some "conv-1")])
           !! "conv-1").
Proof.
  apply (conversations_are_never_removed Samples.env
           [ProcessMessage "hello" None]
           [ProcessMessage "let's buy" (Some "conv-1")] "conv-1").
  vm_compute. eauto.
Defined.

End ExecutionRuns.

(** ** The swarm agent's answer *)

Section SwarmAgentFacts.
Import Conversation Orchestrator SwarmAgent.

Abbreviation entry_of :=
  (fun node => mkNode (Some (node_name node)) (Some (node_status_text node))).

Lemma visit_fold nodes node_history agents_used :
  NoDup agents_used ->
  exists agents,
    fold_left visit nodes (node_history, agents_used)
    = ((node_history ++ map entry_of nodes)%list, agents)
    /\ NoDup agents
    /\ (forall a, a ∈ agents <-> a ∈ agents_used \/ a ∈ map node_name nodes).
Proof.
  revert node_history agents_used.
  induction nodes as [|node nodes IH]; intros node_history agents_used Hnd.
  - exists agents_used. cbn. rewrite app_nil_r. split; [reflexivity|].
    split; [exact Hnd|]. intros a. rewrite elem_of_nil. tauto.
  - cbn [fold_left visit map].
    destruct (bool_decide (node_name node ∈ agents_used)) eqn:Hin.
    + apply bool_decide_eq_true in Hin.
      destruct (IH (node_history ++ [entry_of node])%list agents_used Hnd)
        as (agents & Hfold & Hnd' & Hmem).
      exists agents. rewrite Hfold, <- app_assoc. split; [reflexivity|].
      split; [exact Hnd'|]. intros a. rewrite Hmem, elem_of_cons.
      split; [tauto|]. intros [H|[->|H]]; auto.
    + apply bool_decide_eq_false in Hin.
      destruct (IH (node_history ++ [entry_of node])%list
                   (agents_used ++ [node_name node])%list)
        as (agents & Hfold & Hnd' & Hmem).
      { apply NoDup_app. split; [exact Hnd|]. split.
        - intros a Ha. rewrite list_elem_of_singleton. intros ->. auto.
        - apply NoDup_singleton. }
      exists agents. rewrite Hfold, <- app_assoc. split; [reflexivity|].
      split; [exact Hnd'|]. intros a.
      rewrite Hmem, elem_of_app, list_elem_of_singleton, elem_of_cons. tauto.
Qed.

(** The answer to a run that returned. *)
Lemma process_invoked (r : SwarmRun) :
  let nodes := default [] (run_node_history r) in
  exists response agents,
    answer (process (Invoked r))
    = mkSwarmResult (Some response)
        (Some (match run_status r with
               | Some s => status_text s
               | None => "completed"
               end))
        (Some (map entry_of nodes))
        (Some (default 0 (run_execution_count r)))
        (Some (default 0%Q (run_execution_time r)))
        (Some (match run_accumulated_usage r with
               | Some u => usage_dict u
               | None => ∅
               end))
        (Some (mkTelemetry (Some agents)
                 (Some (Z.max 0 (Z.of_nat (length nodes) - 1)))))
    /\ response <> ""
    /\ agents = snd (fold_left visit nodes ([], []))
    /\ NoDup agents
    /\ (forall a, a ∈ agents <-> a ∈ map node_name nodes).
Proof.
  intros nodes. unfold process. fold nodes.
  destruct (visit_fold nodes [] [] NoDup_nil_2)
    as (agents & Hfold & Hnd & Hmem).
  rewrite Hfold. cbn [app answer snd].
  eexists _, agents. split; [|split; [|split; [reflexivity|split; [exact Hnd|]]]].
  - f_equal. f_equal. f_equal. f_equal. rewrite length_map.
    destruct (1 <? length nodes)%nat eqn:Hlen.
    + apply Nat.ltb_lt in Hlen. lia.
    + apply Nat.ltb_ge in Hlen. lia.
  - match goal with
    | |- (if str_truthy ?s then _ else _) <> _ =>
        destruct (str_truthy s) eqn:Ht
    end.
    + intros Hempty. rewrite Hempty in Ht. discriminate.
    + discriminate.
  - intros a. rewrite Hmem, elem_of_nil. tauto.
Qed.

(** The response of a run that returned: the first usable node result,
    from the last one backwards, or the apology. *)
Lemma process_response (r : SwarmRun) :
  sr_response (answer (process (Invoked r)))
  = Some (let text := first_response
                        (rev (map snd (default [] (run_results r)))) in
          if str_truthy text then text else no_response).
Proof.
  unfold process. destruct (fold_left visit _ _). cbn [answer sr_response].
  destruct (run_results r) as [[|node_result node_results]|]; reflexivity.
Qed.






(** X9. [process] always answers: whatever the swarm does, the dictionary
    holds a non-empty [response] and a [status].  For a run that returned,
    the response is the text of the last node result when that is a
    non-empty string, and the apology for an unanswered message when
    there are no node results.  When the swarm raises, the response is
    the fixed apology, the status is [failed], the [error] key holds the
    exception's text, and there is neither telemetry nor node history. *)
Theorem process_always_answers (invocation : Invocation) :
  let result := answer (process invocation) in
  exists response status,
    sr_response result = Some response
    /\ response <> ""
    /\ sr_status result = Some status
    /\ match invocation with
       | Invoked r =>
           answer_error (process invocation) = None
           /\ is_Some (sr_telemetry result) /\ is_Some (sr_node_history result)
           /\ (forall earlier name text,
                 run_results r
                 = Some (earlier
                         ++ [(name, mkNodeResult (Some (ResultStr text)))])%list ->
                 text <> "" -> response = text)
           /\ (default [] (run_results r) = [] -> response = no_response)
       | InvokeRaises e =>
           answer_error (process invocation) = Some (exn_str e)
           /\ response = failure_response /\ status = "failed"
           /\ sr_telemetry result = None /\ sr_node_history result = None
       end.
Proof.
  destruct invocation as [r|e]; cbv zeta.
  - destruct (process_invoked r) as (response & agents & Hanswer & Hne & _).
    pose proof (process_response r) as Hresponse. rewrite Hanswer in Hresponse.
    cbn [sr_response] in Hresponse. injection Hresponse as Hresponse.
    rewrite Hanswer. eexists _, _.
    split; [reflexivity|]. split; [exact Hne|]. split; [reflexivity|].
    split; [|split; [eauto|split; [eauto|split]]].
    + unfold process. destruct (fold_left visit _ _). reflexivity.
    + intros earlier name text Hresults Htext. rewrite Hresponse, Hresults.
      cbn [from_option]. unfold Datatypes.id.
      rewrite map_app, rev_app_distr. cbn [map rev app snd first_response
        nr_result result_truthy].
      rewrite (str_truthy_nonempty _ Htext). cbv zeta.
      rewrite (str_truthy_nonempty _ Htext). reflexivity.
    + intros Hnone. rewrite Hresponse, Hnone. reflexivity.
  - eexists _, _. repeat split. discriminate.
Qed.

(** X10. The telemetry of a run that returned: the node history has one
    entry per node, with its name and status; [agents_used] lists the
    names without repetition, each name of the history and no other; and
    [total_handoffs] is one less than the number of nodes, or zero for an
    empty history. *)
Theorem agents_used_are_the_distinct_handlers (r : SwarmRun) :
  let result := answer (process (Invoked r)) in
  let nodes := default [] (run_node_history r) in
  exists agents,
    sr_node_history result = Some (map entry_of nodes)
    /\ sr_telemetry result
       = Some (mkTelemetry (Some agents)
                 (Some (Z.max 0 (Z.of_nat (length nodes) - 1))))
    /\ NoDup agents
    /\ (forall a, a ∈ agents <-> a ∈ map node_name nodes)
    /\ (length agents <= length nodes)%nat.
Proof.
  cbv zeta.
  destruct (process_invoked r) as (response & agents & -> & _ & _ & Hnd & Hmem).
  exists agents. repeat split; try assumption; try apply Hmem.
  rewrite <- (length_map node_name (default [] (run_node_history r))).
  apply submseteq_length, NoDup_submseteq; [exact Hnd|].
  intros a. apply Hmem.
Qed.


End SwarmAgentFacts.

(** ** The orchestrator on top of the swarm agent *)

Section Composition.
Import Conversation Orchestrator SwarmAgent.

Variable env : Env.
Variable invoke : nat -> string -> Invocation.
Hypothesis Hpipeline : swarm_process env = pipeline invoke.



(** X13. A failure of the swarm is caught by [process] and reaches the
    orchestrator as an ordinary answer: the turn succeeds with the fixed
    apology as response, which is appended to the history as the agent's
    message, and the conversation is put back in stage [faq] with
    ["researcher"] as active agent, whatever stage it was in. *)
Theorem internal_failure_resets_stage (message cid a : string)
    (c : Conversation) (w : State) (d : gmap string Q) (e : exn) :
  let turn := process_message env message (Some cid) w in
  cid <> "" ->
  conversations w !! cid = Some c ->
  active_agent c = Some a ->
  metadata c !! "stage_times" = Some (MTimes d) ->
  invoke (swarm_calls w) message = InvokeRaises e ->
  exists c' turn_metadata,
    fst turn = TurnResult (id c) failure_response "swarm" "faq" turn_metadata
    /\ conversations (snd turn) !! cid = Some c'
    /\ current_stage c' = FAQ
    /\ active_agent c' = Some "researcher"
    /\ map content (messages c')
       = (map content (messages c) ++ [message; failure_response])%list
    /\ closed_sales (metrics (snd turn)) = closed_sales (metrics w).
Proof.
  intros turn Hne Hc _ Hd Hinvoke. subst turn.
  assert (Hswarm : swarm_process env (swarm_calls w) message
                   = SwarmReturns (answer (process (InvokeRaises e)))).
  { rewrite Hpipeline. unfold pipeline. rewrite Hinvoke. reflexivity. }
  destruct (turn_known env message cid c w _ d Hne Hc Hd Hswarm)
    as (c' & turn_metadata & Hr & Hs & Hstage & Ha & _ & _ & Hsales & Hm).
  exists c', turn_metadata. rewrite Hr, Hstage, Ha, Hsales, Hm.
  repeat split; try assumption.
  rewrite map_app. reflexivity.
Qed.

End Composition.

Section CompositionRuns.
Import Conversation Orchestrator SwarmAgent.



Lemma internal_failure_resets_stage_witness :
  exists c' turn_metadata,
    fst (process_message Samples.swarm_env "hello?" (Some "conv-1")
                         (Samples.swarm_state 2))
    = TurnResult "conv-1" failure_response "swarm" "faq" turn_metadata
    /\ current_stage (Samples.swarm_conversation 2) = CLOSING
    /\ current_stage c' = FAQ.
Proof.
  destruct (internal_failure_resets_stage Samples.swarm_env Samples.invoke
              eq_refl "hello?" "conv-1" "closing_agent"
              (Samples.swarm_conversation 2) (Samples.swarm_state 2)
              (Samples.swarm_stage_times 2)
              (RuntimeError "model unavailable"))
    as (c' & turn_metadata & Hr & _ & Hstage & _).
  - discriminate.
  - vm_compute. reflexivity.
  - vm_compute. reflexivity.
  - vm_compute. reflexivity.
  - reflexivity.
  - exists c', turn_metadata. split; [exact Hr|]. split; [|exact Hstage].
    vm_compute. reflexivity.
Defined.

End CompositionRuns.

(** ** The retry decorator, for every policy *)

Section RetryPolicies.
Import Retry.

Context {W A : Type}.
Variable func : W -> outcome A * W.
Variable max_retries : Z.
Variable delay backoff : Q.

(** [k] failing attempts followed by an attempt that ends the loop. *)
Lemma attempts_after_failures (k : nat) :
  forall (remaining : nat) (attempt : Z) (d : Q) (last_error : option exn)
         (w w1 w2 : W) (o : outcome A) (calls : nat) (slept : list Q),
    (k < remaining)%nat ->
    attempt + Z.of_nat k < max_retries ->
    failing_prefix func k w = Some w1 ->
    func w1 = (o, w2) ->
    (forall e, o = Raises e -> attempt + Z.of_nat k = max_retries - 1) ->
    attempts max_retries backoff func remaining attempt d last_error w calls
             slept
    = mkRun o w2 (calls + S k) (slept ++ backoff_delays backoff k d)%list.
Proof.
  induction k as [|k IH];
    intros remaining attempt d last_error w w1 w2 o calls slept Hrem Hatt
           Hprefix Hf Hlast;
    (destruct remaining as [|remaining]; [lia|]); rewrite attempts_S.
  - cbn in Hprefix. injection Hprefix as ->. rewrite Hf.
    rewrite app_nil_r, Nat.add_1_r.
    destruct o as [a|e]; [reflexivity|].
    destruct (Z.ltb_spec attempt (max_retries - 1)); [|reflexivity].
    specialize (Hlast e eq_refl). lia.
  - cbn [failing_prefix] in Hprefix.
    destruct (func w) as [[a|e] w'] eqn:Hw; [discriminate|].
    destruct (Z.ltb_spec attempt (max_retries - 1)); [|lia].
    rewrite (IH remaining (attempt + 1) (d * backoff)%Q (Some e) w' w1 w2 o
                (S calls) (slept ++ [d])%list); try assumption; try lia.
    + cbn [backoff_delays]. rewrite <- app_assoc. f_equal. lia.
    + intros e' He'. specialize (Hlast e' He'). lia.
Qed.

Lemma backoff_delays_length (k : nat) (d : Q) :
  length (backoff_delays backoff k d) = k.
Proof. revert d. induction k as [|k IH]; intros d; cbn; [|rewrite IH]; reflexivity. Qed.

Lemma backoff_delays_lookup (k i : nat) (d x : Q) :
  backoff_delays backoff k d !! i = Some x ->
  (x == d * backoff ^ Z.of_nat i)%Q.
Proof.
  revert i d. induction k as [|k IH]; intros i d; [discriminate|].
  destruct i as [|i]; cbn [backoff_delays lookup list_lookup].
  - intros [= <-]. change (backoff ^ Z.of_nat 0)%Q with 1%Q. ring.
  - intros Hx. rewrite (IH i _ Hx).
    rewrite Nat2Z.inj_succ, <- Z.add_1_r.
    rewrite Qpower_plus' by lia. change (backoff ^ 1)%Q with backoff. ring.
Qed.

(** The loop never runs longer than [range(max_retries)], and sleeps once
    after every invocation but the last it makes. *)
Lemma attempts_bounds :
  forall (remaining : nat) (attempt : Z) (d : Q) (last_error : option exn)
         (w : W) (calls : nat) (slept : list Q),
    remaining = 0%nat \/ attempt + Z.of_nat remaining = max_retries ->
    let run := attempts max_retries backoff func remaining attempt d last_error
                        w calls slept in
    (calls <= invocations run <= calls + remaining)%nat
    /\ sleeps run
       = (slept ++ backoff_delays backoff
                     (Nat.pred (invocations run - calls)) d)%list
    /\ (remaining <> 0%nat -> calls < invocations run)%nat.
Proof.
  induction remaining as [|remaining IH];
    intros attempt d last_error w calls slept Hrem; cbv zeta.
  - cbn. rewrite Nat.sub_diag, app_nil_r. repeat split; lia.
  - destruct Hrem as [Hrem|Hrem]; [discriminate|].
    rewrite attempts_S. destruct (func w) as [[a|e] w'].
    + cbn. replace (S calls - calls)%nat with 1%nat by lia.
      cbn. rewrite app_nil_r. repeat split; lia.
    + destruct (Z.ltb_spec attempt (max_retries - 1)).
      * specialize (IH (attempt + 1) (d * backoff)%Q (Some e) w' (S calls)
                       (slept ++ [d])%list).
        cbv zeta in IH. destruct IH as ([Hlo Hhi] & Hs & Hpos); [right; lia|].
        set (run := attempts _ _ _ _ _ _ _ _ _ _) in *.
        split; [lia|]. split; [|lia].
        rewrite Hs, <- app_assoc. f_equal.
        assert (S calls < invocations run)%nat by (apply Hpos; lia).
        replace (Nat.pred (invocations run - calls))
          with (S (Nat.pred (invocations run - S calls))) by lia.
        reflexivity.
      * cbn. replace (S calls - calls)%nat with 1%nat by lia.
        cbn. rewrite app_nil_r. repeat split; lia.
Qed.

(** X14. Under any policy, a call whose first [k] invocations raise, with
    [k < max_retries], and whose next invocation either returns or is the
    last one allowed, ends with the outcome of that invocation (its
    result, or its error re-raised) after exactly [k + 1] invocations and
    [k] sleeps of [delay], [delay * backoff], ...; there is no sleep after
    the last invocation. *)
Theorem retry_stops_at_success_or_exhaustion (k : nat) (w w1 w2 : W)
    (o : outcome A) :
  Z.of_nat k < max_retries ->
  failing_prefix func k w = Some w1 ->
  func w1 = (o, w2) ->
  (forall e, o = Raises e -> max_retries = Z.of_nat (S k)) ->
  wrapper max_retries delay backoff func w
  = mkRun o w2 (S k) (backoff_delays backoff k delay).
Proof.
  intros Hk Hprefix Hf Hlast. unfold wrapper.
  rewrite (attempts_after_failures k _ 0 delay None w w1 w2 o 0%nat []);
    [reflexivity | lia | lia | exact Hprefix | exact Hf |].
  intros e He. specialize (Hlast e He). lia.
Qed.

(** X15. Whatever the wrapped function does, a call invokes it at most
    [max_retries] times, sleeps exactly once between two consecutive
    invocations, the [i]-th sleep lasting [delay * backoff ^ i], and a
    result it returns is one the wrapped function returned in the last
    invocation.  With [max_retries <= 0] the function is not invoked at
    all, and [raise last_error], with [last_error] still [None], raises a
    [TypeError]. *)
Theorem retry_bounds (w : W) :
  let run := wrapper max_retries delay backoff func w in
  (invocations run <= Z.to_nat max_retries)%nat
  /\ length (sleeps run) = Nat.pred (invocations run)
  /\ (forall i x, sleeps run !! i = Some x ->
                  (x == delay * backoff ^ Z.of_nat i)%Q)
  /\ (forall a, result run = Returns a ->
                exists w1, func w1 = (Returns a, world run))
  /\ (max_retries <= 0 ->
      run = mkRun (Raises (TypeError "exceptions must derive from BaseException"))
                  w 0 []).
Proof.
  cbv zeta. split; [|split; [|split; [|split]]].
  5:{ intros Hmax. unfold wrapper.
      replace (Z.to_nat max_retries) with 0%nat by lia. reflexivity. }
  all: unfold wrapper.
  all: destruct (attempts_bounds (Z.to_nat max_retries) 0 delay None w 0%nat [])
         as ([_ Hhi] & Hs & _); [lia|].
  all: cbv zeta in Hs; rewrite Nat.sub_0_r in Hs; cbn [app] in Hs.
  - lia.
  - rewrite Hs at 1. apply backoff_delays_length.
  - intros i x Hx. rewrite Hs in Hx. exact (backoff_delays_lookup _ _ _ _ Hx).
  - intros a Ha.
    destruct (attempts_returns func (fun _ => True) max_retries backoff
                (fun _ _ _ _ _ => I) _ _ _ _ _ _ _ a I Ha) as (w1 & _ & Hw1).
    exists w1. exact Hw1.
Qed.

End RetryPolicies.

Section RetryPolicyRuns.
Import Retry.

(** [Samples.flaky] fails twice, then returns: under a policy of five
    attempts the call returns at the third, under a policy of two it gives
    up after the second. *)
Lemma retry_stops_at_success_or_exhaustion_witness :
  wrapper 5 1 2 Samples.flaky 0%nat = mkRun (Returns "ok") 3%nat 3 [1; 1 * 2]%Q
  /\ wrapper 2 1 2 Samples.flaky 0%nat
     = mkRun (Raises (RuntimeError "unavailable")) 2%nat 2 [1]%Q.
Proof.
  split.
  - apply (retry_stops_at_success_or_exhaustion Samples.flaky 5 1 2 2 0%nat
             2%nat 3%nat (Returns "ok")).
    + lia.
    + reflexivity.
    + reflexivity.
    + discriminate.
  - apply (retry_stops_at_success_or_exhaustion Samples.flaky 2 1 2 1 0%nat
             1%nat 2%nat (Raises (RuntimeError "unavailable"))).
    + lia.
    + reflexivity.
    + reflexivity.
    + reflexivity.
Defined.

End RetryPolicyRuns.

(** ** The CRM server, operation by operation *)

Section DictUpdates.

Context {V : Type}.

Lemma dict_get_set_eq (k : string) (v : V) (d : list (string * V)) :
  dict_get k (dict_set k v d) = Some v.
Proof.
  induction d as [|[k' v'] d IH]; cbn.
  - rewrite String.eqb_refl. reflexivity.
  - destruct (String.eqb_spec k k') as [->|Hne]; cbn.
    + rewrite String.eqb_refl. reflexivity.
    + destruct (String.eqb_spec k k'); [congruence|exact IH].
Qed.

Lemma dict_get_set_ne (k k' : string) (v : V) (d : list (string * V)) :
  k' <> k -> dict_get k' (dict_set k v d) = dict_get k' d.
Proof.
  intros Hne. induction d as [|[k0 v0] d IH]; cbn.
  - destruct (String.eqb_spec k' k); [congruence|reflexivity].
  - destruct (String.eqb_spec k k0) as [->|Hk]; cbn.
    + destruct (String.eqb_spec k' k0); [congruence|reflexivity].
    + destruct (String.eqb_spec k' k0); [reflexivity|exact IH].
Qed.

Lemma dict_keys_set_known (k : string) (v v0 : V) (d : list (string * V)) :
  dict_get k d = Some v0 -> dict_keys (dict_set k v d) = dict_keys d.
Proof.
  unfold dict_keys. induction d as [|[k' v'] d IH]; cbn; [discriminate|].
  destruct (String.eqb_spec k k') as [->|Hne]; cbn; [reflexivity|].
  intros H. rewrite (IH H). reflexivity.
Qed.

End DictUpdates.

Section MockCRMOperations.
Import MockCRM.

Variable env : Env.

Lemma status_of_value_value (v : string) (st : LeadStatus) :
  status_of_value v = Some st -> status_value st = v.
Proof.
  unfold status_of_value. intros H. apply List.find_some in H as [_ H].
  apply String.eqb_eq. exact H.
Qed.

(** What a successful update stores. *)
Lemma update_lead_status_run (lead_id status : string)
    (new_notes : option string) (lead : Lead) (st : LeadStatus) (s : Server) :
  lead_id <> "" -> status <> "" ->
  dict_get lead_id (_leads s) = Some lead ->
  status_of_value status = Some st ->
  let now := utcnow env (utc_reads s) in
  let lead' :=
    mkLead (id lead) (email lead) (name lead) (company lead) (phone lead) st
           (priority lead) (source lead)
           (if opt_truthy new_notes then
              (if opt_truthy (notes lead) then
                 Some (default "" (notes lead) ++ newline ++ default "" new_notes)
               else new_notes)
            else notes lead)
           (created_at lead) now in
  _update_lead_status env (Some lead_id) (Some status) new_notes s
  = ([("success", PBool true); ("lead_id", PStr lead_id);
      ("new_status", PStr status); ("updated_at", PStr (isoformat env now))],
     mkServer (simulate_latency s) (latency_ms s)
              (dict_set lead_id lead' (_leads s)) (_sales_history s)
              (slept s) (S (utc_reads s))).
Proof.
  intros Hid Hstatus Hlead Hst. cbv zeta. unfold _update_lead_status.
  cbn [opt_truthy]. rewrite (str_truthy_nonempty _ Hid),
    (str_truthy_nonempty _ Hstatus). cbn [negb].
  change (default "" (Some lead_id)) with lead_id.
  change (default "" (Some status)) with status.
  rewrite Hlead, Hst. reflexivity.
Qed.

(** X16. A status update that succeeds is what the next lookup of that
    lead reports: the new status and the update time, with id, e-mail and
    creation time as before.  No other lead changes, no lead is added or
    removed, and the sales history is untouched. *)
Theorem update_is_visible_to_lookup (lead_id status : string)
    (new_notes : option string) (lead : Lead) (st : LeadStatus) (s : Server) :
  lead_id <> "" -> status <> "" ->
  dict_get lead_id (_leads s) = Some lead ->
  status_of_value status = Some st ->
  let updated := _update_lead_status env (Some lead_id) (Some status)
                                     new_notes s in
  let s' := snd updated in
  exists lead',
    dict_get "success" (fst updated) = Some (PBool true)
    /\ _get_lead_info (Some lead_id) None s'
       = [("success", PBool true); ("lead", model_dump lead')]
    /\ status_value (MockCRM.status lead') = status
    /\ updated_at lead' = utcnow env (utc_reads s)
    /\ id lead' = id lead /\ email lead' = email lead
    /\ created_at lead' = created_at lead
    /\ (forall other, other <> lead_id ->
          dict_get other (_leads s') = dict_get other (_leads s))
    /\ dict_keys (_leads s') = dict_keys (_leads s)
    /\ _sales_history s' = _sales_history s.
Proof.
  intros Hid Hstatus Hlead Hst. cbv zeta.
  rewrite (update_lead_status_run lead_id status new_notes lead st s
             Hid Hstatus Hlead Hst).
  cbn [fst snd _leads _sales_history]. eexists.
  split; [reflexivity|]. split.
  { unfold _get_lead_info. cbn [opt_truthy].
    rewrite (str_truthy_nonempty _ Hid). cbn [negb andb _leads].
    change (default "" (Some lead_id)) with lead_id.
    rewrite dict_get_set_eq. reflexivity. }
  cbn [MockCRM.status updated_at id email created_at].
  split; [exact (status_of_value_value _ _ Hst)|].
  repeat split.
  - intros other Hne. apply dict_get_set_ne. exact Hne.
  - exact (dict_keys_set_known _ _ _ _ Hlead).
Qed.

(** X17. An update that does not answer [success: True] leaves the server
    exactly as it was; and no update, successful or not, adds or removes a
    lead or touches the sales history. *)
Theorem failed_update_changes_nothing (lead_id status new_notes : option string)
    (s : Server) :
  let updated := _update_lead_status env lead_id status new_notes s in
  (dict_get "success" (fst updated) = Some (PBool true) \/ snd updated = s)
  /\ dict_keys (_leads (snd updated)) = dict_keys (_leads s)
  /\ _sales_history (snd updated) = _sales_history s.
Proof.
  cbv zeta. unfold _update_lead_status.
  destruct (negb (opt_truthy lead_id)); [cbn; auto|].
  destruct (negb (opt_truthy status)); [cbn; auto|].
  destruct (dict_get (default "" lead_id) (_leads s)) as [lead|] eqn:Hlead;
    [|cbn; auto].
  destruct (status_of_value (default "" status)); [|cbn; auto].
  cbn [fst snd _leads _sales_history]. split; [left; reflexivity|].
  split; [|reflexivity].
  exact (dict_keys_set_known _ _ _ _ Hlead).
Qed.

Lemma slice_to_length {A} (limit : Z) (l : list A) :
  Z.of_nat (length (slice_to limit l))
  = if (0 <=? limit)%Z then Z.min limit (Z.of_nat (length l))
    else Z.max 0 (Z.of_nat (length l) + limit).
Proof.
  unfold slice_to. destruct (Z.leb_spec 0 limit); rewrite length_firstn; lia.
Qed.

Lemma slice_to_prefix {A} (limit : Z) (l : list A) :
  slice_to limit l `prefix_of` l.
Proof. unfold slice_to. destruct (0 <=? limit)%Z; apply prefix_take. Qed.

(** X18. [get_sales_history] answers with an initial segment of the sales
    (of the given lead, when one is given), and [count] is its length: at
    most [limit] sales for a limit that is not negative.  A negative limit
    is not rejected: it drops that many sales from the end. *)
Theorem sales_history_respects_limit (lead_id : option string) (limit : Z)
    (s : Server) :
  let matching :=
    if opt_truthy lead_id then
      List.filter (fun sale => match dict_get "lead_id" sale with
                               | Some (PStr l) => bool_decide (Some l = lead_id)
                               | _ => false
                               end) (_sales_history s)
    else _sales_history s in
  exists sales,
    _get_sales_history lead_id limit s
    = [("success", PBool true); ("count", PInt (Z.of_nat (length sales)));
       ("sales", PList (map PDict sales))]
    /\ sales `prefix_of` matching
    /\ Z.of_nat (length sales)
       = (if (0 <=? limit)%Z then Z.min limit (Z.of_nat (length matching))
          else Z.max 0 (Z.of_nat (length matching) + limit))
    /\ (opt_truthy lead_id = true ->
        Forall (fun sale => option_map PStr lead_id = dict_get "lead_id" sale)
               sales).
Proof.
  cbv zeta. unfold _get_sales_history.
  set (matching := if opt_truthy lead_id then _ else _).
  exists (slice_to limit matching).
  split; [reflexivity|]. split; [apply slice_to_prefix|].
  split; [apply slice_to_length|].
  intros Hgiven. subst matching. rewrite Hgiven.
  set (matching := List.filter _ _).
  assert (Hall : Forall (fun sale => option_map PStr lead_id
                                     = dict_get "lead_id" sale) matching).
  { apply List.Forall_forall. intros sale Hin.
    apply List.filter_In in Hin as [_ Hsale].
    destruct (dict_get "lead_id" sale) as [[| | |l| | |]|]; try discriminate.
    apply bool_decide_eq_true in Hsale. rewrite <- Hsale. reflexivity. }
  destruct (slice_to_prefix limit matching) as [rest Hrest].
  rewrite Hrest in Hall at 1. apply Forall_app in Hall as [Hall _]. exact Hall.
Qed.

(** X19. Only [update_lead_status] and [concluir_compra] can change what
    the server holds: a call of any other tool name, known or not,
    answered or refused, leaves leads, sales and clock as they were and
    sleeps the configured latency once if latency is simulated. *)
Theorem call_reads_leave_data (lower : string -> string) (s : Server)
    (tool_name : string) (parameters : option PyDict) :
  tool_name <> "update_lead_status" ->
  tool_name <> "concluir_compra" ->
  snd (call lower env s tool_name parameters)
  = (if simulate_latency s then
       mkServer true (latency_ms s) (_leads s) (_sales_history s)
                (slept s ++ [latency_ms s / 1000]%Q)%list (utc_reads s)
     else s).
Proof.
  intros Hupdate Hcompra. unfold call.
  set (s0 := if simulate_latency s then _ else s).
  assert (Hs0 : s0 = if simulate_latency s then
                       mkServer true (latency_ms s) (_leads s) (_sales_history s)
                                (slept s ++ [latency_ms s / 1000]%Q)%list
                                (utc_reads s)
                     else s).
  { subst s0. destruct (simulate_latency s); reflexivity. }
  rewrite <- Hs0. clearbody s0. clear Hs0.
  destruct (BaseMCP._validate_tool_exists _ _ _ _); [|reflexivity].
  destruct (String.eqb_spec tool_name "update_lead_status"); [congruence|].
  destruct (String.eqb_spec tool_name "concluir_compra"); [congruence|].
  unfold checked_keywords, with_outcome.
  repeat match goal with
         | |- context [if ?b then _ else _] => destruct b
         | |- context [match ?x with _ => _ end] => destruct x
         end; reflexivity.
Qed.

End MockCRMOperations.

Section BaseMCPFacts.
Import BaseMCP.

(** X20. [_validate_required_params] passes exactly when every required
    parameter is a key of [params] with a value other than [None]; it
    raises nothing but [ValueError]. *)
Theorem required_params_are_present_and_not_none (params : PyDict)
    (required : list string) (tool_name : string) :
  (_validate_required_params params required tool_name = Returns tt
   <-> Forall (fun param => exists v, dict_get param params = Some v
                                      /\ v <> PNone) required)
  /\ (forall e, _validate_required_params params required tool_name = Raises e ->
        e = ValueError (required_params_message params required tool_name)
        /\ missing_params params required <> []).
Proof.
  unfold _validate_required_params, missing_params.
  set (absent := fun param => match dict_get param params with
                              | None | Some PNone => true
                              | Some _ => false
                              end).
  assert (Hpresent : forall param,
             absent param = false
             <-> exists v, dict_get param params = Some v /\ v <> PNone).
  { intros param. unfold absent.
    destruct (dict_get param params) as [[| | | | | |]|]; split;
      try discriminate; try (intros (v & [= <-] & Hv); congruence);
      try (intros (v & [=] & _)); intros _; eexists; split;
      try reflexivity; discriminate. }
  split.
  - split.
    + intros Hok. apply List.Forall_forall. intros param Hin.
      apply Hpresent. destruct (absent param) eqn:Habsent; [|reflexivity].
      assert (Hm : In param (List.filter absent required))
        by (apply List.filter_In; auto).
      destruct (List.filter absent required); [destruct Hm|discriminate].
    + intros Hall. destruct (List.filter absent required) as [|param rest] eqn:Hf;
        [reflexivity|].
      assert (Hm : In param (List.filter absent required))
        by (rewrite Hf; left; reflexivity).
      apply List.filter_In in Hm as [Hin Habsent].
      rewrite List.Forall_forall in Hall.
      apply Hall, Hpresent in Hin. congruence.
  - intros e. destruct (List.filter absent required); [discriminate|].
    intros [= <-]. split; [reflexivity|discriminate].
Qed.

End BaseMCPFacts.

Section MockCRMOperationRuns.
Import MockCRM.

Lemma update_is_visible_to_lookup_witness :
  let s' := snd (_update_lead_status Samples.crm_env (Some "lead_001")
                                     (Some "qualified") (Some "called back")
                                     Samples.crm_server) in
  exists lead',
    _get_lead_info (Some "lead_001") None s'
    = [("success", PBool true); ("lead", model_dump lead')]
    /\ status_value (MockCRM.status lead') = "qualified".
Proof.
  destruct (update_is_visible_to_lookup Samples.crm_env "lead_001" "qualified"
              (Some "called back")
              (default (mkLead "" None None None None NEW COLD None None 0 0)
                       (dict_get "lead_001" (_leads Samples.crm_server)))
              QUALIFIED Samples.crm_server)
    as (lead' & _ & Hlookup & Hstatus & _).
  - discriminate.
  - discriminate.
  - reflexivity.
  - reflexivity.
  - exists lead'. split; [exact Hlookup | exact Hstatus].
Defined.

Lemma call_reads_leave_data_witness :
  snd (Samples.crm_call Samples.crm_server "get_lead_info"
                        [("lead_id", PStr "lead_001")])
  = Samples.crm_server.
Proof.
  apply (call_reads_leave_data Samples.crm_env ascii_lower Samples.crm_server
           "get_lead_info" (Some [("lead_id", PStr "lead_001")]));
    discriminate.
Defined.

End MockCRMOperationRuns.

(** ** The CRM client: cache and retries together *)

Section CRMToolPolicies.
Import Retry CRMTool.

Context {S : Type}.
Variable provider_call : S -> string -> PyDict -> outcome PyDict * S.
Variable json_dumps : PyDict -> string.
Variable time_time : nat -> Q.

#[local] Abbreviation read_body' := (CRMTool.read_body provider_call json_dumps time_time).
#[local] Abbreviation read' := (CRMTool.read provider_call json_dumps time_time).
#[local] Abbreviation read_key' := (CRMTool.read_key json_dumps).
#[local] Abbreviation update' := (CRMTool.update_lead_status provider_call).

Lemma read_body_identified (c : ReadCall) :
  identified c = true ->
  read_body' c
  = CRMTool.cached_call provider_call json_dumps time_time (read_name c)
                        (read_params c) (read_failure c).
Proof.
  destruct c as [lead_id email|lead_id limit]; cbn; [|reflexivity].
  intros Hid. unfold get_lead_info_body.
  destruct (opt_truthy lead_id), (opt_truthy email); try discriminate;
    reflexivity.
Qed.

(** A read that finds no entry and whose provider call fails. *)
Lemma read_body_fails (c : ReadCall) (t : Tool S) (e : exn) (s' : S) :
  identified c = true ->
  cache_enabled t = false \/ _cache t !! read_key' c = None ->
  provider_call (crm_server t) (read_name c) (read_params c) = (Raises e, s') ->
  read_body' c t
  = (Raises (RuntimeError (read_failure c ++ ": " ++ exn_str e)),
     mkTool s' (cache_enabled t) (cache_ttl t) (_cache t) (time_reads t)
            (Datatypes.S (server_calls t))).
Proof.
  intros Hid Hmiss Hp. rewrite (read_body_identified c Hid).
  unfold CRMTool.cached_call, cache_lookup, fetch.
  fold (CRMTool.read_key json_dumps c).
  destruct Hmiss as [Hoff|Hnone].
  - rewrite Hoff. cbv beta iota zeta. rewrite Hp, Hoff. reflexivity.
  - destruct (cache_enabled t) eqn:Hen; rewrite ?Hnone; cbv beta iota zeta;
      rewrite Hp, ?Hen; reflexivity.
Qed.

(** X21. With caching disabled every read goes to the provider: an
    answer is returned in one attempt, nothing is stored and the clock is
    not read. *)
Theorem cache_disabled_always_calls_provider (c : ReadCall) (t : Tool S)
    (answer : PyDict) (s' : S) :
  cache_enabled t = false ->
  identified c = true ->
  provider_call (crm_server t) (read_name c) (read_params c)
  = (Returns answer, s') ->
  read' c t
  = mkRun (Returns answer)
          (mkTool s' false (cache_ttl t) (_cache t) (time_reads t)
                  (Datatypes.S (server_calls t)))
          1 [].
Proof.
  intros Hoff Hid Hp. rewrite read_unfold.
  apply wrapper_first_success; [reflexivity|].
  rewrite (read_body_identified c Hid).
  unfold CRMTool.cached_call, cache_lookup, fetch.
  rewrite Hoff. cbv beta iota zeta. rewrite Hp, Hoff. reflexivity.
Qed.

(** X22. A read that finds no cache entry while the provider refuses
    every call: the provider is called three times, with sleeps of 1 and
    2 seconds in between, and the call raises [RuntimeError] with the
    operation's failure text and the text of the last provider error;
    cache and clock are as before. *)
Theorem provider_failure_is_retried_three_times (c : ReadCall) (t : Tool S) :
  identified c = true ->
  cache_enabled t = false \/ _cache t !! read_key' c = None ->
  (forall s, exists e s',
      provider_call s (read_name c) (read_params c) = (Raises e, s')) ->
  let run := read' c t in
  (exists e, result run
             = Raises (RuntimeError (read_failure c ++ ": " ++ exn_str e)))
  /\ invocations run = 3%nat
  /\ sleeps run = [1; 2]%Q
  /\ server_calls (world run) = (3 + server_calls t)%nat
  /\ _cache (world run) = _cache t
  /\ time_reads (world run) = time_reads t.
Proof.
  intros Hid Hmiss Hfail. cbv zeta.
  destruct (Hfail (crm_server t)) as (e1 & s1 & H1).
  destruct (Hfail s1) as (e2 & s2 & H2).
  destruct (Hfail s2) as (e3 & s3 & H3).
  pose proof (read_body_fails c t e1 s1 Hid Hmiss H1) as B1.
  pose proof (read_body_fails c
                (mkTool s1 (cache_enabled t) (cache_ttl t) (_cache t)
                        (time_reads t) (Datatypes.S (server_calls t)))
                e2 s2 Hid Hmiss H2) as B2.
  pose proof (read_body_fails c
                (mkTool s2 (cache_enabled t) (cache_ttl t) (_cache t)
                        (time_reads t)
                        (Datatypes.S (Datatypes.S (server_calls t))))
                e3 s3 Hid Hmiss H3) as B3.
  cbn [crm_server cache_enabled cache_ttl _cache time_reads server_calls]
    in B2, B3.
  rewrite read_unfold.
  rewrite (wrapper_three_attempts (read_body' c) _ _ _ _ _ _ _ B1 B2 B3).
  cbn [result invocations sleeps world server_calls _cache time_reads].
  repeat split. eauto.
Qed.

(** X23. [clear_cache] empties the cache and nothing else: the next read
    goes to the provider, whatever was cached, and its answer is the only
    entry afterwards. *)
Theorem clear_cache_forces_fresh_read (c : ReadCall) (t : Tool S)
    (answer : PyDict) (s' : S) :
  cache_enabled t = true ->
  identified c = true ->
  provider_call (crm_server t) (read_name c) (read_params c)
  = (Returns answer, s') ->
  read' c (clear_cache t)
  = mkRun (Returns answer)
          (mkTool s' true (cache_ttl t)
                  {[read_key' c := (answer, time_time (time_reads t))]}
                  (Datatypes.S (time_reads t)) (Datatypes.S (server_calls t)))
          1 [].
Proof.
  intros Hon Hid Hp. rewrite read_unfold.
  apply wrapper_first_success; [reflexivity|].
  rewrite (read_body_identified c Hid).
  rewrite (cached_call_miss provider_call json_dumps time_time _ _ _
             (clear_cache t) answer s'); [reflexivity|exact Hon|apply lookup_empty|exact Hp].
Qed.

(** An update the provider answers. *)
Lemma tool_update_run (lead_id status notes : option string)
    (t : Tool S) (answer : PyDict) (s' : S) :
  provider_call (crm_server t) "update_lead_status"
                [("lead_id", of_opt lead_id); ("status", of_opt status);
                 ("notes", of_opt notes)]
  = (Returns answer, s') ->
  update' lead_id status notes t
  = mkRun (Returns answer)
          (mkTool s' (cache_enabled t) (cache_ttl t)
                  (if cache_enabled t then
                     filter (fun entry =>
                               contains (lead_mention lead_id) (fst entry) = false)
                            (_cache t)
                   else _cache t)
                  (time_reads t) (Datatypes.S (server_calls t)))
          1 [].
Proof.
  intros Hp. unfold CRMTool.update_lead_status.
  apply wrapper_first_success; [reflexivity|].
  unfold update_lead_status_body. rewrite Hp. reflexivity.
Qed.

(** X24. An update the provider answers is made once and drops from the
    cache exactly the entries whose key contains the text
    ["lead_id": "<id>"] for the lead updated; every other entry stays as
    it was, and the clock is not read. *)
Theorem update_drops_entries_mentioning_lead (lead_id status notes : option string)
    (t : Tool S) (answer : PyDict) (s' : S) :
  provider_call (crm_server t) "update_lead_status"
                [("lead_id", of_opt lead_id); ("status", of_opt status);
                 ("notes", of_opt notes)]
  = (Returns answer, s') ->
  let run := update' lead_id status notes t in
  result run = Returns answer
  /\ invocations run = 1%nat
  /\ crm_server (world run) = s'
  /\ server_calls (world run) = Datatypes.S (server_calls t)
  /\ time_reads (world run) = time_reads t
  /\ (forall key,
        _cache (world run) !! key
        = if cache_enabled t && contains (lead_mention lead_id) key
          then None else _cache t !! key).
Proof.
  intros Hp. cbv zeta. rewrite (tool_update_run _ _ _ _ _ _ Hp).
  cbn [result invocations world crm_server server_calls time_reads _cache].
  repeat split. intros key.
  destruct (cache_enabled t); cbn [andb]; [|reflexivity].
  destruct (contains (lead_mention lead_id) key) eqn:Hm.
  - apply map_lookup_filter_None. right. intros v _ Hfalse.
    cbn in Hfalse. congruence.
  - destruct (_cache t !! key) as [v|] eqn:Hk.
    + apply map_lookup_filter_Some. split; [exact Hk|exact Hm].
    + apply map_lookup_filter_None. left. exact Hk.
Qed.

(** X25. An entry whose key does not contain that text survives the
    update and keeps being served: a read cached before the update under
    such a key (a lookup by e-mail, whose key holds ["lead_id": null]) is
    answered from the cache after the update, without asking the
    provider, as long as the entry is younger than the TTL. *)
Theorem unmentioned_entry_is_served_after_update (c : ReadCall)
    (lead_id status notes : option string) (t : Tool S)
    (cached answer : PyDict) (stored : Q) (s' : S) :
  cache_enabled t = true ->
  identified c = true ->
  _cache t !! read_key' c = Some (cached, stored) ->
  contains (lead_mention lead_id) (read_key' c) = false ->
  provider_call (crm_server t) "update_lead_status"
                [("lead_id", of_opt lead_id); ("status", of_opt status);
                 ("notes", of_opt notes)]
  = (Returns answer, s') ->
  (time_time (time_reads t) - stored < inject_Z (cache_ttl t))%Q ->
  let t1 := world (update' lead_id status notes t) in
  crm_server t1 = s'
  /\ result (read' c t1) = Returns cached
  /\ invocations (read' c t1) = 1%nat
  /\ crm_server (world (read' c t1)) = s'
  /\ server_calls (world (read' c t1)) = server_calls t1.
Proof.
  intros Hon Hid Hentry Hkey Hp Hage. cbv zeta.
  rewrite (tool_update_run _ _ _ _ _ _ Hp). cbn [world].
  rewrite Hon. split; [reflexivity|].
  rewrite read_unfold.
  erewrite wrapper_first_success; [|reflexivity|].
  2:{ rewrite (read_body_identified c Hid).
      apply (cached_call_hit provider_call json_dumps time_time _ _ _ _
               cached stored); [reflexivity| |exact Hage].
      cbn [_cache]. apply map_lookup_filter_Some.
      split; [exact Hentry|exact Hkey]. }
  repeat split.
Qed.

End CRMToolPolicies.

Section CRMToolPolicyRuns.
Import Retry CRMTool.

#[local] Abbreviation sample_read' :=
  (CRMTool.read Samples.crm_call Samples.json_dumps Samples.half_hours).

Lemma cache_disabled_always_calls_provider_witness :
  sample_read' (GetLeadInfo (Some "lead_001") None)
               (mkTool Samples.crm_server false 3600 ∅ 0 0)
  = mkRun (Returns Samples.lead_001_answer)
          (mkTool Samples.crm_server false 3600 ∅ 0 1) 1 [].
Proof.
  apply (cache_disabled_always_calls_provider Samples.crm_call
           Samples.json_dumps Samples.half_hours
           (GetLeadInfo (Some "lead_001") None)
           (mkTool Samples.crm_server false 3600 ∅ 0 0)
           Samples.lead_001_answer Samples.crm_server);
    reflexivity.
Defined.

Lemma provider_failure_is_retried_three_times_witness :
  let run := CRMTool.read Samples.refusing Samples.json_dumps
                          Samples.half_hours (GetSalesHistory None 10)
                          (mkTool 0%nat true 3600 ∅ 0 0) in
  invocations run = 3%nat /\ sleeps run = [1; 2]%Q
  /\ crm_server (world run) = 3%nat.
Proof.
  destruct (provider_failure_is_retried_three_times Samples.refusing
              Samples.json_dumps Samples.half_hours (GetSalesHistory None 10)
              (mkTool 0%nat true 3600 ∅ 0 0))
    as (_ & Hi & Hs & _).
  - reflexivity.
  - right. reflexivity.
  - intros s. eexists _, _. reflexivity.
  - cbv zeta. split; [exact Hi|]. split; [exact Hs|]. vm_compute. reflexivity.
Defined.

Lemma clear_cache_forces_fresh_read_witness :
  let run := sample_read' Samples.by_email
                          (clear_cache Samples.tool_after_lookup) in
  result run = Returns Samples.lead_001_answer
  /\ server_calls (world run) = 2%nat
  /\ size (_cache (world run)) = 1%nat.
Proof.
  cbv zeta.
  rewrite (clear_cache_forces_fresh_read Samples.crm_call Samples.json_dumps
             Samples.half_hours Samples.by_email Samples.tool_after_lookup
             Samples.lead_001_answer Samples.crm_server).
  - cbn [result world server_calls _cache]. split; [reflexivity|].
    split; [vm_compute; reflexivity|]. apply map_size_singleton.
  - vm_compute. reflexivity.
  - reflexivity.
  - vm_compute. reflexivity.
Defined.

(** After a lookup by e-mail and one by id, updating the lead drops the
    entry of the lookup by id and keeps the one of the lookup by e-mail. *)
Lemma update_drops_entries_mentioning_lead_witness :
  let by_id := GetLeadInfo (Some "lead_001") None in
  let t := world (sample_read' by_id Samples.tool_after_lookup) in
  let t' := world (CRMTool.update_lead_status Samples.crm_call
                     (Some "lead_001") (Some "qualified") None t) in
  is_Some (_cache t !! read_key Samples.json_dumps by_id)
  /\ _cache t' !! read_key Samples.json_dumps by_id = None
  /\ _cache t' !! read_key Samples.json_dumps Samples.by_email
     = _cache t !! read_key Samples.json_dumps Samples.by_email.
Proof.
  cbv zeta. split; [vm_compute; eauto|].
  destruct (update_drops_entries_mentioning_lead Samples.crm_call
              (Some "lead_001") (Some "qualified") None
              (world (sample_read' (GetLeadInfo (Some "lead_001") None)
                                   Samples.tool_after_lookup))
              (fst (MockCRM._update_lead_status Samples.crm_env
                      (Some "lead_001") (Some "qualified") None
                      Samples.crm_server))
              (snd (MockCRM._update_lead_status Samples.crm_env
                      (Some "lead_001") (Some "qualified") None
                      Samples.crm_server)))
    as (_ & _ & _ & _ & _ & Hcache).
  - vm_compute. reflexivity.
  - rewrite !Hcache. split; vm_compute; reflexivity.
Defined.

(** The lookup by e-mail made before the update is answered from the
    cache after it: the answer still shows the status [new], while the
    server holds [qualified]. *)
Lemma unmentioned_entry_is_served_after_update_witness :
  result (sample_read' Samples.by_email Samples.tool_after_update)
  = Returns Samples.lead_001_answer
  /\ MockCRM._get_lead_info None (Some "john.doe@example.com")
       (crm_server Samples.tool_after_update)
     <> Samples.lead_001_answer.
Proof.
  destruct (unmentioned_entry_is_served_after_update Samples.crm_call
              Samples.json_dumps Samples.half_hours Samples.by_email
              (Some "lead_001") (Some "qualified") None
              Samples.tool_after_lookup Samples.lead_001_answer
              (fst (MockCRM._update_lead_status Samples.crm_env
                      (Some "lead_001") (Some "qualified") None
                      Samples.crm_server))
              0%Q
              (snd (MockCRM._update_lead_status Samples.crm_env
                      (Some "lead_001") (Some "qualified") None
                      Samples.crm_server)))
    as (_ & Hresult & _).
  - reflexivity.
  - reflexivity.
  - vm_compute. reflexivity.
  - vm_compute. reflexivity.
  - vm_compute. reflexivity.
  - vm_compute. reflexivity.
  - split; [exact Hresult|]. vm_compute. intros H. discriminate H.
Defined.

End CRMToolPolicyRuns.

(** ** The dispatcher on registered tools *)

Section MCPToolsCalls.
Import MCPTools.

Variable env : Env.

Lemma http_fallback_spec (m : Manager) (tool : MCPTool) (tool_name : string)
    (params : PyDict) (log : list Event) :
  let run := http_fallback env m tool tool_name params log in
  let post := HttpPost (mcp_url tool ++ "/mcp/call") tool_name params
                       (default 30%Q (mcp_timeout m)) in
  snd run = (log ++ [post])%list
  /\ match fst run with
     | Returns body =>
         http_post env log (mcp_url tool ++ "/mcp/call") tool_name params
                   (default 30%Q (mcp_timeout m))
         = HttpJson body
     | Raises e => exists msg, e = RuntimeError msg
     end.
Proof.
  cbv zeta. unfold http_fallback.
  destruct (http_post env log _ tool_name params _); cbn [fst snd];
    split; try reflexivity; eauto.
Qed.

(** X26. A call of a registered tool tries the server object first when
    the manager holds one for the tool's URL, and goes over HTTP only when
    there is none or its call raised: one POST to [<mcp_url>/mcp/call]
    with the same parameters and the configured timeout (30 seconds by
    default).  An answer of the server object is returned as it is; the
    only exception such a call raises is the [RuntimeError] of a failed
    POST, never the [ValueError] of an unknown tool. *)
Theorem call_tool_direct_then_http (m : Manager) (tool_name : string)
    (tool : MCPTool) (given : option PyDict) (log : list Event) :
  dict_get tool_name (tools m) = Some tool ->
  let server_name := _get_server_name_from_url (mcp_url tool) in
  let run := call_tool env m tool_name given log in
  exists params,
    let direct := DirectCall server_name tool_name params in
    let post := HttpPost (mcp_url tool ++ "/mcp/call") tool_name params
                         (default 30%Q (mcp_timeout m)) in
    let posted (before : list Event) :=
      match fst run with
      | Returns body =>
          http_post env before (mcp_url tool ++ "/mcp/call") tool_name params
                    (default 30%Q (mcp_timeout m))
          = HttpJson body
      | Raises e => exists msg, e = RuntimeError msg
      end in
    (parameters tool = None -> params = default [] given)
    /\ (((server_name ∈ servers m)
         /\ snd run = (log ++ [direct])%list
         /\ server_call env log server_name tool_name params = fst run
         /\ exists answer, fst run = Returns answer)
        \/ ((server_name ∈ servers m)
            /\ snd run = (log ++ [direct; post])%list
            /\ (exists e, server_call env log server_name tool_name params
                          = Raises e)
            /\ posted (log ++ [direct])%list)
        \/ ((server_name ∉ servers m)
            /\ snd run = (log ++ [post])%list
            /\ posted log)).
Proof.
  intros Htool. cbv zeta. unfold call_tool. rewrite Htool.
  set (params := match parameters tool with
                 | Some (_ :: _ as defaults) => dict_merge defaults (default [] given)
                 | _ => default [] given
                 end).
  exists params. split.
  { intros Hnone. subst params. rewrite Hnone. reflexivity. }
  destruct (bool_decide_reflect
              (_get_server_name_from_url (mcp_url tool) ∈ servers m))
    as [Hheld|Hnot].
  - destruct (server_call env log _ tool_name params) as [answer|e] eqn:Hdirect.
    + left. cbn [fst snd]. repeat split; eauto.
    + right. left.
      pose proof (http_fallback_spec m tool tool_name params
                    (log ++ [DirectCall (_get_server_name_from_url (mcp_url tool))
                                        tool_name params])%list) as [Hlog Hrun].
      split; [exact Hheld|]. split; [rewrite Hlog, <- app_assoc; reflexivity|].
      split; [eauto|exact Hrun].
  - right. right.
    pose proof (http_fallback_spec m tool tool_name params log) as [Hlog Hrun].
    split; [exact Hnot|]. split; [exact Hlog | exact Hrun].
Qed.

End MCPToolsCalls.

Section MCPToolsLists.
Import MCPTools.

Variable env : ListEnv.

Lemma list_over_http_spec (m : Manager) (url : string) (log : list ListEvent) :
  exists timeout,
    snd (list_over_http env m url log)
    = (log ++ [HttpGet (url ++ "/mcp/tools") timeout])%list
    /\ (timeout <= 10)%Q
    /\ (forall t, mcp_timeout m = Some t -> (timeout <= t)%Q)
    /\ ((forall body, http_get env log (url ++ "/mcp/tools") timeout
                      <> HttpJson body) ->
        fst (list_over_http env m url log) = []).
Proof.
  unfold list_over_http.
  set (timeout := match mcp_timeout m with
                  | Some t => if Qle_bool t 10 then t else 10%Q
                  | None => 10%Q
                  end).
  exists timeout. split; [|split; [|split]].
  - destruct (http_get env log _ timeout); [destruct (listed body)|..];
      reflexivity.
  - subst timeout. destruct (mcp_timeout m) as [t|]; [|apply Qle_refl].
    destruct (Qle_bool t 10) eqn:Hle; [apply Qle_bool_iff, Hle|apply Qle_refl].
  - intros t Ht. subst timeout. rewrite Ht.
    destruct (Qle_bool t 10) eqn:Hle; [apply Qle_refl|].
    apply Qlt_le_weak, Qnot_le_lt. intros H. apply Qle_bool_iff in H. congruence.
  - intros Hfail. destruct (http_get env log _ timeout) as [body| | | | |];
      try reflexivity.
    destruct (Hfail body eq_refl).
Qed.

(** X27. [list_tools] never raises.  Without URL it lists the registered
    names and contacts nobody.  With a URL it asks the server object held
    for that URL, if any, first; otherwise, or when that fails, it makes
    one GET to [<url>/mcp/tools] with a timeout of at most 10 seconds and
    at most the configured one, and every HTTP failure gives the empty
    list. *)
Theorem list_tools_falls_back_to_empty (m : Manager) (url : option string)
    (log : list ListEvent) :
  let run := list_tools env m url log in
  (opt_truthy url = false ->
   run = (map PStr (dict_keys (tools m)), log))
  /\ (opt_truthy url = true ->
      let mcp_url := default "" url in
      let server_name := _get_server_name_from_url mcp_url in
      ((server_name ∈ servers m)
       /\ snd run = (log ++ [DirectList server_name])%list
       /\ exists tool_dicts,
            server_list_tools env log server_name = Returns tool_dicts
            /\ names_of tool_dicts = Some (fst run))
      \/ exists timeout before,
           snd run = (before ++ [HttpGet (mcp_url ++ "/mcp/tools") timeout])%list
           /\ (before = log /\ server_name ∉ servers m
               \/ before = (log ++ [DirectList server_name])%list
                  /\ server_name ∈ servers m)
           /\ (timeout <= 10)%Q
           /\ (forall t, mcp_timeout m = Some t -> (timeout <= t)%Q)
           /\ ((forall body, http_get env before (mcp_url ++ "/mcp/tools") timeout
                             <> HttpJson body) ->
               fst run = [])).
Proof.
  cbv zeta. unfold list_tools. split; intros Hurl; rewrite Hurl; [reflexivity|].
  set (mcp_url := default "" url).
  destruct (bool_decide_reflect (_get_server_name_from_url mcp_url ∈ servers m))
    as [Hheld|Hnot].
  - destruct (server_list_tools env log _) as [tool_dicts|e] eqn:Hdirect.
    + destruct (names_of tool_dicts) as [names|] eqn:Hnames.
      * left. cbn [fst snd]. repeat split; eauto.
      * right.
        destruct (list_over_http_spec m mcp_url
                    (log ++ [DirectList (_get_server_name_from_url mcp_url)])%list)
          as (timeout & Hlog & Hcap & Hset & Hfail).
        exists timeout, (log ++ [DirectList (_get_server_name_from_url mcp_url)])%list.
        repeat split; auto.
    + right.
      destruct (list_over_http_spec m mcp_url
                  (log ++ [DirectList (_get_server_name_from_url mcp_url)])%list)
        as (timeout & Hlog & Hcap & Hset & Hfail).
      exists timeout, (log ++ [DirectList (_get_server_name_from_url mcp_url)])%list.
      repeat split; auto.
  - right.
    destruct (list_over_http_spec m mcp_url log)
      as (timeout & Hlog & Hcap & Hset & Hfail).
    exists timeout, log. repeat split; auto.
Qed.

End MCPToolsLists.

Section MCPToolsCallRuns.
Import MCPTools.

(** In the sample configuration the CRM server object is held but refuses
    every call, and no HTTP request is answered. *)
Lemma call_tool_direct_then_http_witness :
  exists msg,
    call_tool Samples.mcp_env Samples.manager "get_lead_info"
              (Some [("lead_id", PStr "lead_001")]) []
    = (Raises (RuntimeError msg),
       [DirectCall "mock_crm" "get_lead_info" [("lead_id", PStr "lead_001")];
        HttpPost "http://localhost:8001/mcp/call" "get_lead_info"
                 [("lead_id", PStr "lead_001")] 30]).
Proof.
  destruct (call_tool_direct_then_http Samples.mcp_env Samples.manager
              "get_lead_info"
              (mkMCPTool "get_lead_info" "http://localhost:8001" "lead lookup" None)
              (Some [("lead_id", PStr "lead_001")]) [])
    as (params & Hparams & Hcases).
  - vm_compute. reflexivity.
  - eexists. vm_compute. reflexivity.
Defined.

End MCPToolsCallRuns.

(** ** The registry as a whole *)

Section FactoryAll.
Import Factory.

Context {Settings : Type}.
Implicit Types st : State Settings.

(** A request for a known name in an initialised, well-formed registry. *)
Lemma get_server_known (server_name : string) (latency : bool)
    (class : ServerClass) st :
  _settings st <> None -> well_formed st ->
  dict_get server_name server_map = Some class ->
  exists server st',
    get_server server_name latency st = (Returns server, st')
    /\ _settings st' <> None /\ well_formed st'
    /\ class_of server = class /\ simulate_latency server = latency
    /\ _instances st' !! cache_key server_name latency = Some server
    /\ (forall key other, _instances st !! key = Some other ->
                          _instances st' !! key = Some other)
    /\ (constructed st <= constructed st' <= S (constructed st))%nat.
Proof.
  intros Hset Hwf Hclass.
  pose proof (get_server_well_formed server_name latency st Hwf) as Hwf'.
  pose proof (get_server_keeps server_name latency st) as (Hs' & _ & Hkeep).
  destruct (get_server_cases server_name latency st)
    as [[Hnone _]|[(x & _ & Hc & H)|[(msg & _ & _ & Hk & _)|(c & _ & _ & Hk & H)]]];
    try congruence.
  - rewrite H in *. cbn [snd] in *. exists x, st.
    destruct (Hwf _ _ Hc) as (n' & l' & c & Hk & Hkey & Hcl & Hfl & _).
    apply cache_key_inj in Hkey as [<- <-].
    repeat split; auto; try congruence; lia.
  - rewrite H in *. cbn [snd] in *. eexists _, _. split; [reflexivity|].
    cbn [_settings _instances constructed class_of simulate_latency] in *.
    repeat split; auto; try congruence; try lia.
    apply lookup_insert_eq.
Qed.

Lemma get_server_hit (server_name : string) (latency : bool)
    (server : Instance) st :
  _settings st <> None ->
  _instances st !! cache_key server_name latency = Some server ->
  get_server server_name latency st = (Returns server, st).
Proof.
  intros Hset Hc. unfold get_server.
  destruct (_settings st); [|congruence]. rewrite Hc. reflexivity.
Qed.

(** X28. In any state reached after [initialize], [get_all_servers]
    returns the nine known names, in the order of the server map, each
    with an object of that name's class and of the requested latency
    flag, constructing at most nine objects; asked again, it returns the
    same objects and changes nothing. *)
Theorem get_all_servers_is_idempotent (settings : Settings)
    (earlier : list (Op Settings)) (start : State Settings) (latency : bool) :
  let st := run_ops earlier (initialize settings start) in
  exists found st',
    get_all_servers latency st = (Returns found, st')
    /\ dict_keys found = dict_keys server_map
    /\ (forall server_name class,
          dict_get server_name server_map = Some class ->
          exists server,
            dict_get server_name found = Some server
            /\ class_of server = class
            /\ simulate_latency server = latency
            /\ _instances st' !! cache_key server_name latency = Some server)
    /\ (constructed st <= constructed st' <= constructed st + 9)%nat
    /\ get_all_servers latency st' = (Returns found, st').
Proof.
  intros st.
  destruct (run_ops_well_formed earlier (initialize settings start)
              (initialize_well_formed settings start) ltac:(discriminate))
    as [Hwf0 Hset0]. fold st in Hwf0, Hset0. clearbody st.
  destruct (get_server_known "mock_crm" latency _ st Hset0 Hwf0 eq_refl)
    as (s1 & st1 & G1 & Hset1 & Hwf1 & C1 & F1 & I1 & K1 & N1).
  destruct (get_server_known "mock_catalog" latency _ st1 Hset1 Hwf1 eq_refl)
    as (s2 & st2 & G2 & Hset2 & Hwf2 & C2 & F2 & I2 & K2 & N2).
  destruct (get_server_known "mock_analytics" latency _ st2 Hset2 Hwf2 eq_refl)
    as (s3 & st3 & G3 & Hset3 & Hwf3 & C3 & F3 & I3 & K3 & N3).
  destruct (get_server_known "mock_ifood" latency _ st3 Hset3 Hwf3 eq_refl)
    as (s4 & st4 & G4 & Hset4 & Hwf4 & C4 & F4 & I4 & K4 & N4).
  destruct (get_server_known "mock_restaurant" latency _ st4 Hset4 Hwf4 eq_refl)
    as (s5 & st5 & G5 & Hset5 & Hwf5 & C5 & F5 & I5 & K5 & N5).
  destruct (get_server_known "mock_recommendation" latency _ st5 Hset5 Hwf5 eq_refl)
    as (s6 & st6 & G6 & Hset6 & Hwf6 & C6 & F6 & I6 & K6 & N6).
  destruct (get_server_known "mock_contract" latency _ st6 Hset6 Hwf6 eq_refl)
    as (s7 & st7 & G7 & Hset7 & Hwf7 & C7 & F7 & I7 & K7 & N7).
  destruct (get_server_known "mock_pricing" latency _ st7 Hset7 Hwf7 eq_refl)
    as (s8 & st8 & G8 & Hset8 & Hwf8 & C8 & F8 & I8 & K8 & N8).
  destruct (get_server_known "mock_qualification" latency _ st8 Hset8 Hwf8 eq_refl)
    as (s9 & st9 & G9 & Hset9 & Hwf9 & C9 & F9 & I9 & K9 & N9).
  exists [("mock_crm", s1); ("mock_catalog", s2); ("mock_analytics", s3);
          ("mock_ifood", s4); ("mock_restaurant", s5);
          ("mock_recommendation", s6); ("mock_contract", s7);
          ("mock_pricing", s8); ("mock_qualification", s9)], st9.
  assert (J1 := K9 _ _ (K8 _ _ (K7 _ _ (K6 _ _ (K5 _ _ (K4 _ _ (K3 _ _
                  (K2 _ _ I1)))))))).
  assert (J2 := K9 _ _ (K8 _ _ (K7 _ _ (K6 _ _ (K5 _ _ (K4 _ _ (K3 _ _ I2))))))).
  assert (J3 := K9 _ _ (K8 _ _ (K7 _ _ (K6 _ _ (K5 _ _ (K4 _ _ I3)))))).
  assert (J4 := K9 _ _ (K8 _ _ (K7 _ _ (K6 _ _ (K5 _ _ I4))))).
  assert (J5 := K9 _ _ (K8 _ _ (K7 _ _ (K6 _ _ I5)))).
  assert (J6 := K9 _ _ (K8 _ _ (K7 _ _ I6))).
  assert (J7 := K9 _ _ (K8 _ _ I7)).
  assert (J8 := K9 _ _ I8).
  split; [|split; [reflexivity|split; [|split; [lia|]]]].
  - unfold get_all_servers. cbn [fold_left].
    rewrite G1, G2, G3, G4, G5, G6, G7, G8, G9. reflexivity.
  - intros server_name class Hclass. unfold server_map in Hclass.
    cbn [dict_get] in Hclass. cbn [dict_get].
    repeat match type of Hclass with
           | (if String.eqb ?a ?b then _ else _) = _ =>
               destruct (String.eqb_spec a b) as [->|_];
               [injection Hclass as <-; eexists; repeat split; eassumption|]
           end.
    discriminate.
  - unfold get_all_servers. cbn [fold_left].
    rewrite (get_server_hit _ _ _ _ Hset9 J1), (get_server_hit _ _ _ _ Hset9 J2),
      (get_server_hit _ _ _ _ Hset9 J3), (get_server_hit _ _ _ _ Hset9 J4),
      (get_server_hit _ _ _ _ Hset9 J5), (get_server_hit _ _ _ _ Hset9 J6),
      (get_server_hit _ _ _ _ Hset9 J7), (get_server_hit _ _ _ _ Hset9 J8),
      (get_server_hit _ _ _ _ Hset9 I9).
    reflexivity.
Qed.

End FactoryAll.

(** ** The HTTP front of a server *)

Section HttpServerFacts.
Import HttpServer.

Context {S : Type}.
Variable server_call : S -> PyValue -> PyValue -> outcome PyDict * S.

#[local] Abbreviation handle := (HttpServer.handle_call server_call).

Ltac settle :=
  repeat (intros;
          match goal with
          | H : _ /\ _ |- _ => destruct H
          | H : exists _, _ |- _ => destruct H
          | H : _ = _ |- _ => discriminate H
          | H : forall d, Json (PDict ?x) <> Json (PDict d) |- _ =>
              destruct (H x eq_refl)
          | H : Json _ = Json _ |- _ => injection H as H
          | H : Returns _ = Returns _ |- _ => injection H as H; subst
          | |- _ /\ _ => split
          | |- _ <-> _ => split
          end);
  try congruence; eauto 8.

(** X29. The status of the answer to a call request.  It is 400 exactly for
    a JSON object whose [tool_name] is missing or falsy, and the server is
    not called then.  Otherwise it is 200, with the server's answer as
    body, exactly when the server returned an answer that [json.dumps]
    accepts; and 500, with an [error] text as only key, in every other
    case: a body that is not a JSON object, an exception of the server,
    or an answer holding a [datetime]. *)
Theorem handle_call_status (request : RequestBody) (s : S) :
  let response := fst (handle request s) in
  let tool_name :=
    match request with
    | Json (PDict data) => default PNone (dict_get "tool_name" data)
    | _ => PNone
    end in
  let parameters :=
    match request with
    | Json (PDict data) => default (PDict []) (dict_get "parameters" data)
    | _ => PDict []
    end in
  (status response = 400
   <-> (exists data, request = Json (PDict data)) /\ py_truthy tool_name = false)
  /\ (status response = 400 -> handle request s
        = (mkResponse 400 [("error", PStr "tool_name is required")], s))
  /\ (status response = 200
      <-> (exists data, request = Json (PDict data))
          /\ py_truthy tool_name = true
          /\ exists result,
               fst (server_call s tool_name parameters) = Returns result
               /\ json_serializable (PDict result) = true
               /\ payload response = result)
  /\ (status response = 200 \/ status response = 400
      \/ status response = 500
         /\ exists text, payload response = [("error", PStr text)])
  /\ ((forall data, request <> Json (PDict data)) -> snd (handle request s) = s).
Proof.
  cbv zeta. destruct request as [v|e]; [destruct v as [| | | | | |data]|];
    cbn [handle_call fst snd].
  1-6,8: cbn [status payload server_error]; settle.
  destruct (py_truthy (default PNone (dict_get "tool_name" data))) eqn:Ht;
    cbn [negb].
  - destruct (server_call s _ _) as [[result|e] s'] eqn:Hcall; cbn [fst snd].
    + destruct (json_serializable (PDict result)) eqn:Hjson;
        cbn [fst snd status payload server_error];
        settle.
    + cbn [fst snd status payload server_error];
        settle.
  - cbn [fst snd status payload]. settle.
Qed.

End HttpServerFacts.

Section HttpCRM.
Import HttpServer MockCRM.

Variable lower : string -> string.
Variable env : Env.
Variable server_call : Server -> PyValue -> PyValue -> outcome PyDict * Server.

(** The server behind the handler is the mock CRM server. *)
Hypothesis Hcrm : forall s tool_name params,
  server_call s (PStr tool_name) (PDict params)
  = call lower env s tool_name (Some params).

Lemma json_serializable_of_opt (o : option string) :
  json_serializable (of_opt o) = true.
Proof. destruct o; reflexivity. Qed.

(** A dumped lead holds its two time stamps as [datetime] values. *)
Lemma model_dump_not_serializable (lead : Lead) :
  json_serializable (model_dump lead) = false.
Proof.
  unfold model_dump. cbn [json_serializable forallb].
  rewrite !json_serializable_of_opt. reflexivity.
Qed.

Lemma call_get_lead_info (lead_id : string) (s : Server) :
  exists s0,
    call lower env s "get_lead_info" (Some [("lead_id", PStr lead_id)])
    = (Returns (_get_lead_info (Some lead_id) None s0), s0)
    /\ _leads s0 = _leads s.
Proof.
  unfold call.
  set (s0 := if MockCRM.simulate_latency s then _ else s).
  exists s0.
  assert (Hleads : _leads s0 = _leads s).
  { subst s0. destruct (MockCRM.simulate_latency s); reflexivity. }
  split; [|exact Hleads]. clearbody s0.
  unfold BaseMCP._validate_tool_exists.
  replace (bool_decide ("get_lead_info" ∈ tool_names)) with true
    by (vm_compute; reflexivity).
  cbn [String.eqb Ascii.eqb Bool.eqb].
  unfold checked_keywords.
  replace (unexpected_keyword ["lead_id"; "email"]
             (default [] (Some [("lead_id", PStr lead_id)])))
    with (@None string) by (vm_compute; reflexivity).
  reflexivity.
Qed.

(** X30. Over HTTP, a lookup that finds the lead is answered with status
    500: the server's answer holds the lead's time stamps as [datetime]
    values, which [json.dumps] refuses.  A lookup that finds nothing is
    answered with status 200 and the [Lead not found] dictionary. *)
Theorem found_lead_is_a_server_error_over_http (lead_id : string) (s : Server) :
  lead_id <> "" ->
  let request :=
    Json (PDict [("tool_name", PStr "get_lead_info");
                 ("parameters", PDict [("lead_id", PStr lead_id)])]) in
  let response := fst (handle_call server_call request s) in
  match dict_get lead_id (_leads s) with
  | Some lead =>
      HttpServer.status response = 500
      /\ HttpServer.payload response
         = [("error", PStr "Object of type datetime is not JSON serializable")]
  | None =>
      HttpServer.status response = 200
      /\ HttpServer.payload response
         = [("error", PStr "Lead not found"); ("lead_id", PStr lead_id);
            ("email", PNone)]
  end.
Proof.
  intros Hid. cbv zeta. unfold handle_call.
  cbn [dict_get String.eqb Ascii.eqb Bool.eqb from_option].
  unfold Datatypes.id. cbn [py_truthy str_truthy negb].
  rewrite Hcrm.
  destruct (call_get_lead_info lead_id s) as (s0 & -> & Hleads).
  unfold _get_lead_info. cbn [opt_truthy].
  rewrite (str_truthy_nonempty _ Hid). cbn [negb andb].
  change (default "" (Some lead_id)) with lead_id. rewrite Hleads.
  destruct (dict_get lead_id (_leads s)) as [lead|].
  - cbn [json_serializable forallb]. rewrite model_dump_not_serializable.
    cbn [andb fst HttpServer.status HttpServer.payload server_error exn_str]. split; reflexivity.
  - cbn [json_serializable forallb of_opt andb fst HttpServer.status HttpServer.payload].
    split; reflexivity.
Qed.

End HttpCRM.

Section HttpCRMRuns.
Import HttpServer.

Lemma found_lead_is_a_server_error_over_http_witness :
  HttpServer.status (fst (handle_call Samples.crm_endpoint
                           (Samples.lookup_request "lead_001")
                           Samples.crm_server)) = 500
  /\ HttpServer.status (fst (handle_call Samples.crm_endpoint
                              (Samples.lookup_request "lead_999")
                              Samples.crm_server)) = 200.
Proof.
  split.
  - apply (found_lead_is_a_server_error_over_http ascii_lower Samples.crm_env
             Samples.crm_endpoint (fun _ _ _ => eq_refl) "lead_001"
             Samples.crm_server).
    discriminate.
  - apply (found_lead_is_a_server_error_over_http ascii_lower Samples.crm_env
             Samples.crm_endpoint (fun _ _ _ => eq_refl) "lead_999"
             Samples.crm_server).
    discriminate.
Defined.

End HttpCRMRuns.
